(** * The Poisson spike source of sPyNNaker, embedded in Rocq

    A shallow embedding of
    [neural_modelling/src/spike_source/poisson/spike_source_poisson.c].

    - The static variables of the file become one [state] record that is
      threaded through the functions.
    - C integers are [Z] with their 32-bit wrap-around written out.  The
      ISO/IEC TR 18037 fixed-point types [accum] ([REAL], s16.15) and
      [unsigned long fract] ([UFRACT], u0.32) are represented by their bit
      patterns.
    - A function that can trap ([rt_error]) or leave the bounds of the
      object it indexes returns a [result]; an array is a list and every
      access to it is checked.
    - The world outside is part of the state: the shared memory region of
      the parameters, the free bytes of the heap, and the trace of the
      calls into the fabric, the recording subsystem and the simulation
      interface.  Log lines are not modelled.
    - The random variates and [EXP] come from libraries that are not in the
      file; they are an interface ([Library]) and the theorems hold for any
      implementation of it.
    - A loop that waits for the hardware (the timer counter in
      [_send_spike], the retry of a send, the end of a transfer in
      [_record_spikes]) is modelled by the state in which it is left. *)

From Stdlib Require Import ZArith Lia Bool List.
From stdpp Require Import base list.

Local Open Scope Z_scope.

(** ** Machine integers and fixed-point numbers *)

(** [uint32_t]: reduction modulo 2^32. *)
Definition u32 (z : Z) : Z := z mod 2 ^ 32.

(** [int32_t] and the bit pattern of an [accum]: two's complement. *)
Definition s32 (z : Z) : Z := (z + 2 ^ 31) mod 2 ^ 32 - 2 ^ 31.

(** [REAL] is [accum]: 32 bits, 15 of them fractional; the value of the bit
    pattern [b] is [b / 2^15].  [UFRACT] is [unsigned long fract]: 32
    fractional bits, the value of [b] is [b / 2^32]. *)
Definition REAL := Z.
Definition UFRACT := Z.

(** [REAL_CONST(1.0)], the constant [1.0k]. *)
Definition REAL_ONE : REAL := 2 ^ 15.

(** [kbits]: a 32-bit word read as an [accum]. *)
Definition kbits (w : Z) : REAL := s32 w.

(** [bitsulr]: the bit pattern of a [UFRACT]. *)
Definition bitsulr (u : UFRACT) : Z := u32 u.

Definition real_add (a b : REAL) : REAL := s32 (a + b).
Definition real_sub (a b : REAL) : REAL := s32 (a - b).
Definition real_neg (a : REAL) : REAL := s32 (- a).

(** [accum * accum]: the exact product brought back to 15 fractional bits
    (rounded down) and wrapped to 32 bits. *)
Definition real_mul (a b : REAL) : REAL := s32 ((a * b) / 2 ^ 15).

(** [accum * unsigned long fract]: the result has the type of higher rank,
    [accum]. *)
Definition real_mul_ufract (a : REAL) (b : UFRACT) : REAL :=
  s32 ((a * b) / 2 ^ 32).

(** The cast [(UFRACT) x] of an [accum]: 17 more fractional bits, the
    integral bits are lost. *)
Definition ufract_of_real (a : REAL) : UFRACT := u32 (a * 2 ^ 17).

(** ** Traps and results *)

Inductive fault : Type :=
| RTE_SWERR      (* rt_error(RTE_SWERR) *)
| BadAccess.     (* an access through NULL or outside the object indexed *)

Inductive result (A : Type) : Type :=
| Ok (a : A)
| Fail (f : fault).

Arguments Ok {A} a.
Arguments Fail {A} f.

Definition bind {A B : Type} (r : result A) (k : A -> result B) : result B :=
  match r with
  | Ok a => k a
  | Fail f => Fail f
  end.

Notation "'let!' x ':=' c1 'in' c2" := (bind c1 (fun x => c2))
  (at level 10, x name, c1 at level 100, c2 at level 200).

(** [a[i]] and [a[i] = x] on an array held as a list. *)
Definition load {A : Type} (a : list A) (i : Z) : result A :=
  match a !! Z.to_nat i with
  | Some x => Ok x
  | None => Fail BadAccess
  end.

Definition store {A : Type} (a : list A) (i : Z) (x : A) : result (list A) :=
  if (Z.to_nat i <? length a)%nat
  then Ok (<[Z.to_nat i := x]> a)
  else Fail BadAccess.

(** ** Data structures *)

(** [spike_source_t] *)
Record spike_source_t : Type := mk_source {
  start_ticks : Z;
  end_ticks : Z;
  is_fast_source : bool;
  exp_minus_lambda : UFRACT;
  mean_isi_ticks : REAL;
  time_to_spike_ticks : REAL
}.

(** [timed_out_spikes]: the two header words and the flexible array. *)
Record timed_out_spikes : Type := mk_spikes {
  tos_time : Z;
  n_buffers : Z;
  out_spikes : list Z
}.

(** What the core does to the world outside, in the order it does it. *)
Inductive event : Type :=
| EvDelay (us : Z)                         (* spin1_delay_us at the tick start *)
| EvOutSpikesReset                         (* out_spikes_reset *)
| EvSendMc (spike_key : Z)                 (* spin1_send_mc_packet, accepted *)
| EvRecordAndNotify (channel : Z) (payload : list Z)
                                           (* recording_record_and_notify *)
| EvTimestepUpdate (t : Z)                 (* recording_do_timestep_update *)
| EvPauseResume                            (* simulation_handle_pause_resume *)
| EvRecordingFinalise.                     (* recording_finalise *)

(** [mars_kiss64_seed_t] is [uint32_t[4]]. *)
Definition mars_kiss64_seed_t : Type := (Z * Z * Z * Z)%type.

(** The variate functions of [random.h] (called with [mars_kiss64_seed] as
    their generator) and [EXP] of [maths-util.h] are not part of the file:
    they are an interface, and everything below holds for any
    implementation of it.  A variate function takes the seed and returns the
    variate with the advanced seed. *)
Class Library : Type := {
  exponential_dist_variate : mars_kiss64_seed_t -> REAL * mars_kiss64_seed_t;
  poisson_dist_variate_exp_minus_lambda :
    mars_kiss64_seed_t -> UFRACT -> Z * mars_kiss64_seed_t;
  EXP : REAL -> REAL
}.

Section Poisson.

Context {lib : Library}.

(** [struct parameters] *)
Record parameters_t : Type := mk_parameters {
  has_key : bool;
  key : Z;
  set_rate_neuron_id_mask : Z;
  random_backoff_us : Z;
  p_time_between_spikes : Z;
  seconds_per_tick : UFRACT;
  ticks_per_second : REAL;
  slow_rate_per_tick_cutoff : REAL;
  first_source_id : Z;
  n_spike_sources : Z;
  spike_source_seed : mars_kiss64_seed_t
}.

(** The POISSON_PARAMS region of shared memory: the parameter block and the
    source records that follow it. *)
Record sdram_region : Type := mk_sdram {
  sdram_parameters : parameters_t;
  sdram_sources : list spike_source_t
}.

(** The static variables of the file, then the environment: the shared
    memory region, the bytes [spin1_malloc] can still hand out, and the
    events so far. *)
Record state : Type := mk_state {
  parameters : parameters_t;
  spike_source_array : list spike_source_t;
  time_between_spikes : Z;
  expected_time : Z;
  recording_flags : Z;
  time : Z;
  simulation_ticks : Z;
  infinite_run : Z;
  spikes : option timed_out_spikes;
  n_spike_buffers_allocated : Z;
  n_spike_buffer_words : Z;
  spike_buffer_size : Z;
  recording_in_progress : bool;
  sdram : sdram_region;
  heap_free : Z;
  trace : list event
}.

Definition set_seed (sd : mars_kiss64_seed_t) (p : parameters_t)
  : parameters_t :=
  {| has_key := has_key p; key := key p;
     set_rate_neuron_id_mask := set_rate_neuron_id_mask p;
     random_backoff_us := random_backoff_us p;
     p_time_between_spikes := p_time_between_spikes p;
     seconds_per_tick := seconds_per_tick p;
     ticks_per_second := ticks_per_second p;
     slow_rate_per_tick_cutoff := slow_rate_per_tick_cutoff p;
     first_source_id := first_source_id p;
     n_spike_sources := n_spike_sources p;
     spike_source_seed := sd |}.

Definition set_parameters (p : parameters_t) (st : state) : state :=
  {| parameters := p;
     spike_source_array := spike_source_array st;
     time_between_spikes := time_between_spikes st;
     expected_time := expected_time st;
     recording_flags := recording_flags st;
     time := time st;
     simulation_ticks := simulation_ticks st;
     infinite_run := infinite_run st;
     spikes := spikes st;
     n_spike_buffers_allocated := n_spike_buffers_allocated st;
     n_spike_buffer_words := n_spike_buffer_words st;
     spike_buffer_size := spike_buffer_size st;
     recording_in_progress := recording_in_progress st;
     sdram := sdram st;
     heap_free := heap_free st;
     trace := trace st |}.

Definition set_spike_source_array (a : list spike_source_t) (st : state)
  : state :=
  {| parameters := parameters st;
     spike_source_array := a;
     time_between_spikes := time_between_spikes st;
     expected_time := expected_time st;
     recording_flags := recording_flags st;
     time := time st;
     simulation_ticks := simulation_ticks st;
     infinite_run := infinite_run st;
     spikes := spikes st;
     n_spike_buffers_allocated := n_spike_buffers_allocated st;
     n_spike_buffer_words := n_spike_buffer_words st;
     spike_buffer_size := spike_buffer_size st;
     recording_in_progress := recording_in_progress st;
     sdram := sdram st;
     heap_free := heap_free st;
     trace := trace st |}.

Definition set_expected_time (e : Z) (st : state) : state :=
  {| parameters := parameters st;
     spike_source_array := spike_source_array st;
     time_between_spikes := time_between_spikes st;
     expected_time := e;
     recording_flags := recording_flags st;
     time := time st;
     simulation_ticks := simulation_ticks st;
     infinite_run := infinite_run st;
     spikes := spikes st;
     n_spike_buffers_allocated := n_spike_buffers_allocated st;
     n_spike_buffer_words := n_spike_buffer_words st;
     spike_buffer_size := spike_buffer_size st;
     recording_in_progress := recording_in_progress st;
     sdram := sdram st;
     heap_free := heap_free st;
     trace := trace st |}.

Definition set_time (t : Z) (st : state) : state :=
  {| parameters := parameters st;
     spike_source_array := spike_source_array st;
     time_between_spikes := time_between_spikes st;
     expected_time := expected_time st;
     recording_flags := recording_flags st;
     time := t;
     simulation_ticks := simulation_ticks st;
     infinite_run := infinite_run st;
     spikes := spikes st;
     n_spike_buffers_allocated := n_spike_buffers_allocated st;
     n_spike_buffer_words := n_spike_buffer_words st;
     spike_buffer_size := spike_buffer_size st;
     recording_in_progress := recording_in_progress st;
     sdram := sdram st;
     heap_free := heap_free st;
     trace := trace st |}.

(** The buffer pointer, the number of allocated buffers and the heap change
    together, when the buffer is reallocated. *)
Definition set_buffer (b : option timed_out_spikes) (n_alloc heap : Z)
    (st : state) : state :=
  {| parameters := parameters st;
     spike_source_array := spike_source_array st;
     time_between_spikes := time_between_spikes st;
     expected_time := expected_time st;
     recording_flags := recording_flags st;
     time := time st;
     simulation_ticks := simulation_ticks st;
     infinite_run := infinite_run st;
     spikes := b;
     n_spike_buffers_allocated := n_alloc;
     n_spike_buffer_words := n_spike_buffer_words st;
     spike_buffer_size := spike_buffer_size st;
     recording_in_progress := recording_in_progress st;
     sdram := sdram st;
     heap_free := heap;
     trace := trace st |}.

Definition set_spikes (b : timed_out_spikes) (st : state) : state :=
  set_buffer (Some b) (n_spike_buffers_allocated st) (heap_free st) st.

Definition set_recording_in_progress (r : bool) (st : state) : state :=
  {| parameters := parameters st;
     spike_source_array := spike_source_array st;
     time_between_spikes := time_between_spikes st;
     expected_time := expected_time st;
     recording_flags := recording_flags st;
     time := time st;
     simulation_ticks := simulation_ticks st;
     infinite_run := infinite_run st;
     spikes := spikes st;
     n_spike_buffers_allocated := n_spike_buffers_allocated st;
     n_spike_buffer_words := n_spike_buffer_words st;
     spike_buffer_size := spike_buffer_size st;
     recording_in_progress := r;
     sdram := sdram st;
     heap_free := heap_free st;
     trace := trace st |}.

Definition set_sdram (m : sdram_region) (st : state) : state :=
  {| parameters := parameters st;
     spike_source_array := spike_source_array st;
     time_between_spikes := time_between_spikes st;
     expected_time := expected_time st;
     recording_flags := recording_flags st;
     time := time st;
     simulation_ticks := simulation_ticks st;
     infinite_run := infinite_run st;
     spikes := spikes st;
     n_spike_buffers_allocated := n_spike_buffers_allocated st;
     n_spike_buffer_words := n_spike_buffer_words st;
     spike_buffer_size := spike_buffer_size st;
     recording_in_progress := recording_in_progress st;
     sdram := m;
     heap_free := heap_free st;
     trace := trace st |}.

Definition emit (e : event) (st : state) : state :=
  {| parameters := parameters st;
     spike_source_array := spike_source_array st;
     time_between_spikes := time_between_spikes st;
     expected_time := expected_time st;
     recording_flags := recording_flags st;
     time := time st;
     simulation_ticks := simulation_ticks st;
     infinite_run := infinite_run st;
     spikes := spikes st;
     n_spike_buffers_allocated := n_spike_buffers_allocated st;
     n_spike_buffer_words := n_spike_buffer_words st;
     spike_buffer_size := spike_buffer_size st;
     recording_in_progress := recording_in_progress st;
     sdram := sdram st;
     heap_free := heap_free st;
     trace := trace st ++ [e] |}.

(** Field updates of one source record. *)
Definition set_fast (eml : UFRACT) (src : spike_source_t) : spike_source_t :=
  {| start_ticks := start_ticks src; end_ticks := end_ticks src;
     is_fast_source := true; exp_minus_lambda := eml;
     mean_isi_ticks := mean_isi_ticks src;
     time_to_spike_ticks := time_to_spike_ticks src |}.

Definition set_slow (isi : REAL) (src : spike_source_t) : spike_source_t :=
  {| start_ticks := start_ticks src; end_ticks := end_ticks src;
     is_fast_source := false; exp_minus_lambda := exp_minus_lambda src;
     mean_isi_ticks := isi;
     time_to_spike_ticks := time_to_spike_ticks src |}.

Definition set_time_to_spike (t : REAL) (src : spike_source_t)
  : spike_source_t :=
  {| start_ticks := start_ticks src; end_ticks := end_ticks src;
     is_fast_source := is_fast_source src;
     exp_minus_lambda := exp_minus_lambda src;
     mean_isi_ticks := mean_isi_ticks src;
     time_to_spike_ticks := t |}.

(** ** The samplers *)

(** [slow_spike_source_get_time_to_spike]: the draw advances the seed kept in
    the parameters. *)
Definition slow_spike_source_get_time_to_spike (mean_isi : REAL) (st : state)
  : REAL * state :=
  let (v, sd) := exponential_dist_variate (spike_source_seed (parameters st)) in
  (real_mul (s32 v) mean_isi, set_parameters (set_seed sd (parameters st)) st).

(** [fast_spike_source_get_num_spikes]: no draw when [exp_minus_lambda] is
    zero. *)
Definition fast_spike_source_get_num_spikes (eml : UFRACT) (st : state)
  : Z * state :=
  if bitsulr eml =? bitsulr 0 then (0, st)
  else
    let (k, sd) :=
      poisson_dist_variate_exp_minus_lambda
        (spike_source_seed (parameters st)) eml in
    (u32 k, set_parameters (set_seed sd (parameters st)) st).

(** ** The recording buffer *)

(** The words of a [timed_out_spikes] as they lie in memory, and back. *)
Definition tos_words (b : timed_out_spikes) : list Z :=
  tos_time b :: n_buffers b :: out_spikes b.

Definition tos_of_words (ws : list Z) : result timed_out_spikes :=
  match ws with
  | t :: n :: rest => Ok {| tos_time := t; n_buffers := n; out_spikes := rest |}
  | _ => Fail BadAccess
  end.

(** [_out_spikes(n)]: where buffer [n] starts in [out_spikes]. *)
Definition _out_spikes (n : Z) (st : state) : Z :=
  u32 (n * n_spike_buffer_words st).

(** [bit_field_set(b, n)] of bit_field.h: [b[n >> 5] |= 1 << (n & 31)]; the
    bit field [b] is given by the index of its first word. *)
Definition bit_field_set (ws : list Z) (b : Z) (n : Z) : result (list Z) :=
  let i := b + Z.shiftr n 5 in
  let! w := load ws i in
  store ws i (Z.lor w (Z.shiftl 1 (Z.land n 31))).

(** [bit_field_test(b, n)] of bit_field.h. *)
Definition bit_field_test (ws : list Z) (b : Z) (n : Z) : bool :=
  match ws !! Z.to_nat (b + Z.shiftr n 5) with
  | Some w => Z.testbit w (Z.land n 31)
  | None => false
  end.

(** [clear_bit_field(b, s)] of bit_field.h: [for (; s > 0; s--) b[s - 1] = 0]. *)
Fixpoint clear_bit_field (ws : list Z) (b : Z) (s : nat) : result (list Z) :=
  match s with
  | O => Ok ws
  | S s' =>
      let! ws1 := store ws (b + Z.of_nat s') 0 in
      clear_bit_field ws1 b s'
  end.

(** The loop of [_reset_spikes], from [n] down to 1. *)
Fixpoint reset_loop (n : nat) (st : state) (ws : list Z) : result (list Z) :=
  match n with
  | O => Ok ws
  | S n' =>
      let! ws1 :=
        clear_bit_field ws (_out_spikes (Z.of_nat n') st)
          (Z.to_nat (n_spike_buffer_words st)) in
      reset_loop n' st ws1
  end.

(** [_reset_spikes] *)
Definition _reset_spikes (st : state) : result state :=
  match spikes st with
  | None => Fail BadAccess
  | Some b =>
      let! ws :=
        reset_loop (Z.to_nat (n_spike_buffers_allocated st)) st
          (out_spikes b) in
      Ok (set_spikes
            {| tos_time := tos_time b; n_buffers := 0; out_spikes := ws |} st)
  end.

(** The loop at the end of [_mark_spike], from [n] down to 1. *)
Fixpoint mark_loop (n : nat) (neuron_id : Z) (st : state) (ws : list Z)
  : result (list Z) :=
  match n with
  | O => Ok ws
  | S n' =>
      let! ws1 := bit_field_set ws (_out_spikes (Z.of_nat n') st) neuron_id in
      mark_loop n' neuron_id st ws1
  end.

(** The reallocation inside [_mark_spike].  [spin1_malloc] returns NULL when
    the heap has fewer than [new_size] free bytes; the new block is cleared
    word by word, the old block is copied over its start and given back. *)
Definition grow_spikes (n_spikes : Z) (st : state) : result state :=
  let new_size := u32 (8 + u32 (n_spikes * spike_buffer_size st)) in
  if heap_free st <? new_size then Fail RTE_SWERR
  else
    let data := replicate (Z.to_nat (Z.shiftr new_size 2)) 0 in
    match spikes st with
    | Some old =>
        let old_size :=
          u32 (8 + u32 (n_spike_buffers_allocated st * spike_buffer_size st)) in
        let n := Z.to_nat (old_size / 4) in
        if (n <=? length (tos_words old))%nat && (n <=? length data)%nat
        then
          let! new_spikes :=
            tos_of_words (take n (tos_words old) ++ drop n data) in
          Ok (set_buffer (Some new_spikes) n_spikes
                (heap_free st - new_size + old_size) st)
        else Fail BadAccess
    | None =>
        let! new_spikes := tos_of_words data in
        Ok (set_buffer (Some new_spikes) n_spikes (heap_free st - new_size) st)
    end.

(** [_mark_spike] *)
Definition _mark_spike (neuron_id n_spikes : Z) (st : state) : result state :=
  if 0 <? recording_flags st then
    let! st1 :=
      if n_spike_buffers_allocated st <? n_spikes
      then grow_spikes n_spikes st
      else Ok st in
    match spikes st1 with
    | None => Fail BadAccess
    | Some b =>
        let n := if n_buffers b <? n_spikes then n_spikes else n_buffers b in
        let! ws := mark_loop (Z.to_nat n_spikes) neuron_id st1 (out_spikes b) in
        Ok (set_spikes
              {| tos_time := tos_time b; n_buffers := n; out_spikes := ws |}
              st1)
    end
  else Ok st.

(** [recording_complete_callback] *)
Definition recording_complete_callback (st : state) : state :=
  set_recording_in_progress false st.

(** [_record_spikes].  The loop on [recording_in_progress] is left when the
    completion callback of the previous transfer has run, so the flag is
    clear after it.  The writer is handed the first [size] bytes of the
    buffer, a whole number of words. *)
Definition _record_spikes (t : Z) (st : state) : result state :=
  let st0 := recording_complete_callback st in
  match spikes st0 with
  | None => Ok st0
  | Some b =>
      if 0 <? n_buffers b then
        let st1 := set_recording_in_progress true st0 in
        let b1 :=
          {| tos_time := t; n_buffers := n_buffers b;
             out_spikes := out_spikes b |} in
        let size := u32 (8 + u32 (n_buffers b * spike_buffer_size st1)) in
        let n := Z.to_nat (size / 4) in
        if (n <=? length (tos_words b1))%nat then
          _reset_spikes
            (emit (EvRecordAndNotify 0 (take n (tos_words b1)))
               (set_spikes b1 st1))
        else Fail BadAccess
      else Ok st0
  end.

(** ** Dispatch *)

(** [_send_spike]: the wait on the hardware counter and the retries of the
    send end with one accepted packet. *)
Definition _send_spike (spike_key : Z) (st : state) : state :=
  emit (EvSendMc spike_key)
    (set_expected_time (u32 (expected_time st - time_between_spikes st)) st).

(** [for (index = 0; index < num_spikes; index++) _send_spike(spike_key)] *)
Fixpoint send_loop (n : nat) (spike_key : Z) (st : state) : state :=
  match n with
  | O => st
  | S n' => send_loop n' spike_key (_send_spike spike_key st)
  end.

(** ** Persisting the source table *)

(** [store_poisson_parameters]: the records are copied over the first
    [n_spike_sources] records of the region; the parameter block in the
    region is not written. *)
Definition store_poisson_parameters (st : state) : result state :=
  if 0 <? n_spike_sources (parameters st) then
    let n := Z.to_nat (n_spike_sources (parameters st)) in
    if (n <=? length (spike_source_array st))%nat
       && (n <=? length (sdram_sources (sdram st)))%nat
    then
      Ok (set_sdram
            {| sdram_parameters := sdram_parameters (sdram st);
               sdram_sources :=
                 take n (spike_source_array st)
                 ++ drop n (sdram_sources (sdram st)) |} st)
    else Fail BadAccess
  else Ok st.

(** ** The timer tick *)

(** A write through [spike_source] to the time to spike of source [s]. *)
Definition update_time_to_spike (s : Z) (f : REAL -> REAL) (st : state)
  : result state :=
  let! src := load (spike_source_array st) s in
  let! a :=
    store (spike_source_array st) s
      (set_time_to_spike (f (time_to_spike_ticks src)) src) in
  Ok (set_spike_source_array a st).

Definition active_this_tick (src : spike_source_t) (st : state) : bool :=
  (start_ticks src <=? time st) && (time st <? end_ticks src).

(** The body of the loop over the sources in [timer_callback]. *)
Definition source_tick (s : Z) (st : state) : result state :=
  let! spike_source := load (spike_source_array st) s in
  if is_fast_source spike_source then
    if active_this_tick spike_source st then
      let (num_spikes, st1) :=
        fast_spike_source_get_num_spikes (exp_minus_lambda spike_source) st in
      if 0 <? num_spikes then
        let! st2 := _mark_spike s num_spikes st1 in
        if has_key (parameters st2) then
          let spike_key := Z.lor (key (parameters st2)) s in
          Ok (send_loop (Z.to_nat num_spikes) spike_key st2)
        else Ok st2
      else Ok st1
    else Ok st
  else
    if active_this_tick spike_source st
       && negb (mean_isi_ticks spike_source =? 0)
    then
      let! st3 :=
        if time_to_spike_ticks spike_source <=? 0 then
          let! st1 := _mark_spike s 1 st in
          let st2 :=
            if has_key (parameters st1)
            then _send_spike (Z.lor (key (parameters st1)) s) st1
            else st1 in
          let (isi, st3) :=
            slow_spike_source_get_time_to_spike
              (mean_isi_ticks spike_source) st2 in
          update_time_to_spike s (fun t => real_add t isi) st3
        else Ok st in
      update_time_to_spike s (fun t => real_sub t REAL_ONE) st3
    else Ok st.

(** [for (s = 0; s < parameters.n_spike_sources; s++)]: [n] sources are
    left, the next one is [s]. *)
Fixpoint source_loop (n : nat) (s : Z) (st : state) : result state :=
  match n with
  | O => Ok st
  | S n' =>
      let! st1 := source_tick s st in
      source_loop n' (s + 1) st1
  end.

(** [TRUE] of the API headers. *)
Definition TRUE : Z := 1.

(** The branch of [timer_callback] taken when the run is over. *)
Definition pause_tick (st : state) : result state :=
  let! st1 := store_poisson_parameters st in
  let st2 := emit EvPauseResume st1 in
  let st3 :=
    if 0 <? recording_flags st2 then emit EvRecordingFinalise st2 else st2 in
  Ok (set_time (u32 (time st3 - 1)) st3).

(** The rest of [timer_callback]; [t1_count] is the value read from the
    hardware counter [tc[T1_COUNT]]. *)
Definition run_tick (t1_count : Z) (st : state) : result state :=
  let st1 := emit (EvDelay (random_backoff_us (parameters st))) st in
  let st2 :=
    set_expected_time (u32 (t1_count - time_between_spikes st1)) st1 in
  let st3 := emit EvOutSpikesReset st2 in
  let! st4 :=
    source_loop (Z.to_nat (n_spike_sources (parameters st3))) 0 st3 in
  let! st5 :=
    if 0 <? recording_flags st4 then _record_spikes (time st4) st4
    else Ok st4 in
  Ok (if 0 <? recording_flags st5
      then emit (EvTimestepUpdate (time st5)) st5
      else st5).

(** [timer_callback] *)
Definition timer_callback (t1_count : Z) (st : state) : result state :=
  let st0 := set_time (u32 (time st + 1)) st in
  if negb (infinite_run st0 =? TRUE) && (simulation_ticks st0 <=? time st0)
  then pause_tick st0
  else run_tick t1_count st0.

(** ** The rate controller *)

(** [set_spike_source_rate].  [id] is an [int] compared with unsigned
    fields, so it is converted to [uint32_t].  Inside the block the
    declaration [REAL rate = 0.0;] hides the parameter: every use of [rate]
    below it reads the local. *)
Definition set_spike_source_rate (id : Z) (rate : REAL) (st : state)
  : result state :=
  let p := parameters st in
  if (first_source_id p <=? u32 id)
     && (u32 (u32 id - first_source_id p) <? n_spike_sources p)
  then
    let sub_id := u32 (u32 id - first_source_id p) in
    let rate : REAL := 0 in
    let rate_per_tick := real_mul_ufract rate (seconds_per_tick p) in
    let! src := load (spike_source_array st) sub_id in
    let src' :=
      if slow_rate_per_tick_cutoff p <? rate
      then set_fast (ufract_of_real (EXP (real_neg rate_per_tick))) src
      else set_slow (real_mul rate (ticks_per_second p)) src in
    let! a := store (spike_source_array st) sub_id src' in
    Ok (set_spike_source_array a st)
  else Ok st.

(** [multicast_packet_callback] *)
Definition multicast_packet_callback (mc_key payload : Z) (st : state)
  : result state :=
  let id := Z.land (u32 mc_key) (set_rate_neuron_id_mask (parameters st)) in
  let rate := kbits payload in
  set_spike_source_rate id rate st.

(** [sdp_packet_callback]: the message holds [n_items] pairs of an id and a
    rate; [items] is the list of those pairs. *)
Fixpoint sdp_items (items : list (Z * Z)) (st : state) : result state :=
  match items with
  | [] => Ok st
  | (id, w) :: rest =>
      let! st1 := set_spike_source_rate id (kbits w) st in
      sdp_items rest st1
  end.

Definition sdp_packet_callback (items : list (Z * Z)) (st : state)
  : result state :=
  sdp_items items st.

End Poisson.

(** ** Well-formed states *)

Section WellFormed.

Context {lib : Library}.

(** The unsigned fields of the parameters hold 32-bit values. *)
Definition wf_parameters (p : parameters_t) : Prop :=
  0 <= first_source_id p < 2 ^ 32 /\ 0 <= n_spike_sources p < 2 ^ 32.

(** [read_poisson_parameters] allocates one record per source. *)
Definition wf_sources (st : state) : Prop :=
  Z.of_nat (length (spike_source_array st)) = n_spike_sources (parameters st).

(** ** The rate controller as the specification words it *)

(** The per-tick rate [r_tick = rate_hz * seconds_per_tick] of an incoming
    rate. *)
Definition rate_per_tick_of (rate_hz : REAL) (p : parameters_t) : REAL :=
  real_mul_ufract rate_hz (seconds_per_tick p).

(** The regime dichotomy of a record after [set_rate(id, rate_hz)]: Fast
    with [exp(-r_tick)] exactly when [r_tick] is above the cutoff, Slow
    otherwise. *)
Definition regime_dichotomy (rate_hz : REAL) (p : parameters_t)
    (src : spike_source_t) : Prop :=
  (is_fast_source src = true
   /\ exp_minus_lambda src
      = ufract_of_real (EXP (real_neg (rate_per_tick_of rate_hz p))))
  <-> slow_rate_per_tick_cutoff p < rate_per_tick_of rate_hz p.

(** [accum / accum]. *)
Definition real_div (a b : REAL) : REAL := s32 ((a * 2 ^ 15) / b).

(** The mean interval of a slow source as the specification words it: the
    reciprocal of the per-tick rate. *)
Definition mean_isi_spec (rate_hz : REAL) (p : parameters_t) : REAL :=
  real_div REAL_ONE (rate_per_tick_of rate_hz p).

(** ** Observations *)

(** The keys of the packets sent so far, oldest first. *)
Fixpoint sent_keys_of (tr : list event) : list Z :=
  match tr with
  | [] => []
  | EvSendMc k :: tr' => k :: sent_keys_of tr'
  | _ :: tr' => sent_keys_of tr'
  end.

Definition sent_keys (st : state) : list Z := sent_keys_of (trace st).

(** The events that go to the recording subsystem. *)
Definition is_recording_event (e : event) : bool :=
  match e with
  | EvRecordAndNotify _ _ | EvTimestepUpdate _ | EvRecordingFinalise => true
  | _ => false
  end.

(** What the rest of the world sees of the trace: everything but the
    events of the recording subsystem. *)
Definition fabric_trace (st : state) : list event :=
  List.filter (fun e => negb (is_recording_event e)) (trace st).

Definition recording_trace (st : state) : list event :=
  List.filter is_recording_event (trace st).

(** The part of the state that spike generation and emission read and
    write. *)
Definition generation_view (st : state) :=
  (parameters st, spike_source_array st, time_between_spikes st,
   expected_time st, time st, simulation_ticks st, infinite_run st,
   sdram st, fabric_trace st).

(** The part of the state that belongs to recording. *)
Definition recording_view (st : state) :=
  (recording_flags st, spikes st, n_spike_buffers_allocated st,
   n_spike_buffer_words st, spike_buffer_size st, recording_in_progress st,
   heap_free st, recording_trace st).

(** Two states that agree on generation, the second with a given recording
    side. *)
Definition paired (rv : _) (a b : state) : Prop :=
  generation_view a = generation_view b /\ recording_view b = rv.


(** ** The recording buffer: invariants and observations *)

(** What [initialize] and [_mark_spike] keep true of the buffer: the sizes
    agree, the byte size of the buffer fits 32 bits, and the block holds
    [n_spike_buffers_allocated] buffers of which [n_buffers] are in use. *)
Definition wf_buffer (st : state) : Prop :=
  0 <= n_spike_buffer_words st
  /\ spike_buffer_size st = 4 * n_spike_buffer_words st
  /\ 0 <= n_spike_buffers_allocated st
  /\ 8 + n_spike_buffers_allocated st * spike_buffer_size st < 2 ^ 32
  /\ match spikes st with
     | None => n_spike_buffers_allocated st = 0
     | Some b =>
         Z.of_nat (length (out_spikes b))
         = n_spike_buffers_allocated st * n_spike_buffer_words st
         /\ 0 <= n_buffers b <= n_spike_buffers_allocated st
     end.

(** [bit_field_test(_out_spikes(k), s)]: bit [s] of layer [k]; no layer, no
    bit. *)
Definition out_spike_bit (st : state) (k s : Z) : bool :=
  match spikes st with
  | Some b => bit_field_test (out_spikes b) (_out_spikes k st) s
  | None => false
  end.

(** The number of layers in use, the words of the layers and the time
    stamp; a buffer that is not allocated has none. *)
Definition n_layers (st : state) : Z :=
  match spikes st with
  | Some b => n_buffers b
  | None => 0
  end.

Definition buffer_words (st : state) : list Z :=
  match spikes st with
  | Some b => out_spikes b
  | None => []
  end.

Definition buffer_time (st : state) : Z :=
  match spikes st with
  | Some b => tos_time b
  | None => 0
  end.

(** The words of the layers from [n] on are all zero. *)
Definition layers_zero_from (n : Z) (st : state) : Prop :=
  match spikes st with
  | Some b =>
      forall i w,
        (Z.to_nat (n * n_spike_buffer_words st) <= i)%nat ->
        out_spikes b !! i = Some w -> w = 0
  | None => True
  end.

(** The reset invariant: no layer in use and every allocated layer zero. *)
Definition buffer_reset (st : state) : Prop :=
  n_layers st = 0 /\ layers_zero_from 0 st.

(** The reset as the specification words it: "zero the first [n_layers]
    layers (not the whole buffer)". *)
Definition zero_first_layers (n : Z) (st : state) (ws : list Z) : list Z :=
  replicate (Z.to_nat (n * n_spike_buffer_words st)) 0
  ++ drop (Z.to_nat (n * n_spike_buffer_words st)) ws.

(** The number of spikes the pass over source [s] generates from [st]. *)
Definition spikes_generated (s : Z) (st : state) : Z :=
  match load (spike_source_array st) s with
  | Ok src =>
      if is_fast_source src then
        if active_this_tick src st
        then fst (fast_spike_source_get_num_spikes (exp_minus_lambda src) st)
        else 0
      else
        if active_this_tick src st
           && negb (mean_isi_ticks src =? 0)
           && (time_to_spike_ticks src <=? 0)
        then 1 else 0
  | Fail _ => 0
  end.

(** The numbers of spikes of the sources [s], [s + 1], ... in a sweep over
    [n] sources. *)
Fixpoint sweep_counts (n : nat) (s : Z) (st : state) : list Z :=
  match n with
  | O => []
  | S n' =>
      spikes_generated s st
      :: match source_tick s st with
         | Ok st1 => sweep_counts n' (s + 1) st1
         | Fail _ => []
         end
  end.

(** The fields that [_mark_spike] reads and writes. *)
Definition buffer_view (st : state) :=
  (recording_flags st, spikes st, n_spike_buffers_allocated st,
   n_spike_buffer_words st, spike_buffer_size st, heap_free st).

(** The state in which [timer_callback] starts the loop over the sources:
    the tick counted, the delay taken, the dispatch target set and the
    out-spike scratch cleared. *)
Definition sweep_start (t1 : Z) (st : state) : state :=
  emit EvOutSpikesReset
    (set_expected_time (u32 (t1 - time_between_spikes st))
       (emit (EvDelay (random_backoff_us (parameters st)))
          (set_time (u32 (time st + 1)) st))).

(** ** The slow lane as the specification words it *)

(** "While [time_to_spike_ticks <= 0]: mark [(s, 1)] once per crossing,
    optionally dispatch, then add a slow interval draw"; [fuel] bounds the
    number of crossings followed. *)
Fixpoint slow_crossings_spec (fuel : nat) (s : Z) (st : state)
  : result state :=
  match fuel with
  | O => Ok st
  | S fuel' =>
      let! src := load (spike_source_array st) s in
      if time_to_spike_ticks src <=? 0 then
        let! st1 := _mark_spike s 1 st in
        let st2 :=
          if has_key (parameters st1)
          then _send_spike (Z.lor (key (parameters st1)) s) st1
          else st1 in
        let (isi, st3) :=
          slow_spike_source_get_time_to_spike (mean_isi_ticks src) st2 in
        let! st4 := update_time_to_spike s (fun t => real_add t isi) st3 in
        slow_crossings_spec fuel' s st4
      else Ok st
  end.

(** "Unconditionally [time_to_spike_ticks -= 1]" after the crossings. *)
Definition slow_tick_spec (fuel : nat) (s : Z) (st : state) : result state :=
  let! st1 := slow_crossings_spec fuel s st in
  update_time_to_spike s (fun t => real_sub t REAL_ONE) st1.

End WellFormed.

(** ** Concrete configurations *)

(** An implementation of the interface for running the model: the
    exponential variate is always 1.0, the Poisson variate is the low two
    bits of the first seed word, [EXP] is always 0.5, and each draw steps
    the first seed word. *)
Definition counting_library : Library := {|
  exponential_dist_variate := fun '(a, b, c, d) => (REAL_ONE, (a + 1, b, c, d));
  poisson_dist_variate_exp_minus_lambda :=
    fun '(a, b, c, d) _ => (Z.land a 3, (a + 1, b, c, d));
  EXP := fun _ => 2 ^ 14
|}.

(** One millisecond ticks: [seconds_per_tick = 0.001],
    [ticks_per_second = 1000], cutoff 0.25. *)
Definition ms_parameters (with_key : bool) (n : Z) : parameters_t := {|
  has_key := with_key;
  key := 0x1000;
  set_rate_neuron_id_mask := 0xFFF;
  random_backoff_us := 0;
  p_time_between_spikes := 0;
  seconds_per_tick := 4294967;
  ticks_per_second := 1000 * 2 ^ 15;
  slow_rate_per_tick_cutoff := 2 ^ 13;
  first_source_id := 0;
  n_spike_sources := n;
  spike_source_seed := (1, 2, 3, 4)
|}.

(** A silent slow source, active on ticks 0 to 999. *)
Definition idle_source : spike_source_t := {|
  start_ticks := 0; end_ticks := 1000; is_fast_source := false;
  exp_minus_lambda := 0; mean_isi_ticks := 0; time_to_spike_ticks := 0
|}.

(** A state as [initialize] leaves it: no buffer yet, one word per buffer
    for up to 32 sources. *)
Definition initial_state (p : parameters_t) (a : list spike_source_t)
    (flags ticks : Z) : state := {|
  parameters := p;
  spike_source_array := a;
  time_between_spikes := 0;
  expected_time := 0;
  recording_flags := flags;
  time := 2 ^ 32 - 1;
  simulation_ticks := ticks;
  infinite_run := 0;
  spikes := None;
  n_spike_buffers_allocated := 0;
  n_spike_buffer_words := 1;
  spike_buffer_size := 4;
  recording_in_progress := false;
  sdram := {| sdram_parameters := p; sdram_sources := a |};
  heap_free := 4096;
  trace := []
|}.

Definition one_source_state : state :=
  initial_state (ms_parameters true 1) [idle_source] 0 1000.

(** 1000 Hz and 100 Hz as [accum] bit patterns. *)
Definition rate_1000_hz : REAL := 1000 * 2 ^ 15.
Definition rate_100_hz : REAL := 100 * 2 ^ 15.

(** A slow source with a mean interval of one tick that is three ticks
    late. *)
Definition late_source : spike_source_t := {|
  start_ticks := 0; end_ticks := 1000; is_fast_source := false;
  exp_minus_lambda := 0; mean_isi_ticks := REAL_ONE;
  time_to_spike_ticks := - 3 * REAL_ONE
|}.

(** Tick 5 of a core holding that source, recording off. *)
Definition late_state : state :=
  set_time 5 (initial_state (ms_parameters true 1) [late_source] 0 1000).

(** A core whose run of zero ticks is over before the first tick, with
    recording off. *)
Definition finished_state : state :=
  initial_state (ms_parameters true 1) [idle_source] 0 0.

(** A fast source with [exp_minus_lambda = 0.5]. *)
Definition fast_source : spike_source_t := {|
  start_ticks := 0; end_ticks := 1000; is_fast_source := true;
  exp_minus_lambda := 2 ^ 31; mean_isi_ticks := 0;
  time_to_spike_ticks := 0
|}.

(** Tick 5 of a core with that fast source and the late slow source,
    recording on, before the first mark. *)
Definition recording_state : state :=
  set_time 5
    (initial_state (set_seed (7, 2, 3, 4) (ms_parameters true 2))
       [fast_source; late_source] 1 1000).

(** That core after the sweep of the tick. *)
Definition swept_state : state :=
  Eval vm_compute in
    match source_loop (lib := counting_library) 2 0 recording_state with
    | Ok st => st
    | Fail _ => recording_state
    end.

(** ** What a tick and a rate update leave alone *)

(** The parameters without the seed, which the samplers advance. *)
Definition fixed_parameters (p : parameters_t) : parameters_t :=
  set_seed (0, 0, 0, 0) p.

(** The part of a source record that a tick never writes: everything of a
    Fast source, everything but the time to spike of a Slow one. *)
Definition source_shape (src : spike_source_t) :=
  (start_ticks src, end_ticks src, is_fast_source src, exp_minus_lambda src,
   mean_isi_ticks src,
   if is_fast_source src then time_to_spike_ticks src else 0).

Definition table_shape (st : state) :=
  List.map source_shape (spike_source_array st).

(** The part of a source record that a rate update never writes. *)
Definition source_schedule (src : spike_source_t) :=
  (start_ticks src, end_ticks src, time_to_spike_ticks src).

Definition table_schedule (st : state) :=
  List.map source_schedule (spike_source_array st).

(** The static variables that only [initialize] sets, with the shared
    region. *)
Definition static_view (st : state) :=
  (fixed_parameters (parameters st), table_shape st, time st,
   simulation_ticks st, infinite_run st, time_between_spikes st,
   recording_flags st, n_spike_buffer_words st, spike_buffer_size st,
   sdram st).

(** The packets of a sweep: for each source in turn, one packet with the
    key of the source for each of its spikes. *)
Fixpoint sweep_packets (base_key s : Z) (counts : list Z) : list event :=
  match counts with
  | [] => []
  | c :: counts' =>
      replicate (Z.to_nat c) (EvSendMc (Z.lor base_key s))
      ++ sweep_packets base_key (s + 1) counts'
  end.

(** The bytes of the heap that the recording buffer holds. *)
Definition buffer_bytes (st : state) : Z :=
  match spikes st with
  | Some _ => 8 + n_spike_buffers_allocated st * spike_buffer_size st
  | None => 0
  end.

(** ** Loading, start and resume *)

(** [validate_mars_kiss64_seed] of random.h and [get_bit_field_size] of
    bit_field.h are not part of the file either. *)
Class StartLibrary : Type := {
  validate_mars_kiss64_seed : mars_kiss64_seed_t -> mars_kiss64_seed_t;
  get_bit_field_size : Z -> Z
}.

(** [sizeof(spike_source_t)]: two words, the flag padded to a word, three
    words. *)
Definition sizeof_spike_source_t : Z := 24.

(** What the calls of [initialize] into the data specification, the
    simulation interface and the recording subsystem return:
    [data_specification_read_header], [simulation_initialise] with the
    timer period, the run length and the infinite-run flag it writes on
    success, and [recording_initialize] with the flags it writes. *)
Record boot_t : Type := mk_boot {
  header_ok : bool;
  simulation_init : option (Z * Z * Z);
  recording_init : bool * Z
}.

(** The calls into the API outside the tick. *)
Inductive api_call : Type :=
| CallSetProvenanceAddress     (* simulation_set_provenance_data_address *)
| CallRecordingReset           (* recording_reset *)
| CallSetTimerTick (period : Z)           (* spin1_set_timer_tick *)
| CallTimerCallbackOn (priority : Z)      (* spin1_callback_on(TIMER_TICK, ..) *)
| CallMulticastCallbackOn (priority : Z)  (* .. (MCPL_PACKET_RECEIVED, ..) *)
| CallSimulationRun.                      (* simulation_run *)

(** [callback_priorities] *)
Definition MULTICAST : Z := -1.
Definition SDP : Z := 0.
Definition TIMER : Z := 2.
Definition DMA : Z := 1.

(** [UINT32_MAX] *)
Definition UINT32_MAX : Z := 2 ^ 32 - 1.

(** The static variables as the C start-up code leaves them, all zero, with
    the shared region and the heap of the core. *)
Definition power_on (m : sdram_region) (heap : Z) : state := {|
  parameters :=
    {| has_key := false; key := 0; set_rate_neuron_id_mask := 0;
       random_backoff_us := 0; p_time_between_spikes := 0;
       seconds_per_tick := 0; ticks_per_second := 0;
       slow_rate_per_tick_cutoff := 0; first_source_id := 0;
       n_spike_sources := 0; spike_source_seed := (0, 0, 0, 0) |};
  spike_source_array := [];
  time_between_spikes := 0;
  expected_time := 0;
  recording_flags := 0;
  time := 0;
  simulation_ticks := 0;
  infinite_run := 0;
  spikes := None;
  n_spike_buffers_allocated := 0;
  n_spike_buffer_words := 0;
  spike_buffer_size := 0;
  recording_in_progress := false;
  sdram := m;
  heap_free := heap;
  trace := []
|}.

Definition set_heap_free (h : Z) (st : state) : state :=
  set_buffer (spikes st) (n_spike_buffers_allocated st) h st.

(** The assignments of [initialize] to the run length and the flags, and to
    the layout of the recording buffer. *)
Definition set_simulation (ticks infinite : Z) (st : state) : state :=
  {| parameters := parameters st;
     spike_source_array := spike_source_array st;
     time_between_spikes := time_between_spikes st;
     expected_time := expected_time st;
     recording_flags := recording_flags st;
     time := time st;
     simulation_ticks := ticks;
     infinite_run := infinite;
     spikes := spikes st;
     n_spike_buffers_allocated := n_spike_buffers_allocated st;
     n_spike_buffer_words := n_spike_buffer_words st;
     spike_buffer_size := spike_buffer_size st;
     recording_in_progress := recording_in_progress st;
     sdram := sdram st;
     heap_free := heap_free st;
     trace := trace st |}.

Definition set_recording_flags (flags : Z) (st : state) : state :=
  {| parameters := parameters st;
     spike_source_array := spike_source_array st;
     time_between_spikes := time_between_spikes st;
     expected_time := expected_time st;
     recording_flags := flags;
     time := time st;
     simulation_ticks := simulation_ticks st;
     infinite_run := infinite_run st;
     spikes := spikes st;
     n_spike_buffers_allocated := n_spike_buffers_allocated st;
     n_spike_buffer_words := n_spike_buffer_words st;
     spike_buffer_size := spike_buffer_size st;
     recording_in_progress := recording_in_progress st;
     sdram := sdram st;
     heap_free := heap_free st;
     trace := trace st |}.

Definition set_buffer_layout (n_alloc words size : Z) (st : state) : state :=
  {| parameters := parameters st;
     spike_source_array := spike_source_array st;
     time_between_spikes := time_between_spikes st;
     expected_time := expected_time st;
     recording_flags := recording_flags st;
     time := time st;
     simulation_ticks := simulation_ticks st;
     infinite_run := infinite_run st;
     spikes := spikes st;
     n_spike_buffers_allocated := n_alloc;
     n_spike_buffer_words := words;
     spike_buffer_size := size;
     recording_in_progress := recording_in_progress st;
     sdram := sdram st;
     heap_free := heap_free st;
     trace := trace st |}.

Section Start.

Context {lib : Library} {slib : StartLibrary}.

(** [read_poisson_parameters]: the parameter block is copied and its seed
    validated; then, if there are sources, the table is allocated when it
    is still NULL (the empty list: an allocated table has a record) and the
    first [n_spike_sources * sizeof(spike_source_t)] bytes of the records
    of the region are copied over it.  The byte count is a [uint32_t];
    only the whole records in it are represented.  The result is the
    returned flag with the state. *)
Definition read_poisson_parameters (st : state) : result (bool * state) :=
  let p0 := sdram_parameters (sdram st) in
  let p := set_seed (validate_mars_kiss64_seed (spike_source_seed p0)) p0 in
  let st1 := set_parameters p st in
  if 0 <? n_spike_sources p then
    let size := u32 (n_spike_sources p * sizeof_spike_source_t) in
    let n := Z.to_nat (size / sizeof_spike_source_t) in
    match spike_source_array st1 with
    | [] =>
        if heap_free st1 <? size then Ok (false, st1)
        else if (n <=? length (sdram_sources (sdram st1)))%nat then
          Ok (true,
              set_spike_source_array (take n (sdram_sources (sdram st1)))
                (set_heap_free (heap_free st1 - size) st1))
        else Fail BadAccess
    | a =>
        if (n <=? length (sdram_sources (sdram st1)))%nat
           && (n <=? length a)%nat
        then
          Ok (true,
              set_spike_source_array
                (take n (sdram_sources (sdram st1)) ++ drop n a) st1)
        else Fail BadAccess
    end
  else Ok (true, st1).

(** [resume_callback] *)
Definition resume_callback (st : state) : result (state * list api_call) :=
  let! r := read_poisson_parameters st in
  if fst r then Ok (snd r, [CallRecordingReset]) else Fail RTE_SWERR.

(** The loop of [initialize] over the sources: a Slow source gets its
    first time to spike. *)
Fixpoint init_loop (n : nat) (s : Z) (st : state) : result state :=
  match n with
  | O => Ok st
  | S n' =>
      let! src := load (spike_source_array st) s in
      let! st1 :=
        if negb (is_fast_source src) then
          let (isi, st1) :=
            slow_spike_source_get_time_to_spike (mean_isi_ticks src) st in
          update_time_to_spike s (fun _ => isi) st1
        else Ok st in
      init_loop n' (s + 1) st1
  end.

(** [initialize] with [initialise_recording]: the returned flag, the timer
    period, the state and the calls made. *)
Definition initialize (boot : boot_t) (st : state)
  : result (bool * Z * state * list api_call) :=
  if negb (header_ok boot) then Ok (false, 0, st, [])
  else
    match simulation_init boot with
    | None => Ok (false, 0, st, [])
    | Some (timer_period, ticks, infinite) =>
        let st1 := set_simulation ticks infinite st in
        let calls := [CallSetProvenanceAddress] in
        let st2 := set_recording_flags (snd (recording_init boot)) st1 in
        if negb (fst (recording_init boot))
        then Ok (false, timer_period, st2, calls)
        else
          let! r := read_poisson_parameters st2 in
          if negb (fst r) then Ok (false, timer_period, snd r, calls)
          else
            let st3 := snd r in
            let! st4 :=
              init_loop (Z.to_nat (n_spike_sources (parameters st3))) 0 st3 in
            let words :=
              u32 (get_bit_field_size (n_spike_sources (parameters st4))) in
            Ok (true, timer_period,
                set_buffer_layout 0 words (u32 (words * 4)) st4, calls)
    end.

(** [c_main]: the state in which [simulation_run] is entered, and the
    calls made up to it. *)
Definition c_main (boot : boot_t) (st : state)
  : result (state * list api_call) :=
  let! r := initialize boot st in
  let '(ok, timer_period, st1, calls) := r in
  if negb ok then Fail RTE_SWERR
  else
    Ok (set_time UINT32_MAX st1,
        calls
        ++ [CallSetTimerTick timer_period; CallTimerCallbackOn TIMER;
            CallMulticastCallbackOn MULTICAST; CallSimulationRun]).

(** What the theorems about the tick and the buffer assume of a state. *)
Definition core_inv (st : state) : Prop :=
  wf_sources st
  /\ wf_buffer st
  /\ n_spike_sources (parameters st) <= 32 * n_spike_buffer_words st
  /\ 0 <= recording_flags st
  /\ buffer_reset st
  /\ (recording_flags st = 0 -> spikes st = None).

End Start.

(** ** Sequences of callbacks *)

(** The events the core handles while it runs, and their delivery in
    order; the first error ends the run. *)
Inductive callback : Type :=
| Tick (t1_count : Z)                 (* timer_callback *)
| Multicast (mc_key payload : Z)      (* multicast_packet_callback *)
| Sdp (items : list (Z * Z)).         (* sdp_packet_callback *)

Section Callbacks.

Context {lib : Library}.

Definition deliver (c : callback) (st : state) : result state :=
  match c with
  | Tick t1_count => timer_callback t1_count st
  | Multicast mc_key payload => multicast_packet_callback mc_key payload st
  | Sdp items => sdp_packet_callback items st
  end.

Fixpoint deliver_all (cs : list callback) (st : state) : result state :=
  match cs with
  | [] => Ok st
  | c :: rest =>
      let! st1 := deliver c st in
      deliver_all rest st1
  end.

(** The number of times the run has been handed to
    [simulation_handle_pause_resume]. *)
Definition is_pause (e : event) : bool :=
  match e with
  | EvPauseResume => true
  | _ => false
  end.

Definition pause_count (tr : list event) : nat :=
  length (List.filter is_pause tr).

Definition pauses (st : state) : nat := pause_count (trace st).

(** Source [i] of the table is Slow with a mean interval of zero. *)
Definition silent_at (i : nat) (st : state) : Prop :=
  exists src,
    spike_source_array st !! i = Some src
    /\ is_fast_source src = false
    /\ mean_isi_ticks src = 0.

End Callbacks.

(** ** Concrete configurations of the start and of the recording tick *)

(** An implementation of the second interface for running the model: the
    seed is taken as it is, and a bit field of [n] bits has [ceil(n / 32)]
    words. *)
Definition plain_start_library : StartLibrary := {|
  validate_mars_kiss64_seed := fun sd => sd;
  get_bit_field_size := fun n => Z.shiftr (n + 31) 5
|}.

(** The region the host writes for a core with the fast source and the
    late slow source. *)
Definition two_source_region : sdram_region := {|
  sdram_parameters := ms_parameters true 2;
  sdram_sources := [fast_source; late_source]
|}.

(** A start in which every initialisation succeeds: ticks of 1000
    microseconds, a run of 1000 ticks, recording on. *)
Definition good_boot : boot_t := {|
  header_ok := true;
  simulation_init := Some (1000, 1000, 0);
  recording_init := (true, 1)
|}.

(** A fast source whose [exp_minus_lambda] is zero. *)
Definition clamped_source : spike_source_t := {|
  start_ticks := 0; end_ticks := 1000; is_fast_source := true;
  exp_minus_lambda := 0; mean_isi_ticks := 0; time_to_spike_ticks := 0
|}.

(** Tick 5 of a core holding that source. *)
Definition clamped_state : state :=
  set_time 5 (initial_state (ms_parameters true 1) [clamped_source] 0 1000).

(** The recording core after the draw of its fast source, and after the
    mark of the three spikes drawn. *)
Definition drawn_state : state :=
  snd (fast_spike_source_get_num_spikes (lib := counting_library)
         (exp_minus_lambda fast_source) recording_state).

Definition marked_state : state :=
  Eval vm_compute in
    match _mark_spike 0 3 drawn_state with
    | Ok st => st
    | Fail _ => drawn_state
    end.

(** The recording core after the whole tick that follows tick 5. *)
Definition recorded_tick_state : state :=
  Eval vm_compute in
    match timer_callback (lib := counting_library) 9 recording_state with
    | Ok st => st
    | Fail _ => recording_state
    end.

(** The recording core on a heap of 10 bytes. *)
Definition tight_state : state := set_heap_free 10 recording_state.

(** The late core after a rate update for its source, and after two ticks
    and a second update. *)
Definition updated_state : state :=
  Eval vm_compute in
    match set_spike_source_rate (lib := counting_library) 0 rate_1000_hz
            late_state with
    | Ok st => st
    | Fail _ => late_state
    end.

Definition updated_run : list callback :=
  [Tick 9; Multicast 0x1000 rate_100_hz; Tick 10].

Definition updated_run_state : state :=
  Eval vm_compute in
    match deliver_all (lib := counting_library) updated_run updated_state with
    | Ok st => st
    | Fail _ => updated_state
    end.

(** The recording core after the two ticks that follow tick 5. *)
Definition two_ticks_state : state :=
  Eval vm_compute in
    match deliver_all (lib := counting_library) [Tick 9; Tick 10]
            recording_state with
    | Ok st => st
    | Fail _ => recording_state
    end.

(** The late core when the region announces two sources. *)
Definition grown_region_state : state :=
  set_sdram two_source_region late_state.




(** * Properties *)

Section RateController.

Context {lib : Library}.

Lemma u32_small z : 0 <= z < 2 ^ 32 -> u32 z = z.
Proof. intros H. unfold u32. apply Z.mod_small. exact H. Qed.

Lemma u32_range z : 0 <= u32 z < 2 ^ 32.
Proof. unfold u32. apply Z.mod_pos_bound. lia. Qed.

Lemma load_Some {A : Type} (a : list A) i x :
  load a i = Ok x -> a !! Z.to_nat i = Some x.
Proof. unfold load. destruct (a !! Z.to_nat i); congruence. Qed.

Lemma store_Ok {A : Type} (a : list A) i x y :
  load a i = Ok x -> store a i y = Ok (<[Z.to_nat i := y]> a).
Proof.
  intros H. apply load_Some, lookup_lt_Some in H. unfold store.
  destruct (Nat.ltb_spec (Z.to_nat i) (length a)); [reflexivity | lia].
Qed.

Lemma load_store_same {A : Type} (a : list A) i x y :
  load a i = Ok x -> load (<[Z.to_nat i := y]> a) i = Ok y.
Proof.
  intros H. apply load_Some, lookup_lt_Some in H. unfold load.
  rewrite list_lookup_insert_eq by exact H. reflexivity.
Qed.

(** What an in-range call does, whatever rate it is given: the local
    [rate] is zero, so the record is rewritten from zero. *)
Lemma set_rate_in_range id rate st src :
  first_source_id (parameters st) <= u32 id ->
  u32 (u32 id - first_source_id (parameters st))
    < n_spike_sources (parameters st) ->
  load (spike_source_array st)
       (u32 (u32 id - first_source_id (parameters st))) = Ok src ->
  set_spike_source_rate id rate st
  = Ok (set_spike_source_array
          (<[Z.to_nat (u32 (u32 id - first_source_id (parameters st))) :=
               if slow_rate_per_tick_cutoff (parameters st) <? 0
               then set_fast (ufract_of_real (EXP 0)) src
               else set_slow 0 src]> (spike_source_array st)) st).
Proof.
  intros Hlo Hhi Hld. unfold set_spike_source_rate.
  apply Z.leb_le in Hlo. apply Z.ltb_lt in Hhi. rewrite Hlo, Hhi. simpl.
  rewrite Hld. simpl. erewrite store_Ok by exact Hld. reflexivity.
Qed.

(** C8. A call [set_rate(global_id, rate_hz)] whose id lies outside
    [[first_source_id, first_source_id + n_sources)] returns normally and
    leaves the whole state, every source record included, as it was. *)
Theorem set_rate_out_of_range_noop id rate st :
  wf_parameters (parameters st) ->
  ~ (first_source_id (parameters st) <= u32 id
     < first_source_id (parameters st) + n_spike_sources (parameters st)) ->
  set_spike_source_rate id rate st = Ok st.
Proof.
  intros [Hf Hn] Hout. unfold set_spike_source_rate.
  destruct (Z.leb_spec (first_source_id (parameters st)) (u32 id)) as [Hle|Hlt];
    [|reflexivity].
  pose proof (u32_range id) as Hid.
  rewrite u32_small by lia.
  destruct (Z.ltb_spec (u32 id - first_source_id (parameters st))
              (n_spike_sources (parameters st))); [lia | reflexivity].
Qed.

(** C9. Applying [set_rate(id, r)] twice in succession gives exactly the
    state that applying it once gives. *)
Theorem set_rate_idempotent id rate st :
  (let! st1 := set_spike_source_rate id rate st in
   set_spike_source_rate id rate st1)
  = set_spike_source_rate id rate st.
Proof.
  unfold set_spike_source_rate at 1 3.
  destruct ((first_source_id (parameters st) <=? u32 id)
            && (u32 (u32 id - first_source_id (parameters st))
                <? n_spike_sources (parameters st))) eqn:Hin.
  - apply andb_true_iff in Hin as [Hlo Hhi].
    apply Z.leb_le in Hlo. apply Z.ltb_lt in Hhi.
    destruct (load (spike_source_array st)
                (u32 (u32 id - first_source_id (parameters st)))) as [src|f]
      eqn:Hld; [|reflexivity].
    simpl. erewrite store_Ok by exact Hld. simpl.
    erewrite set_rate_in_range; simpl; eauto using load_store_same.
    rewrite list_insert_insert_eq.
    destruct (slow_rate_per_tick_cutoff (parameters st) <? 0); reflexivity.
  - simpl. unfold set_spike_source_rate. rewrite Hin. reflexivity.
Qed.

(** In a well-formed state with a cutoff that is not negative, an in-range
    call leaves the source Slow with a zero mean interval, for every rate. *)
Lemma set_rate_always_silent id rate st :
  wf_sources st ->
  0 <= slow_rate_per_tick_cutoff (parameters st) ->
  first_source_id (parameters st) <= u32 id ->
  u32 (u32 id - first_source_id (parameters st))
    < n_spike_sources (parameters st) ->
  exists src st',
    set_spike_source_rate id rate st = Ok st'
    /\ load (spike_source_array st')
         (u32 (u32 id - first_source_id (parameters st))) = Ok src
    /\ is_fast_source src = false /\ mean_isi_ticks src = 0.
Proof.
  intros Hwf Hcut Hlo Hhi.
  pose proof (u32_range (u32 id - first_source_id (parameters st))) as Hr.
  destruct (lookup_lt_is_Some_2 (spike_source_array st)
              (Z.to_nat (u32 (u32 id - first_source_id (parameters st)))))
    as [src0 Hsrc0].
  { unfold wf_sources in Hwf. lia. }
  assert (Hld : load (spike_source_array st)
                  (u32 (u32 id - first_source_id (parameters st))) = Ok src0).
  { unfold load. rewrite Hsrc0. reflexivity. }
  eexists _, _. split; [eapply set_rate_in_range; eassumption|].
  split; [eapply load_store_same; exact Hld|].
  destruct (Z.ltb_spec (slow_rate_per_tick_cutoff (parameters st)) 0);
    [lia | split; reflexivity].
Qed.

(** C1. The call [set_rate(0, 1000 Hz)] on a core of one source with
    millisecond ticks and cutoff 0.25: the per-tick rate of the incoming
    rate is above the cutoff, yet the record is left Slow with a zero mean
    interval, so the regime dichotomy fails on it.  The derived quantities
    come from the local [rate = 0.0], not from the argument. *)
Theorem set_rate_1000_hz_stays_slow :
  set_spike_source_rate 0 rate_1000_hz one_source_state = Ok one_source_state
  /\ spike_source_array one_source_state = [idle_source]
  /\ is_fast_source idle_source = false
  /\ slow_rate_per_tick_cutoff (parameters one_source_state)
     < rate_per_tick_of rate_1000_hz (parameters one_source_state)
  /\ ~ regime_dichotomy rate_1000_hz (parameters one_source_state) idle_source.
Proof.
  split; [reflexivity|]. split; [reflexivity|]. split; [reflexivity|].
  assert (Hlt : slow_rate_per_tick_cutoff (parameters one_source_state)
                < rate_per_tick_of rate_1000_hz (parameters one_source_state))
    by (vm_compute; reflexivity).
  split; [exact Hlt|].
  intros [_ Hback]. destruct (Hback Hlt) as [Hfast _]. discriminate Hfast.
Qed.

(** C3. The call [set_rate(0, 100 Hz)] on the same core: the incoming rate
    is not zero and the source is left Slow, the reciprocal of its per-tick
    rate is about 10 ticks, yet the stored [mean_isi_ticks] is 0. *)
Theorem set_rate_100_hz_mean_isi_zero :
  rate_100_hz <> 0
  /\ set_spike_source_rate 0 rate_100_hz one_source_state = Ok one_source_state
  /\ spike_source_array one_source_state = [idle_source]
  /\ is_fast_source idle_source = false
  /\ mean_isi_ticks idle_source = 0
  /\ mean_isi_spec rate_100_hz (parameters one_source_state) = 327760.
Proof.
  split; [discriminate|]. repeat (split; [reflexivity|]). reflexivity.
Qed.

End RateController.

(** ** The timer tick *)

Section TimerTick.

Context {lib : Library}.

Lemma active_this_tick_iff src st :
  active_this_tick src st = true
  <-> start_ticks src <= time st < end_ticks src.
Proof.
  unfold active_this_tick. rewrite andb_true_iff, Z.leb_le, Z.ltb_lt.
  reflexivity.
Qed.

Lemma update_time_to_spike_Ok s f st src :
  load (spike_source_array st) s = Ok src ->
  update_time_to_spike s f st
  = Ok (set_spike_source_array
          (<[Z.to_nat s := set_time_to_spike (f (time_to_spike_ticks src)) src]>
             (spike_source_array st)) st).
Proof.
  intros Hld. unfold update_time_to_spike. rewrite Hld. simpl.
  erewrite store_Ok by exact Hld. reflexivity.
Qed.

(** [_mark_spike] touches the buffer, the count of allocated buffers and
    the heap, and nothing else. *)
Lemma grow_spikes_frame n st st' :
  grow_spikes n st = Ok st' ->
  st' = set_buffer (spikes st') (n_spike_buffers_allocated st')
          (heap_free st') st.
Proof.
  unfold grow_spikes. intros H.
  destruct (heap_free st <? _); [discriminate|].
  destruct (spikes st) as [old|].
  - destruct (_ && _); [|discriminate].
    destruct (tos_of_words _); simpl in H; [|discriminate].
    injection H as <-. reflexivity.
  - destruct (tos_of_words _); simpl in H; [|discriminate].
    injection H as <-. reflexivity.
Qed.

Lemma mark_spike_frame id n st st' :
  _mark_spike id n st = Ok st' ->
  st' = set_buffer (spikes st') (n_spike_buffers_allocated st')
          (heap_free st') st.
Proof.
  unfold _mark_spike. intros H.
  destruct (0 <? recording_flags st).
  - destruct (n_spike_buffers_allocated st <? n).
    + destruct (grow_spikes n st) as [st1|] eqn:Hg; simpl in H; [|discriminate].
      apply grow_spikes_frame in Hg.
      destruct (spikes st1); [|discriminate].
      destruct (mark_loop _ _ _ _); simpl in H; [|discriminate].
      injection H as <-. rewrite Hg. reflexivity.
    + simpl in H. destruct (spikes st); [|discriminate].
      destruct (mark_loop _ _ _ _); simpl in H; [|discriminate].
      injection H as <-. reflexivity.
  - injection H as <-. destruct st; reflexivity.
Qed.

(** A sweep over sources that are all silent leaves the state as it is. *)
Lemma source_loop_silent n s st :
  (forall i, s <= i < s + Z.of_nat n ->
     exists src, load (spike_source_array st) i = Ok src
       /\ (~ (start_ticks src <= time st < end_ticks src)
           \/ (is_fast_source src = false /\ mean_isi_ticks src = 0))) ->
  source_loop n s st = Ok st.
Proof.
  revert s. induction n as [|n IH]; intros s Hall; [reflexivity|].
  cbn [source_loop].
  destruct (Hall s) as (src & Hld & Hs); [lia|].
  assert (Hskip : source_tick s st = Ok st).
  { unfold source_tick. rewrite Hld. cbn [bind].
    destruct Hs as [Hout | [Hslow Hzero]].
    - destruct (active_this_tick src st) eqn:Hact.
      + apply active_this_tick_iff in Hact. contradiction.
      + destruct (is_fast_source src); reflexivity.
    - rewrite Hslow, Hzero. rewrite andb_false_r. reflexivity. }
  rewrite Hskip. cbn [bind].
  apply IH. intros i Hi. apply Hall. lia.
Qed.

(** C5. A source whose window [[start_ticks, end_ticks)] does not hold the
    tick, of either regime, and a Slow source whose [mean_isi_ticks] is
    zero, on any tick: the pass of the tick handler over the source leaves
    the state as it is, so no packet is sent, nothing is marked in the
    recording buffer and [time_to_spike_ticks] is not decremented. *)
Theorem source_tick_silent s st src :
  load (spike_source_array st) s = Ok src ->
  ~ (start_ticks src <= time st < end_ticks src)
  \/ (is_fast_source src = false /\ mean_isi_ticks src = 0) ->
  source_tick s st = Ok st.
Proof.
  intros Hld Hsilent. unfold source_tick. rewrite Hld. cbn [bind].
  destruct Hsilent as [Hout | [Hslow Hzero]].
  - destruct (active_this_tick src st) eqn:Hact.
    + apply active_this_tick_iff in Hact. contradiction.
    + destruct (is_fast_source src); reflexivity.
  - rewrite Hslow, Hzero. rewrite andb_false_r. reflexivity.
Qed.

(** C2, as the code has it. On a tick inside the window of a Slow source
    with [mean_isi_ticks <> 0], when marking does not trap: if
    [time_to_spike_ticks <= 0] on entry the handler marks [(s, 1)] once,
    sends one packet if a key is configured and adds one slow interval
    draw; otherwise it marks and sends nothing; in both cases
    [time_to_spike_ticks] is then decremented by 1 exactly once.  The
    crossing is tested once: no second spike follows in the same tick. *)
Theorem slow_tick_one_crossing s st src st1 :
  load (spike_source_array st) s = Ok src ->
  is_fast_source src = false ->
  start_ticks src <= time st < end_ticks src ->
  mean_isi_ticks src <> 0 ->
  (if time_to_spike_ticks src <=? 0 then _mark_spike s 1 st else Ok st)
  = Ok st1 ->
  exists st',
    source_tick s st = Ok st'
    /\ trace st'
       = trace st
         ++ (if (time_to_spike_ticks src <=? 0) && has_key (parameters st)
             then [EvSendMc (Z.lor (key (parameters st)) s)] else [])
    /\ spikes st' = spikes st1
    /\ load (spike_source_array st') s
       = Ok (set_time_to_spike
               (if time_to_spike_ticks src <=? 0
                then real_sub
                       (real_add (time_to_spike_ticks src)
                          (fst (slow_spike_source_get_time_to_spike
                                  (mean_isi_ticks src) st)))
                       REAL_ONE
                else real_sub (time_to_spike_ticks src) REAL_ONE) src).
Proof.
  intros Hld Hslow Hwin Hisi Hmark. unfold source_tick.
  rewrite Hld. simpl. rewrite Hslow.
  apply active_this_tick_iff in Hwin. rewrite Hwin.
  apply Z.eqb_neq in Hisi. rewrite Hisi. simpl.
  destruct (time_to_spike_ticks src <=? 0) eqn:Hcross.
  - rewrite Hmark. cbn [bind].
    pose proof (mark_spike_frame _ _ _ _ Hmark) as Hfr.
    assert (Hp : parameters st1 = parameters st) by (rewrite Hfr; reflexivity).
    assert (Ha : spike_source_array st1 = spike_source_array st)
      by (rewrite Hfr; reflexivity).
    assert (Ht : trace st1 = trace st) by (rewrite Hfr; reflexivity).
    rewrite Hp.
    set (st2 := if has_key (parameters st)
                then _send_spike (Z.lor (key (parameters st)) s) st1
                else st1).
    assert (Hp2 : parameters st2 = parameters st)
      by (subst st2; destruct (has_key (parameters st)); exact Hp).
    assert (Ha2 : spike_source_array st2 = spike_source_array st)
      by (subst st2; destruct (has_key (parameters st)); exact Ha).
    assert (Hb2 : spikes st2 = spikes st1)
      by (subst st2; destruct (has_key (parameters st)); reflexivity).
    assert (Ht2 : trace st2
                  = trace st
                    ++ (if has_key (parameters st)
                        then [EvSendMc (Z.lor (key (parameters st)) s)]
                        else []))
      by (subst st2; destruct (has_key (parameters st)); cbn [_send_spike];
          simpl; rewrite Ht, ?app_nil_r; reflexivity).
    clearbody st2.
    unfold slow_spike_source_get_time_to_spike. rewrite Hp2.
    destruct (exponential_dist_variate (spike_source_seed (parameters st)))
      as [v sd] eqn:Hv.
    erewrite update_time_to_spike_Ok by (simpl; rewrite Ha2; exact Hld).
    cbn [bind].
    erewrite update_time_to_spike_Ok
      by (simpl; rewrite Ha2; eapply load_store_same; exact Hld).
    eexists. split; [reflexivity|]. simpl. rewrite Ht2, Ha2.
    rewrite list_insert_insert_eq.
    split; [reflexivity|]. split; [exact Hb2|].
    eapply load_store_same; exact Hld.
  - injection Hmark as <-. cbn [bind].
    erewrite update_time_to_spike_Ok by exact Hld.
    eexists. split; [reflexivity|]. simpl. rewrite app_nil_r.
    split; [reflexivity|]. split; [reflexivity|].
    eapply load_store_same; exact Hld.
Qed.

(** *** The end of the run *)

Lemma u32_pred_succ t : 0 <= t < 2 ^ 32 -> u32 (u32 (t + 1) - 1) = t.
Proof.
  intros Ht. unfold u32. rewrite Zminus_mod_idemp_l.
  replace (t + 1 - 1) with t by lia. apply Z.mod_small. exact Ht.
Qed.

Lemma store_poisson_parameters_Ok st :
  wf_sources st ->
  n_spike_sources (parameters st)
    <= Z.of_nat (length (sdram_sources (sdram st))) ->
  store_poisson_parameters st
  = Ok (set_sdram
          {| sdram_parameters := sdram_parameters (sdram st);
             sdram_sources :=
               spike_source_array st
               ++ drop (length (spike_source_array st))
                    (sdram_sources (sdram st)) |} st).
Proof.
  unfold wf_sources, store_poisson_parameters. intros Hwf Hlen.
  destruct (Z.ltb_spec 0 (n_spike_sources (parameters st))) as [Hpos|Hzero].
  - rewrite <- Hwf, Nat2Z.id. rewrite Nat.leb_refl. simpl.
    destruct (Nat.leb_spec (length (spike_source_array st))
                (length (sdram_sources (sdram st)))); [|lia].
    rewrite firstn_all. reflexivity.
  - destruct (spike_source_array st) as [|x a] eqn:Ha; simpl in Hwf; [|lia].
    simpl. rewrite drop_0. destruct st as [? ? ? ? ? ? ? ? ? ? ? ? ? [? ?] ? ?].
    reflexivity.
Qed.

(** C4, as the code has it. On a tick [t = time + 1] with a finite run
    configured and [t >= simulation_ticks] the handler copies the source
    records over the records of the shared region and leaves the parameter
    block of the region as it is, enters the pause state, finalises the
    recorder when recording is enabled, and puts the tick counter back so
    that the same tick is processed after the resume; it sends and marks
    nothing and leaves every source record in memory unchanged. *)
Theorem timer_callback_at_end_of_run t1 st :
  0 <= time st < 2 ^ 32 ->
  infinite_run st <> TRUE ->
  simulation_ticks st <= u32 (time st + 1) ->
  wf_sources st ->
  n_spike_sources (parameters st)
    <= Z.of_nat (length (sdram_sources (sdram st))) ->
  exists st',
    timer_callback t1 st = Ok st'
    /\ sdram_sources (sdram st')
       = spike_source_array st
         ++ drop (length (spike_source_array st)) (sdram_sources (sdram st))
    /\ sdram_parameters (sdram st') = sdram_parameters (sdram st)
    /\ trace st'
       = trace st
         ++ EvPauseResume
            :: (if 0 <? recording_flags st then [EvRecordingFinalise] else [])
    /\ time st' = time st
    /\ spike_source_array st' = spike_source_array st
    /\ parameters st' = parameters st
    /\ spikes st' = spikes st
    /\ n_spike_buffers_allocated st' = n_spike_buffers_allocated st
    /\ expected_time st' = expected_time st.
Proof.
  intros Ht Hfin Hend Hwf Hsd. unfold timer_callback.
  cbn [infinite_run simulation_ticks time set_time].
  apply Z.eqb_neq in Hfin. rewrite Hfin.
  apply Z.leb_le in Hend. rewrite Hend. cbn [negb andb].
  unfold pause_tick. rewrite store_poisson_parameters_Ok by assumption.
  cbn [bind]. eexists. split; [reflexivity|].
  cbn [recording_flags emit set_sdram set_time].
  destruct (0 <? recording_flags st); cbn -[u32 Z.pow];
    rewrite u32_pred_succ by exact Ht; rewrite <- ?app_assoc;
    repeat split; reflexivity.
Qed.

End TimerTick.

(** ** Recording and generation *)

Section RecordingOff.
Context {lib : Library}.


Ltac fields :=
  cbn [parameters spike_source_array time_between_spikes expected_time
       recording_flags time simulation_ticks infinite_run spikes
       n_spike_buffers_allocated n_spike_buffer_words spike_buffer_size
       recording_in_progress sdram heap_free trace
       set_parameters set_spike_source_array set_expected_time set_time
       set_buffer set_spikes set_recording_in_progress set_sdram emit
       _send_spike recording_complete_callback] in *.

Ltac views :=
  unfold paired, generation_view, recording_view, fabric_trace,
    recording_trace in *; fields.

Lemma paired_set_parameters rv a b p :
  paired rv a b -> paired rv (set_parameters p a) (set_parameters p b).
Proof. views. intros [Hg Hr]. simplify_eq. split; congruence. Qed.

Lemma paired_set_array rv a b x :
  paired rv a b ->
  paired rv (set_spike_source_array x a) (set_spike_source_array x b).
Proof. views. intros [Hg Hr]. simplify_eq. split; congruence. Qed.

Lemma paired_emit rv a b e :
  is_recording_event e = false ->
  paired rv a b -> paired rv (emit e a) (emit e b).
Proof.
  views. intros He [Hg Hr]. simplify_eq. rewrite !List.filter_app. simpl.
  rewrite He. simpl. rewrite app_nil_r. split; congruence.
Qed.

Lemma paired_emit_l rv a b e :
  is_recording_event e = true ->
  paired rv a b -> paired rv (emit e a) b.
Proof.
  views. intros He [Hg Hr]. simplify_eq. rewrite !List.filter_app. simpl.
  rewrite He. simpl. rewrite app_nil_r. split; congruence.
Qed.

Lemma paired_set_expected_time rv a b e :
  paired rv a b -> paired rv (set_expected_time e a) (set_expected_time e b).
Proof. views. intros [Hg Hr]. simplify_eq. split; congruence. Qed.

Lemma paired_set_time rv a b e :
  paired rv a b -> paired rv (set_time e a) (set_time e b).
Proof. views. intros [Hg Hr]. simplify_eq. split; congruence. Qed.

Lemma paired_set_sdram rv a b e :
  paired rv a b -> paired rv (set_sdram e a) (set_sdram e b).
Proof. views. intros [Hg Hr]. simplify_eq. split; congruence. Qed.

Lemma paired_send rv a b k :
  paired rv a b -> paired rv (_send_spike k a) (_send_spike k b).
Proof.
  intros H. unfold _send_spike. apply paired_emit; [reflexivity|].
  destruct H as [Hg Hr].
  assert (expected_time a = expected_time b
          /\ time_between_spikes a = time_between_spikes b) as [-> ->]
    by (views; simplify_eq; split; congruence).
  apply paired_set_expected_time. split; assumption.
Qed.

Lemma paired_send_loop rv n k a b :
  paired rv a b -> paired rv (send_loop n k a) (send_loop n k b).
Proof.
  revert a b. induction n as [|n IH]; intros a b H; [exact H|].
  cbn [send_loop]. apply IH, paired_send, H.
Qed.

Lemma paired_buffer_l rv a b x y z :
  paired rv a b -> paired rv (set_buffer x y z a) b.
Proof. views. intros [Hg Hr]. simplify_eq. split; congruence. Qed.

Lemma paired_in_progress_l rv a b x :
  paired rv a b -> paired rv (set_recording_in_progress x a) b.
Proof. views. intros [Hg Hr]. simplify_eq. split; congruence. Qed.

Lemma mark_spike_off id n st :
  recording_flags st = 0 -> _mark_spike id n st = Ok st.
Proof. intros H. unfold _mark_spike. rewrite H. reflexivity. Qed.

Lemma paired_parameters rv a b : paired rv a b -> parameters a = parameters b.
Proof. views. intros [Hg Hr]. congruence. Qed.

Lemma paired_sources rv a b :
  paired rv a b -> spike_source_array a = spike_source_array b.
Proof. views. intros [Hg Hr]. congruence. Qed.

Lemma paired_time rv a b : paired rv a b -> time a = time b.
Proof. views. intros [Hg Hr]. congruence. Qed.

Lemma paired_mark_l rv a b id n a' :
  paired rv a b -> _mark_spike id n a = Ok a' -> paired rv a' b.
Proof.
  intros H Hm. apply mark_spike_frame in Hm. rewrite Hm.
  apply paired_buffer_l, H.
Qed.

Lemma paired_update rv a b s f a' :
  paired rv a b ->
  update_time_to_spike s f a = Ok a' ->
  exists b', update_time_to_spike s f b = Ok b' /\ paired rv a' b'.
Proof.
  intros H. unfold update_time_to_spike.
  rewrite <- (paired_sources _ _ _ H).
  destruct (load (spike_source_array a) s) as [src|]; [|discriminate].
  cbn [bind]. destruct (store _ _ _) as [x|]; [|discriminate].
  cbn [bind]. intros [= <-]. eexists. split; [reflexivity|].
  apply paired_set_array, H.
Qed.

Lemma paired_flags b0 a b :
  recording_flags b0 = 0 -> paired (recording_view b0) a b ->
  recording_flags b = 0.
Proof. views. intros H0 [Hg Hr]. congruence. Qed.

Lemma paired_fast rv a b eml :
  paired rv a b ->
  fst (fast_spike_source_get_num_spikes eml a)
  = fst (fast_spike_source_get_num_spikes eml b)
  /\ paired rv (snd (fast_spike_source_get_num_spikes eml a))
       (snd (fast_spike_source_get_num_spikes eml b)).
Proof.
  intros H. unfold fast_spike_source_get_num_spikes.
  rewrite <- (paired_parameters _ _ _ H).
  destruct (bitsulr eml =? bitsulr 0); [split; [reflexivity | exact H]|].
  destruct (poisson_dist_variate_exp_minus_lambda _ _) as [k sd].
  split; [reflexivity|]. apply paired_set_parameters, H.
Qed.

Lemma paired_slow rv a b isi :
  paired rv a b ->
  fst (slow_spike_source_get_time_to_spike isi a)
  = fst (slow_spike_source_get_time_to_spike isi b)
  /\ paired rv (snd (slow_spike_source_get_time_to_spike isi a))
       (snd (slow_spike_source_get_time_to_spike isi b)).
Proof.
  intros H. unfold slow_spike_source_get_time_to_spike.
  rewrite <- (paired_parameters _ _ _ H).
  destruct (exponential_dist_variate _) as [v sd].
  split; [reflexivity|]. apply paired_set_parameters, H.
Qed.

Lemma source_tick_paired b0 s a b a' :
  recording_flags b0 = 0 ->
  paired (recording_view b0) a b ->
  source_tick s a = Ok a' ->
  exists b', source_tick s b = Ok b' /\ paired (recording_view b0) a' b'.
Proof.
  intros H0 H. unfold source_tick, active_this_tick.
  rewrite <- (paired_sources _ _ _ H), <- (paired_time _ _ _ H).
  destruct (load (spike_source_array a) s) as [src|]; [|discriminate].
  cbn [bind].
  destruct (is_fast_source src).
  - destruct ((start_ticks src <=? time a) && (time a <? end_ticks src)).
    + destruct (paired_fast _ _ _ (exp_minus_lambda src) H) as [Hk H1].
      destruct (fast_spike_source_get_num_spikes (exp_minus_lambda src) a)
        as [k a1].
      destruct (fast_spike_source_get_num_spikes (exp_minus_lambda src) b)
        as [k' b1].
      cbn [fst snd] in Hk, H1. subst k'.
      destruct (0 <? k).
      * rewrite (mark_spike_off s k b1) by (eapply paired_flags; eassumption).
        destruct (_mark_spike s k a1) as [a2|] eqn:Hm; [|discriminate].
        cbn [bind]. pose proof (paired_mark_l _ _ _ _ _ _ H1 Hm) as H2.
        rewrite <- (paired_parameters _ _ _ H2).
        destruct (has_key (parameters a2)); intros [= <-];
          eexists; (split; [reflexivity|]);
          [apply paired_send_loop, H2 | exact H2].
      * intros [= <-]. eexists. split; [reflexivity | exact H1].
    + intros [= <-]. eexists. split; [reflexivity | exact H].
  - destruct ((start_ticks src <=? time a) && (time a <? end_ticks src)
              && negb (mean_isi_ticks src =? 0)).
    + destruct (time_to_spike_ticks src <=? 0).
      * rewrite (mark_spike_off s 1 b) by (eapply paired_flags; eassumption).
        destruct (_mark_spike s 1 a) as [a1|] eqn:Hm; [|discriminate].
        cbn [bind]. pose proof (paired_mark_l _ _ _ _ _ _ H Hm) as H1.
        rewrite <- (paired_parameters _ _ _ H1).
        set (a2 := if has_key (parameters a1)
                   then _send_spike (Z.lor (key (parameters a1)) s) a1
                   else a1).
        set (b2 := if has_key (parameters a1)
                   then _send_spike (Z.lor (key (parameters a1)) s) b
                   else b).
        assert (H2 : paired (recording_view b0) a2 b2)
          by (subst a2 b2; destruct (has_key (parameters a1));
              [apply paired_send, H1 | exact H1]).
        clearbody a2 b2.
        destruct (paired_slow _ _ _ (mean_isi_ticks src) H2) as [Hi H3].
        destruct (slow_spike_source_get_time_to_spike (mean_isi_ticks src) a2)
          as [isi a3].
        destruct (slow_spike_source_get_time_to_spike (mean_isi_ticks src) b2)
          as [isi' b3].
        cbn [fst snd] in Hi, H3. subst isi'.
        destruct (update_time_to_spike s _ a3) as [a4|] eqn:Hu;
          [|discriminate].
        destruct (paired_update _ _ _ _ _ _ H3 Hu) as (b4 & -> & H4).
        cbn [bind]. intros Hu'.
        exact (paired_update _ _ _ _ _ _ H4 Hu').
      * cbn [bind]. intros Hu. exact (paired_update _ _ _ _ _ _ H Hu).
    + intros [= <-]. eexists. split; [reflexivity | exact H].
Qed.

Lemma source_loop_paired b0 n s a b a' :
  recording_flags b0 = 0 ->
  paired (recording_view b0) a b ->
  source_loop n s a = Ok a' ->
  exists b', source_loop n s b = Ok b' /\ paired (recording_view b0) a' b'.
Proof.
  intros H0. revert s a b. induction n as [|n IH]; intros s a b H.
  - intros [= <-]. eexists. split; [reflexivity | exact H].
  - cbn [source_loop].
    destruct (source_tick s a) as [a1|] eqn:Ht; [|discriminate].
    destruct (source_tick_paired _ _ _ _ _ H0 H Ht) as (b1 & -> & H1).
    cbn [bind]. apply IH, H1.
Qed.

Lemma reset_spikes_frame st st' :
  _reset_spikes st = Ok st' ->
  st' = set_buffer (spikes st') (n_spike_buffers_allocated st)
          (heap_free st) st.
Proof.
  unfold _reset_spikes. destruct (spikes st); [|discriminate].
  destruct (reset_loop _ _ _); [|discriminate]. intros [= <-]. reflexivity.
Qed.

Lemma paired_record_l rv t a b a' :
  paired rv a b -> _record_spikes t a = Ok a' -> paired rv a' b.
Proof.
  intros H. unfold _record_spikes.
  destruct (spikes (recording_complete_callback a)) as [bf|].
  - destruct (0 <? n_buffers bf).
    + destruct (_ <=? _)%nat; [|discriminate].
      intros Hr. apply reset_spikes_frame in Hr. rewrite Hr.
      apply paired_buffer_l, paired_emit_l; [reflexivity|].
      apply paired_buffer_l, paired_in_progress_l, paired_in_progress_l, H.
    + intros [= <-]. apply paired_in_progress_l, H.
  - intros [= <-]. apply paired_in_progress_l, H.
Qed.

Lemma paired_store b0 a b a' :
  paired (recording_view b0) a b ->
  store_poisson_parameters a = Ok a' ->
  exists b', store_poisson_parameters b = Ok b'
             /\ paired (recording_view b0) a' b'.
Proof.
  intros H. unfold store_poisson_parameters.
  assert (Hsd : sdram a = sdram b) by (views; destruct H; congruence).
  rewrite <- (paired_parameters _ _ _ H), <- (paired_sources _ _ _ H), <- Hsd.
  destruct (0 <? _).
  - destruct (_ && _); [|discriminate]. intros [= <-].
    eexists. split; [reflexivity|]. apply paired_set_sdram, H.
  - intros [= <-]. eexists. split; [reflexivity | exact H].
Qed.

Lemma timer_callback_paired b0 t1 a b a' :
  recording_flags b0 = 0 ->
  paired (recording_view b0) a b ->
  timer_callback t1 a = Ok a' ->
  exists b', timer_callback t1 b = Ok b' /\ paired (recording_view b0) a' b'.
Proof.
  intros H0 H. unfold timer_callback.
  assert (Hv : time a = time b /\ infinite_run a = infinite_run b
               /\ simulation_ticks a = simulation_ticks b
               /\ time_between_spikes a = time_between_spikes b)
    by (views; destruct H as [Hg _]; simplify_eq; repeat split; congruence).
  destruct Hv as (Ht & Hi & Hs & Hb).
  pose proof (paired_set_time _ _ _ (u32 (time a + 1)) H) as H1.
  rewrite <- Ht. fields. rewrite <- Hi, <- Hs.
  destruct (negb (infinite_run a =? TRUE)
            && (simulation_ticks a <=? u32 (time a + 1))).
  - unfold pause_tick.
    destruct (store_poisson_parameters (set_time _ a)) as [a1|] eqn:Hst;
      [|discriminate].
    destruct (paired_store _ _ _ _ H1 Hst) as (b1 & -> & H2).
    cbn [bind]. intros [= <-]. eexists. split; [reflexivity|].
    pose proof (paired_flags _ _ _ H0 H2) as Hf.
    pose proof (paired_time _ _ _ H2) as Ht2.
    fields. rewrite Hf. cbn [Z.ltb Z.compare].
    replace (time (emit EvPauseResume b1)) with (time a1) by exact Ht2.
    destruct (0 <? recording_flags a1).
    + apply (paired_set_time _ (emit _ (emit _ a1)) (emit _ b1)).
      apply paired_emit_l; [reflexivity|].
      apply paired_emit; [reflexivity | exact H2].
    + apply (paired_set_time _ (emit _ a1) (emit _ b1)).
      apply paired_emit; [reflexivity | exact H2].
  - unfold run_tick. fields.
    rewrite <- (paired_parameters _ _ _ H), <- Hb.
    set (a3 := emit EvOutSpikesReset _).
    set (b3 := emit EvOutSpikesReset _).
    assert (H3 : paired (recording_view b0) a3 b3).
    { subst a3 b3. apply paired_emit; [reflexivity|].
      apply paired_set_expected_time. apply paired_emit; [reflexivity|].
      exact H1. }
    clearbody a3 b3.
    destruct (source_loop _ 0 a3) as [a4|] eqn:Hl; [|discriminate].
    destruct (source_loop_paired _ _ _ _ _ _ H0 H3 Hl) as (b4 & Hl' & H4).
    rewrite Hl'. cbn [bind].
    rewrite (paired_flags _ _ _ H0 H4). cbn [Z.ltb Z.compare bind].
    assert (H5 : forall a5,
               (if 0 <? recording_flags a4
                then _record_spikes (time a4) a4 else Ok a4) = Ok a5 ->
               paired (recording_view b0) a5 b4).
    { intros a5. destruct (0 <? recording_flags a4).
      - apply paired_record_l, H4.
      - intros [= <-]. exact H4. }
    destruct (if 0 <? recording_flags a4 then _ else _) as [a5|];
      [|discriminate].
    specialize (H5 a5 eq_refl). cbn [bind]. intros [= <-].
    eexists. split; [reflexivity|].
    rewrite (paired_flags _ _ _ H0 H4). cbn [Z.ltb Z.compare].
    destruct (0 <? recording_flags a5); [|exact H5].
    apply paired_emit_l; [reflexivity | exact H5].
Qed.

(** With recording off the tick cannot trap on well-formed sources. *)







Lemma paired_refl b : paired (recording_view b) b b.
Proof. split; reflexivity. Qed.


End RecordingOff.

(** ** The recording buffer *)

Section Buffer.

Context {lib : Library}.

Lemma testbit_one_shl m j : 0 <= m -> Z.testbit (Z.shiftl 1 m) j = (j =? m).
Proof.
  intros Hm. rewrite Z.shiftl_1_l. rewrite Z.pow2_bits_eqb by exact Hm.
  apply Z.eqb_sym.
Qed.

Lemma land_31_range n : 0 <= Z.land n 31 < 32.
Proof.
  change 31 with (Z.ones 5). rewrite Z.land_ones by lia.
  apply Z.mod_pos_bound. lia.
Qed.

Lemma split_word_bit n : n = 32 * Z.shiftr n 5 + Z.land n 31.
Proof.
  change 31 with (Z.ones 5). rewrite Z.land_ones by lia.
  rewrite Z.shiftr_div_pow2 by lia. change (2 ^ 5) with 32.
  apply Z.div_mod. lia.
Qed.

Lemma shiftr_5_bound n nw : 0 <= n < 32 * nw -> 0 <= Z.shiftr n 5 < nw.
Proof.
  intros H. rewrite Z.shiftr_div_pow2 by lia. change (2 ^ 5) with 32.
  split; [apply Z.div_pos; lia | apply Z.div_lt_upper_bound; lia].
Qed.

Lemma bit_field_set_Ok ws b n w :
  ws !! Z.to_nat (b + Z.shiftr n 5) = Some w ->
  bit_field_set ws b n
  = Ok (<[Z.to_nat (b + Z.shiftr n 5) :=
            Z.lor w (Z.shiftl 1 (Z.land n 31))]> ws).
Proof.
  intros H. unfold bit_field_set.
  assert (Hld : load ws (b + Z.shiftr n 5) = Ok w)
    by (unfold load; rewrite H; reflexivity).
  rewrite Hld. cbn [bind]. erewrite store_Ok by exact Hld. reflexivity.
Qed.

(** Setting bit [n] of the field at [b] sets that bit and no other. *)
Lemma bit_field_test_set ws b n ws' b' n' :
  bit_field_set ws b n = Ok ws' ->
  0 <= b + Z.shiftr n 5 -> 0 <= b' + Z.shiftr n' 5 ->
  bit_field_test ws' b' n'
  = bit_field_test ws b' n'
    || ((b' + Z.shiftr n' 5 =? b + Z.shiftr n 5)
        && (Z.land n' 31 =? Z.land n 31)).
Proof.
  intros Hset Hi Hi'. unfold bit_field_set in Hset.
  destruct (load ws (b + Z.shiftr n 5)) as [w|] eqn:Hld; [|discriminate].
  cbn [bind] in Hset. erewrite store_Ok in Hset by exact Hld.
  injection Hset as <-. apply load_Some in Hld.
  unfold bit_field_test.
  destruct (Z.eqb_spec (b' + Z.shiftr n' 5) (b + Z.shiftr n 5)) as [->|Hne].
  - rewrite list_lookup_insert_eq by (eapply lookup_lt_Some; exact Hld).
    rewrite Hld. rewrite Z.lor_spec, testbit_one_shl by apply land_31_range.
    reflexivity.
  - rewrite list_lookup_insert_ne by lia.
    rewrite andb_false_l, orb_false_r. reflexivity.
Qed.

Lemma bit_field_set_length ws b n ws' :
  bit_field_set ws b n = Ok ws' -> length ws' = length ws.
Proof.
  unfold bit_field_set.
  destruct (load ws (b + Z.shiftr n 5)) as [w|] eqn:Hld; [|discriminate].
  cbn [bind]. erewrite store_Ok by exact Hld. intros [= <-].
  apply length_insert.
Qed.

Lemma out_spikes_small k st :
  0 <= k -> 0 <= n_spike_buffer_words st ->
  k * n_spike_buffer_words st < 2 ^ 32 ->
  _out_spikes k st = k * n_spike_buffer_words st.
Proof. intros. unfold _out_spikes. apply u32_small. lia. Qed.

(** Two bits of two layers lie at the same place only if they are the same
    bit of the same layer. *)
Lemma same_place nw k s k' s' :
  0 <= k -> 0 <= k' -> 0 <= s < 32 * nw -> 0 <= s' < 32 * nw ->
  (k' * nw + Z.shiftr s' 5 =? k * nw + Z.shiftr s 5)
  && (Z.land s' 31 =? Z.land s 31)
  = (k' =? k) && (s' =? s).
Proof.
  intros Hk Hk' Hs Hs'.
  pose proof (shiftr_5_bound s nw Hs) as Hh.
  pose proof (shiftr_5_bound s' nw Hs') as Hh'.
  pose proof (split_word_bit s) as Es. pose proof (split_word_bit s') as Es'.
  destruct (Z.eqb_spec k' k) as [->|Hne].
  - destruct (Z.eqb_spec s' s) as [->|Hns].
    + rewrite !Z.eqb_refl. reflexivity.
    + destruct (Z.eqb_spec (k * nw + Z.shiftr s' 5) (k * nw + Z.shiftr s 5));
        [|reflexivity].
      destruct (Z.eqb_spec (Z.land s' 31) (Z.land s 31)); [lia | reflexivity].
  - destruct (Z.eqb_spec (k' * nw + Z.shiftr s' 5) (k * nw + Z.shiftr s 5))
      as [E|]; [|reflexivity].
    exfalso. assert (k' < k \/ k < k') as [Hlt|Hlt] by lia; nia.
Qed.

Lemma mark_loop_spec st id n :
  forall ws,
    0 <= id < 32 * n_spike_buffer_words st ->
    Z.of_nat n * n_spike_buffer_words st <= Z.of_nat (length ws) ->
    Z.of_nat n * n_spike_buffer_words st < 2 ^ 32 ->
    exists ws',
      mark_loop n id st ws = Ok ws'
      /\ length ws' = length ws
      /\ (forall i,
            (Z.to_nat (Z.of_nat n * n_spike_buffer_words st) <= i)%nat ->
            ws' !! i = ws !! i)
      /\ forall k s,
           0 <= k -> k * n_spike_buffer_words st < 2 ^ 32 ->
           0 <= s < 32 * n_spike_buffer_words st ->
           bit_field_test ws' (_out_spikes k st) s
           = bit_field_test ws (_out_spikes k st) s
             || ((k <? Z.of_nat n) && (s =? id)).
Proof.
  induction n as [|n IH]; intros ws Hid Hlen Hsmall.
  - exists ws. split; [reflexivity|]. split; [reflexivity|].
    split; [reflexivity|].
    intros k s Hk _ _.
    destruct (Z.ltb_spec k (Z.of_nat 0)); [lia|].
    rewrite orb_false_r. reflexivity.
  - cbn [mark_loop].
    pose proof (shiftr_5_bound id _ Hid) as Hw.
    assert (Hnw : 0 <= n_spike_buffer_words st) by lia.
    rewrite out_spikes_small by lia.
    destruct (lookup_lt_is_Some_2 ws
                (Z.to_nat (Z.of_nat n * n_spike_buffer_words st
                           + Z.shiftr id 5))) as [w Hw0]; [nia|].
    pose proof (bit_field_set_Ok ws _ id w Hw0) as Hset.
    rewrite Hset. cbn [bind].
    destruct (IH (<[Z.to_nat (Z.of_nat n * n_spike_buffer_words st
                              + Z.shiftr id 5) :=
                      Z.lor w (Z.shiftl 1 (Z.land id 31))]> ws))
      as (ws' & Hrun & Hl & Hfr & Hbits);
      [exact Hid | rewrite length_insert; lia | lia |].
    exists ws'. split; [exact Hrun|].
    split; [rewrite Hl; apply length_insert|].
    split.
    { intros i Hi. rewrite Hfr by nia. apply list_lookup_insert_ne. nia. }
    intros k s Hk Hks Hs. rewrite Hbits by assumption.
    pose proof (shiftr_5_bound s _ Hs) as Hws.
    rewrite out_spikes_small by lia.
    rewrite (bit_field_test_set _ _ _ _ _ _ Hset) by nia.
    rewrite same_place by lia.
    destruct (bit_field_test ws (k * n_spike_buffer_words st) s);
      [reflexivity|].
    cbn [orb].
    destruct (Z.eqb_spec k (Z.of_nat n)), (Z.eqb_spec s id),
      (Z.ltb_spec k (Z.of_nat n)), (Z.ltb_spec k (Z.of_nat (S n)));
      try reflexivity; lia.
Qed.

Lemma bit_field_test_app_zeros ws m b n :
  bit_field_test (ws ++ replicate m 0) b n = bit_field_test ws b n.
Proof.
  unfold bit_field_test.
  destruct (Nat.lt_ge_cases (Z.to_nat (b + Z.shiftr n 5)) (length ws))
    as [Hlt|Hge].
  - rewrite lookup_app_l by exact Hlt. reflexivity.
  - rewrite lookup_app_r by exact Hge.
    rewrite (lookup_ge_None_2 ws) by exact Hge.
    destruct (replicate m 0 !! _) as [w|] eqn:Hw; [|reflexivity].
    apply lookup_replicate in Hw as [-> _]. apply Z.testbit_0_l.
Qed.

Lemma grow_spikes_spec count st :
  wf_buffer st ->
  n_spike_buffers_allocated st < count ->
  8 + count * spike_buffer_size st < 2 ^ 32 ->
  8 + count * spike_buffer_size st <= heap_free st ->
  exists h,
    grow_spikes count st
    = Ok (set_buffer
            (Some {| tos_time := buffer_time st;
                     n_buffers := n_layers st;
                     out_spikes :=
                       buffer_words st
                       ++ replicate
                            (Z.to_nat ((count - n_spike_buffers_allocated st)
                                       * n_spike_buffer_words st)) 0 |})
            count h st).
Proof.
  intros (Hnw & Hsz & Hna & Hfit & Hb) Hgrow Hnew Hheap.
  unfold grow_spikes, buffer_time, n_layers, buffer_words.
  assert (E1 : u32 (8 + u32 (count * spike_buffer_size st))
               = 8 + count * spike_buffer_size st).
  { rewrite (u32_small (count * _)) by nia. apply u32_small. nia. }
  assert (E2 : u32 (8 + u32 (n_spike_buffers_allocated st
                              * spike_buffer_size st))
               = 8 + n_spike_buffers_allocated st * spike_buffer_size st).
  { rewrite (u32_small (n_spike_buffers_allocated st * _)) by nia.
    apply u32_small. nia. }
  rewrite E1, E2.
  destruct (Z.ltb_spec (heap_free st) (8 + count * spike_buffer_size st));
    [lia|].
  assert (E3 : Z.shiftr (8 + count * spike_buffer_size st) 2
               = 2 + count * n_spike_buffer_words st).
  { rewrite Z.shiftr_div_pow2 by lia. change (2 ^ 2) with 4.
    rewrite Hsz. replace (8 + count * (4 * n_spike_buffer_words st))
      with ((2 + count * n_spike_buffer_words st) * 4) by lia.
    apply Z.div_mul. lia. }
  rewrite E3.
  destruct (spikes st) as [old|].
  - destruct Hb as [Hlen Hnb].
    assert (E4 : (8 + n_spike_buffers_allocated st * spike_buffer_size st) / 4
                 = 2 + n_spike_buffers_allocated st * n_spike_buffer_words st).
    { rewrite Hsz. replace (8 + n_spike_buffers_allocated st
                                * (4 * n_spike_buffer_words st))
        with ((2 + n_spike_buffers_allocated st * n_spike_buffer_words st) * 4)
        by lia.
      apply Z.div_mul. lia. }
    rewrite E4.
    assert (E5 : Z.to_nat (2 + n_spike_buffers_allocated st
                               * n_spike_buffer_words st)
                 = length (tos_words old)).
    { unfold tos_words. cbn [length]. lia. }
    rewrite E5, Nat.leb_refl, length_replicate.
    destruct (Nat.leb_spec (length (tos_words old))
                (Z.to_nat (2 + count * n_spike_buffer_words st))) as [_|Hbad].
    2:{ rewrite <- E5 in Hbad. nia. }
    cbn [andb]. rewrite firstn_all, drop_replicate.
    replace (Z.to_nat (2 + count * n_spike_buffer_words st)
             - length (tos_words old))%nat
      with (Z.to_nat ((count - n_spike_buffers_allocated st)
                      * n_spike_buffer_words st))
      by (rewrite <- E5; nia).
    unfold tos_words. cbn [app tos_of_words bind].
    eexists. reflexivity.
  - replace (Z.to_nat (2 + count * n_spike_buffer_words st))
      with (S (S (Z.to_nat (count * n_spike_buffer_words st)))) by nia.
    cbn [replicate tos_of_words bind]. rewrite Hb, Z.sub_0_r.
    eexists. reflexivity.
Qed.

(** What [_mark_spike] does when recording is on and the sizes fit. *)
Lemma mark_spike_spec source count st :
  0 < recording_flags st ->
  0 < count ->
  wf_buffer st ->
  0 <= source < 32 * n_spike_buffer_words st ->
  8 + count * spike_buffer_size st < 2 ^ 32 ->
  (n_spike_buffers_allocated st < count ->
   8 + count * spike_buffer_size st <= heap_free st) ->
  exists st',
    _mark_spike source count st = Ok st'
    /\ wf_buffer st'
    /\ n_spike_buffers_allocated st'
       = Z.max (n_spike_buffers_allocated st) count
    /\ n_layers st' = Z.max (n_layers st) count
    /\ buffer_time st' = buffer_time st
    /\ Z.of_nat (length (buffer_words st'))
       = Z.max (n_spike_buffers_allocated st) count
         * n_spike_buffer_words st
    /\ (forall i w,
          (Z.to_nat (count * n_spike_buffer_words st) <= i)%nat ->
          buffer_words st' !! i = Some w ->
          w = 0 \/ buffer_words st !! i = Some w)
    /\ (forall k s,
          0 <= k -> k * n_spike_buffer_words st < 2 ^ 32 ->
          0 <= s < 32 * n_spike_buffer_words st ->
          out_spike_bit st' k s
          = out_spike_bit st k s || ((k <? count) && (s =? source))).
Proof.
  intros Hon Hcount Hwf Hsrc Hfit Hheap. unfold _mark_spike.
  apply Z.ltb_lt in Hon. rewrite Hon.
  assert (Hst1 : exists b1 h,
             (if n_spike_buffers_allocated st <? count
              then grow_spikes count st else Ok st)
             = Ok (set_buffer (Some b1)
                     (Z.max (n_spike_buffers_allocated st) count) h st)
             /\ tos_time b1 = buffer_time st
             /\ n_buffers b1 = n_layers st
             /\ Z.of_nat (length (out_spikes b1))
                = Z.max (n_spike_buffers_allocated st) count
                  * n_spike_buffer_words st
             /\ (forall i w,
                   out_spikes b1 !! i = Some w ->
                   w = 0 \/ buffer_words st !! i = Some w)
             /\ forall b n,
                  bit_field_test (out_spikes b1) b n
                  = bit_field_test (buffer_words st) b n).
  { destruct (Z.ltb_spec (n_spike_buffers_allocated st) count) as [Hg|Hg].
    - destruct (grow_spikes_spec count st Hwf Hg Hfit (Hheap Hg)) as [h Hgr].
      rewrite Hgr. eexists _, _.
      rewrite Z.max_r by lia. split; [reflexivity|]. cbn [tos_time n_buffers
        out_spikes]. split; [reflexivity|]. split; [reflexivity|].
      split; [|split; [|intros; apply bit_field_test_app_zeros]].
      + rewrite length_app, length_replicate.
        destruct Hwf as (Hnw & Hsz & Hna & Hsm & Hb).
        unfold buffer_words. destruct (spikes st) as [old|].
        * destruct Hb as [Hl _]. nia.
        * cbn [length]. nia.
      + intros i w Hw. apply lookup_app_Some in Hw as [Hw | [_ Hw]];
          [right; exact Hw | left].
        apply lookup_replicate in Hw as [-> _]. reflexivity.
    - destruct Hwf as (Hnw & Hsz & Hna & Hsm & Hb).
      unfold buffer_time, n_layers, buffer_words.
      destruct (spikes st) as [old|] eqn:Hsp; [|lia].
      exists old, (heap_free st). rewrite Z.max_l by lia.
      split; [destruct st; cbn in *; rewrite Hsp; reflexivity|].
      split; [reflexivity|]. split; [reflexivity|]. split; [apply Hb|].
      split; [intros i w Hw; right; exact Hw | reflexivity]. }
  destruct Hst1 as (b1 & h & -> & Ht & Hn & Hl & Hold & Hbits).
  cbn [bind spikes set_buffer].
  destruct Hwf as (Hnw & Hsz & Hna & Hsm & Hb).
  destruct (mark_loop_spec
              (set_buffer (Some b1)
                 (Z.max (n_spike_buffers_allocated st) count) h st)
              source (Z.to_nat count) (out_spikes b1))
    as (ws & Hrun & Hlen & Hfr & Hmark);
    [exact Hsrc | cbn [n_spike_buffer_words set_buffer]; nia
    | cbn [n_spike_buffer_words set_buffer]; nia |].
  rewrite Hrun. cbn [bind]. eexists. split; [reflexivity|].
  unfold wf_buffer, n_layers, buffer_time, buffer_words, out_spike_bit.
  cbn [spikes set_spikes set_buffer n_spike_buffers_allocated
       n_spike_buffer_words spike_buffer_size n_buffers tos_time out_spikes].
  rewrite Hlen, Hl, Hn, Ht.
  assert (Hnl : 0 <= n_layers st <= n_spike_buffers_allocated st).
  { unfold n_layers. destruct (spikes st); [apply Hb | lia]. }
  assert (Hmax : (if n_layers st <? count then count else n_layers st)
                 = Z.max (n_layers st) count).
  { destruct (Z.ltb_spec (n_layers st) count); lia. }
  rewrite Hmax.
  split; [repeat split; try lia; nia|].
  do 4 (split; [reflexivity|]).
  split.
  { intros i w Hi Hw. apply Hold. rewrite <- Hw. symmetry. apply Hfr.
    cbn [n_spike_buffer_words set_buffer]. nia. }
  intros k s Hk Hks Hs.
  specialize (Hmark k s Hk Hks Hs).
  unfold _out_spikes in *.
  cbn [n_spike_buffer_words set_buffer set_spikes] in *.
  rewrite Hmark, Hbits. rewrite Z2Nat.id by lia.
  unfold buffer_words. destruct (spikes st); [reflexivity|].
  unfold bit_field_test. rewrite lookup_nil. reflexivity.
Qed.

Lemma buffer_view_send_loop n k st :
  buffer_view (send_loop n k st) = buffer_view st.
Proof.
  revert st. induction n as [|n IH]; intros st; [reflexivity|].
  cbn [send_loop]. rewrite IH. reflexivity.
Qed.

Lemma buffer_view_update s f st st' :
  update_time_to_spike s f st = Ok st' -> buffer_view st' = buffer_view st.
Proof.
  unfold update_time_to_spike.
  destruct (load _ _); [|discriminate]. cbn [bind].
  destruct (store _ _ _); [|discriminate]. cbn [bind].
  intros [= <-]. reflexivity.
Qed.

Lemma buffer_view_fast eml st :
  buffer_view (snd (fast_spike_source_get_num_spikes eml st)) = buffer_view st.
Proof.
  unfold fast_spike_source_get_num_spikes.
  destruct (_ =? _); [reflexivity|].
  destruct (poisson_dist_variate_exp_minus_lambda _ _). reflexivity.
Qed.

Lemma buffer_view_slow isi st :
  buffer_view (snd (slow_spike_source_get_time_to_spike isi st))
  = buffer_view st.
Proof.
  unfold slow_spike_source_get_time_to_spike.
  destruct (exponential_dist_variate _). reflexivity.
Qed.

(** The pass over one source marks its spikes once, in a state with the
    buffer of the start, and does nothing else to the buffer. *)
Lemma source_tick_buffer s st st1 :
  source_tick s st = Ok st1 ->
  exists st0 stm,
    buffer_view st0 = buffer_view st
    /\ (if 0 <? spikes_generated s st
        then _mark_spike s (spikes_generated s st) st0 else Ok st0) = Ok stm
    /\ buffer_view st1 = buffer_view stm.
Proof.
  unfold source_tick, spikes_generated.
  destruct (load (spike_source_array st) s) as [src|]; [|discriminate].
  cbn [bind].
  destruct (is_fast_source src).
  - destruct (active_this_tick src st).
    + pose proof (buffer_view_fast (exp_minus_lambda src) st) as Hv.
      destruct (fast_spike_source_get_num_spikes (exp_minus_lambda src) st)
        as [k st0]. cbn [fst snd] in *.
      destruct (0 <? k).
      * destruct (_mark_spike s k st0) as [stm|] eqn:Hm; [|discriminate].
        cbn [bind]. intros H. exists st0, stm.
        split; [exact Hv|]. split; [exact Hm|].
        destruct (has_key _); injection H as <-;
          [apply buffer_view_send_loop | reflexivity].
      * intros [= <-]. exists st0, st0. auto.
    + intros [= <-]. exists st, st. auto.
  - destruct (active_this_tick src st && negb (mean_isi_ticks src =? 0)).
    + cbn [andb]. destruct (time_to_spike_ticks src <=? 0).
      * cbn [Z.ltb Z.compare].
        destruct (_mark_spike s 1 st) as [stm|] eqn:Hm; [|discriminate].
        cbn [bind].
        set (st2 := if has_key (parameters stm) then _ else stm).
        assert (H2 : buffer_view st2 = buffer_view stm)
          by (subst st2; destruct (has_key _); reflexivity).
        clearbody st2.
        pose proof (buffer_view_slow (mean_isi_ticks src) st2) as H3.
        destruct (slow_spike_source_get_time_to_spike _ st2) as [isi st3].
        cbn [snd] in H3.
        destruct (update_time_to_spike s _ st3) as [st4|] eqn:Hu;
          [|discriminate].
        cbn [bind]. intros Hu'.
        apply buffer_view_update in Hu, Hu'.
        exists st, stm. split; [reflexivity|]. split; [exact Hm|].
        congruence.
      * cbn [bind Z.ltb Z.compare]. intros Hu.
        apply buffer_view_update in Hu. exists st, st. auto.
    + cbn [andb Z.ltb Z.compare]. intros [= <-]. exists st, st. auto.
Qed.

Lemma buffer_view_fields a b :
  buffer_view a = buffer_view b ->
  recording_flags a = recording_flags b
  /\ spikes a = spikes b
  /\ n_spike_buffers_allocated a = n_spike_buffers_allocated b
  /\ n_spike_buffer_words a = n_spike_buffer_words b
  /\ spike_buffer_size a = spike_buffer_size b
  /\ heap_free a = heap_free b.
Proof. unfold buffer_view. intros H. simplify_eq. repeat split; assumption. Qed.

Lemma wf_buffer_view a b :
  buffer_view a = buffer_view b -> wf_buffer a -> wf_buffer b.
Proof.
  intros H. apply buffer_view_fields in H as (_ & Hs & Hn & Hw & Hz & _).
  unfold wf_buffer. rewrite Hs, Hn, Hw, Hz. exact (fun x => x).
Qed.

Lemma out_spike_bit_view a b k s :
  buffer_view a = buffer_view b -> out_spike_bit a k s = out_spike_bit b k s.
Proof.
  intros H. apply buffer_view_fields in H as (_ & Hs & Hn & Hw & Hz & _).
  unfold out_spike_bit, _out_spikes. rewrite Hs, Hw. reflexivity.
Qed.

Lemma n_layers_view a b :
  buffer_view a = buffer_view b -> n_layers a = n_layers b.
Proof.
  intros H. apply buffer_view_fields in H as (_ & Hs & _).
  unfold n_layers. rewrite Hs. reflexivity.
Qed.

Lemma spikes_generated_nonneg s st : 0 <= spikes_generated s st.
Proof.
  unfold spikes_generated. destruct (load _ _) as [src|]; [|lia].
  destruct (is_fast_source src).
  - destruct (active_this_tick src st); [|lia].
    unfold fast_spike_source_get_num_spikes.
    destruct (_ =? _); [cbn; lia|].
    destruct (poisson_dist_variate_exp_minus_lambda _ _) as [k sd].
    cbn [fst]. apply u32_range.
  - destruct (_ && _); lia.
Qed.

Lemma mark_spike_Ok_heap id count st st' :
  _mark_spike id count st = Ok st' ->
  0 < recording_flags st ->
  wf_buffer st ->
  0 < count ->
  8 + count * spike_buffer_size st < 2 ^ 32 ->
  n_spike_buffers_allocated st < count ->
  8 + count * spike_buffer_size st <= heap_free st.
Proof.
  unfold _mark_spike. intros H Hon (Hnw & Hsz & Hna & Hfit & Hb) Hc Hnew Hg.
  apply Z.ltb_lt in Hon, Hg. rewrite Hon, Hg in H.
  unfold grow_spikes in H.
  rewrite (u32_small (count * _)) in H by nia.
  rewrite (u32_small (8 + _)) in H by nia.
  destruct (Z.ltb_spec (heap_free st) (8 + count * spike_buffer_size st));
    [discriminate | lia].
Qed.

(** The bits after the pass over one source. *)
Lemma source_tick_bits s st st1 :
  source_tick s st = Ok st1 ->
  0 < recording_flags st ->
  wf_buffer st ->
  0 <= s < 32 * n_spike_buffer_words st ->
  8 + spikes_generated s st * spike_buffer_size st < 2 ^ 32 ->
  wf_buffer st1
  /\ recording_flags st1 = recording_flags st
  /\ n_spike_buffer_words st1 = n_spike_buffer_words st
  /\ spike_buffer_size st1 = spike_buffer_size st
  /\ n_spike_buffers_allocated st1
     = Z.max (n_spike_buffers_allocated st) (spikes_generated s st)
  /\ n_layers st1 = Z.max (n_layers st) (spikes_generated s st)
  /\ forall k s',
       0 <= k -> k * n_spike_buffer_words st < 2 ^ 32 ->
       0 <= s' < 32 * n_spike_buffer_words st ->
       out_spike_bit st1 k s'
       = out_spike_bit st k s'
         || ((k <? spikes_generated s st) && (s' =? s)).
Proof.
  intros Hrun Hon Hwf Hs Hfit.
  destruct (source_tick_buffer _ _ _ Hrun) as (st0 & stm & H0 & Hm & H1).
  pose proof (spikes_generated_nonneg s st) as Hc.
  pose proof (buffer_view_fields _ _ H0) as (Ef & Es & En & Ew & Ez & Eh).
  pose proof (buffer_view_fields _ _ H1) as (Ff & Fs & Fn & Fw & Fz & Fh).
  pose proof (wf_buffer_view _ _ (eq_sym H0) Hwf) as Hwf0.
  destruct (Z.ltb_spec 0 (spikes_generated s st)) as [Hpos|Hzero].
  - destruct (mark_spike_spec s (spikes_generated s st) st0)
      as (stm' & Hm' & Hwfm & Hna & Hnl & _ & _ & _ & Hbits);
      [lia | lia | exact Hwf0 | lia | rewrite Ez; lia | |].
    { intros Hg. eapply mark_spike_Ok_heap;
        [exact Hm | lia | exact Hwf0 | lia | rewrite Ez; lia | exact Hg]. }
    rewrite Hm in Hm'. injection Hm' as <-.
    pose proof (mark_spike_frame _ _ _ _ Hm) as Hfr.
    assert (Gf : recording_flags stm = recording_flags st0
                 /\ n_spike_buffer_words stm = n_spike_buffer_words st0
                 /\ spike_buffer_size stm = spike_buffer_size st0)
      by (rewrite Hfr; repeat split; reflexivity).
    destruct Gf as (Gf & Gw & Gz).
    split; [exact (wf_buffer_view _ _ (eq_sym H1) Hwfm)|].
    repeat split; try congruence.
    + rewrite (n_layers_view _ _ H1), Hnl, (n_layers_view _ _ H0).
      reflexivity.
    + intros k s' Hk Hks Hs'.
      rewrite (out_spike_bit_view _ _ k s' H1), Hbits by (rewrite ?Ew; lia).
      rewrite (out_spike_bit_view _ _ k s' H0). reflexivity.
  - injection Hm as <-.
    assert (E0 : spikes_generated s st = 0) by lia. rewrite E0.
    assert (Hn0 : 0 <= n_layers st /\ 0 <= n_spike_buffers_allocated st).
    { destruct Hwf as (_ & _ & Hna & _ & Hb). unfold n_layers.
      destruct (spikes st); lia. }
    split; [exact (wf_buffer_view _ _ (eq_sym (eq_trans H1 H0)) Hwf)|].
    repeat split; try congruence; try lia.
    + rewrite (n_layers_view _ _ H1), (n_layers_view _ _ H0). lia.
    + intros k s' Hk Hks Hs'.
      rewrite (out_spike_bit_view _ _ k s' H1),
        (out_spike_bit_view _ _ k s' H0).
      destruct (Z.ltb_spec k 0); [lia|]. rewrite orb_false_r. reflexivity.
Qed.

(** The bits after a sweep over [n] sources from source [s0] on. *)
Lemma source_loop_bits n :
  forall s0 st st',
    source_loop n s0 st = Ok st' ->
    0 < recording_flags st ->
    wf_buffer st ->
    0 <= s0 ->
    s0 + Z.of_nat n <= 32 * n_spike_buffer_words st ->
    Forall (fun c => 8 + c * spike_buffer_size st < 2 ^ 32)
      (sweep_counts n s0 st) ->
    wf_buffer st'
    /\ recording_flags st' = recording_flags st
    /\ n_spike_buffer_words st' = n_spike_buffer_words st
    /\ spike_buffer_size st' = spike_buffer_size st
    /\ n_spike_buffers_allocated st'
       = Z.max (n_spike_buffers_allocated st)
           (fold_right Z.max 0 (sweep_counts n s0 st))
    /\ n_layers st'
       = Z.max (n_layers st) (fold_right Z.max 0 (sweep_counts n s0 st))
    /\ length (sweep_counts n s0 st) = n
    /\ forall k s,
         0 <= k -> k * n_spike_buffer_words st < 2 ^ 32 ->
         0 <= s < 32 * n_spike_buffer_words st ->
         out_spike_bit st' k s
         = out_spike_bit st k s
           || ((s0 <=? s) && (s <? s0 + Z.of_nat n)
               && (k <? nth (Z.to_nat (s - s0)) (sweep_counts n s0 st) 0)).
Proof.
  induction n as [|n IH]; intros s0 st st' Hrun Hon Hwf Hs0 Hn Hfit.
  - injection Hrun as <-. cbn [sweep_counts fold_right].
    assert (Hn0 : 0 <= n_layers st /\ 0 <= n_spike_buffers_allocated st).
    { destruct Hwf as (_ & _ & Hna & _ & Hb). unfold n_layers.
      destruct (spikes st); lia. }
    split; [exact Hwf|]. repeat split; try lia.
    intros k s Hk _ _.
    destruct (Z.leb_spec s0 s), (Z.ltb_spec s (s0 + Z.of_nat 0));
      cbn [andb]; rewrite ?orb_false_r; try reflexivity; lia.
  - cbn [source_loop sweep_counts] in *.
    destruct (source_tick s0 st) as [st1|] eqn:Htick; [|discriminate].
    cbn [bind] in Hrun. apply Forall_cons in Hfit as [Hc0 Hrest].
    destruct (source_tick_bits _ _ _ Htick Hon Hwf) as
      (Hwf1 & Ef & Ew & Ez & En & El & Hb1); [lia | exact Hc0 |].
    destruct (IH (s0 + 1) st1 st' Hrun) as
      (Hwf' & Ff & Fw & Fz & Fn & Fl & Flen & Hb');
      [lia | exact Hwf1 | lia | rewrite Ew; lia | rewrite Ez; exact Hrest |].
    cbn [fold_right length].
    split; [exact Hwf'|].
    repeat split; try congruence; try lia.
    intros k s Hk Hks Hs.
    rewrite Hb', Hb1 by (rewrite ?Ew; lia).
    destruct (out_spike_bit st k s); [reflexivity|]. cbn [orb].
    destruct (Z.eqb_spec s s0) as [->|Hne].
    + replace (Z.to_nat (s0 - s0)) with O by lia. cbn [nth].
      destruct (Z.leb_spec (s0 + 1) s0); [lia|].
      destruct (Z.leb_spec s0 s0); [|lia].
      destruct (Z.ltb_spec s0 (s0 + Z.of_nat (S n))); [|lia].
      cbn [andb]. rewrite andb_true_r, orb_false_r. reflexivity.
    + rewrite andb_false_r. cbn [orb].
      destruct (Z.leb_spec (s0 + 1) s), (Z.leb_spec s0 s); try lia;
        cbn [andb]; try reflexivity.
      replace (Z.to_nat (s - s0)) with (S (Z.to_nat (s - (s0 + 1)))) by lia.
      cbn [nth].
      destruct (Z.ltb_spec s (s0 + 1 + Z.of_nat n)),
        (Z.ltb_spec s (s0 + Z.of_nat (S n))); try lia; reflexivity.
Qed.

Lemma buffer_reset_bits st k s :
  buffer_reset st -> out_spike_bit st k s = false.
Proof.
  intros [_ Hz]. unfold out_spike_bit, layers_zero_from, bit_field_test in *.
  destruct (spikes st) as [b|]; [|reflexivity].
  destruct (out_spikes b !! _) as [w|] eqn:Hw; [|reflexivity].
  rewrite (Hz _ w) by (exact Hw || (rewrite Z.mul_0_l; cbn; lia)).
  apply Z.testbit_0_l.
Qed.

Lemma clear_bit_field_spec s :
  forall ws b,
    0 <= b -> (Z.to_nat b + s <= length ws)%nat ->
    exists ws',
      clear_bit_field ws b s = Ok ws'
      /\ length ws' = length ws
      /\ forall i,
           ws' !! i
           = if (Z.to_nat b <=? i)%nat && (i <? Z.to_nat b + s)%nat
             then Some 0 else ws !! i.
Proof.
  induction s as [|s IH]; intros ws b Hb Hlen.
  - exists ws. split; [reflexivity|]. split; [reflexivity|].
    intros i. destruct (Nat.leb_spec (Z.to_nat b) i),
      (Nat.ltb_spec i (Z.to_nat b + 0)); try reflexivity; lia.
  - cbn [clear_bit_field]. unfold store.
    destruct (Nat.ltb_spec (Z.to_nat (b + Z.of_nat s)) (length ws)); [|lia].
    cbn [bind].
    destruct (IH (<[Z.to_nat (b + Z.of_nat s) := 0]> ws) b Hb)
      as (ws' & Hrun & Hl & Hi); [rewrite length_insert; lia|].
    exists ws'. split; [exact Hrun|].
    split; [rewrite Hl; apply length_insert|].
    intros i. rewrite Hi.
    destruct (Nat.leb_spec (Z.to_nat b) i), (Nat.ltb_spec i (Z.to_nat b + s)),
      (Nat.ltb_spec i (Z.to_nat b + S s)); cbn [andb]; try lia;
      try reflexivity.
    + replace i with (Z.to_nat (b + Z.of_nat s)) by lia.
      apply list_lookup_insert_eq. lia.
    + apply list_lookup_insert_ne. lia.
    + apply list_lookup_insert_ne. lia.
Qed.

Lemma reset_loop_spec st n :
  forall ws,
    0 <= n_spike_buffer_words st ->
    Z.of_nat n * n_spike_buffer_words st <= Z.of_nat (length ws) ->
    Z.of_nat n * n_spike_buffer_words st < 2 ^ 32 ->
    exists ws',
      reset_loop n st ws = Ok ws'
      /\ length ws' = length ws
      /\ forall i,
           ws' !! i
           = if (i <? Z.to_nat (Z.of_nat n * n_spike_buffer_words st))%nat
             then Some 0 else ws !! i.
Proof.
  induction n as [|n IH]; intros ws Hnw Hlen Hsmall.
  - exists ws. split; [reflexivity|]. split; [reflexivity|].
    intros i. reflexivity.
  - cbn [reset_loop]. rewrite out_spikes_small by lia.
    destruct (clear_bit_field_spec (Z.to_nat (n_spike_buffer_words st)) ws
                (Z.of_nat n * n_spike_buffer_words st))
      as (ws1 & Hrun1 & Hl1 & Hi1); [lia | nia |].
    rewrite Hrun1. cbn [bind].
    destruct (IH ws1 Hnw) as (ws' & Hrun & Hl & Hi);
      [rewrite Hl1; lia | lia |].
    exists ws'. split; [exact Hrun|]. split; [congruence|].
    intros i. rewrite Hi, Hi1.
    destruct (Nat.ltb_spec i
                (Z.to_nat (Z.of_nat n * n_spike_buffer_words st))),
      (Nat.ltb_spec i
         (Z.to_nat (Z.of_nat (S n) * n_spike_buffer_words st))),
      (Nat.leb_spec
         (Z.to_nat (Z.of_nat n * n_spike_buffer_words st)) i),
      (Nat.ltb_spec i
         (Z.to_nat (Z.of_nat n * n_spike_buffer_words st)
          + Z.to_nat (n_spike_buffer_words st)));
      cbn [andb]; try reflexivity; nia.
Qed.

Lemma all_zero_replicate (ws : list Z) :
  (forall i, ws !! i = if (i <? length ws)%nat then Some 0 else None) ->
  ws = replicate (length ws) 0.
Proof.
  intros H. apply list_eq. intros i. rewrite H.
  destruct (Nat.ltb_spec i (length ws)).
  - symmetry. apply lookup_replicate. auto.
  - symmetry. apply lookup_ge_None. rewrite length_replicate. lia.
Qed.

Lemma reset_spikes_spec st b :
  wf_buffer st -> spikes st = Some b ->
  _reset_spikes st
  = Ok (set_spikes
          {| tos_time := tos_time b; n_buffers := 0;
             out_spikes := replicate (length (out_spikes b)) 0 |} st).
Proof.
  intros (Hnw & Hsz & Hna & Hfit & Hb) Hsp. unfold _reset_spikes.
  rewrite Hsp in *. destruct Hb as [Hlen Hnb].
  destruct (reset_loop_spec st (Z.to_nat (n_spike_buffers_allocated st))
              (out_spikes b)) as (ws & Hrun & Hl & Hi); [lia | lia | nia |].
  rewrite Hrun. cbn [bind]. do 3 f_equal.
  rewrite <- Hl. apply all_zero_replicate. intros i. rewrite Hi, Hl.
  destruct (Nat.ltb_spec i (length (out_spikes b))),
    (Nat.ltb_spec i
       (Z.to_nat (Z.of_nat (Z.to_nat (n_spike_buffers_allocated st))
                  * n_spike_buffer_words st))); try reflexivity; try nia.
  apply lookup_ge_None. lia.
Qed.

(** Marking keeps the layers that are not in use zero. *)
Lemma mark_spike_tail_zero source count st st' :
  _mark_spike source count st = Ok st' ->
  0 < recording_flags st ->
  0 < count ->
  wf_buffer st ->
  0 <= source < 32 * n_spike_buffer_words st ->
  8 + count * spike_buffer_size st < 2 ^ 32 ->
  layers_zero_from (n_layers st) st ->
  layers_zero_from (n_layers st') st'.
Proof.
  intros Hm Hon Hc Hwf Hs Hfit Hz.
  destruct (mark_spike_spec source count st)
    as (stm & Hm' & Hwf' & Hna & Hnl & _ & _ & Htail & _);
    try assumption.
  { intros Hg. eapply mark_spike_Ok_heap; eassumption. }
  rewrite Hm in Hm'. injection Hm' as <-.
  pose proof (mark_spike_frame _ _ _ _ Hm) as Hfr.
  assert (Ew : n_spike_buffer_words st' = n_spike_buffer_words st)
    by (rewrite Hfr; reflexivity).
  destruct Hwf as (Hnw & _ & _ & _ & Hb).
  assert (Hn0 : 0 <= n_layers st)
    by (unfold n_layers; destruct (spikes st); lia).
  rewrite Hnl. unfold layers_zero_from, buffer_words in *. rewrite Ew.
  destruct (spikes st') as [b'|]; [|exact I].
  intros i w Hi Hw.
  destruct (Htail i w) as [Hw0 | Hold]; [nia | exact Hw | exact Hw0 |].
  destruct (spikes st) as [b|]; [|rewrite lookup_nil in Hold; discriminate].
  apply (Hz i w); [nia | exact Hold].
Qed.

(** C6. A call [mark(source, count)] with [count > 0] and recording on,
    when the sizes fit 32 bits and the heap can serve a reallocation: the
    block afterwards holds [max(capacity, count)] buffers, so exactly
    [count] when [count] exceeds the capacity; the words of the old block
    are kept, the new ones are zero; [n_layers] becomes
    [max(n_layers, count)]; and bit [source] is set in the layers 0 to
    [count - 1], no other bit changing.  And after the sweep of a tick that
    started from a reset buffer, bit [s] of layer [k] is set exactly when
    source [s] generated at least [k + 1] spikes in the sweep. *)
Theorem mark_spike_layers :
  (forall source count st,
     0 < recording_flags st ->
     0 < count ->
     wf_buffer st ->
     0 <= source < 32 * n_spike_buffer_words st ->
     8 + count * spike_buffer_size st < 2 ^ 32 ->
     (n_spike_buffers_allocated st < count ->
      8 + count * spike_buffer_size st <= heap_free st) ->
     exists st',
       _mark_spike source count st = Ok st'
       /\ n_spike_buffers_allocated st'
          = Z.max (n_spike_buffers_allocated st) count
       /\ Z.of_nat (length (buffer_words st'))
          = Z.max (n_spike_buffers_allocated st) count
            * n_spike_buffer_words st
       /\ n_layers st' = Z.max (n_layers st) count
       /\ (forall k s,
             0 <= k < Z.max (n_spike_buffers_allocated st) count ->
             0 <= s < 32 * n_spike_buffer_words st ->
             out_spike_bit st' k s
             = out_spike_bit st k s || ((k <? count) && (s =? source))))
  /\ (forall n st st',
        source_loop n 0 st = Ok st' ->
        0 < recording_flags st ->
        wf_buffer st ->
        buffer_reset st ->
        Z.of_nat n <= 32 * n_spike_buffer_words st ->
        Forall (fun c => 8 + c * spike_buffer_size st < 2 ^ 32)
          (sweep_counts n 0 st) ->
        forall s k,
          0 <= s < Z.of_nat n ->
          0 <= k < n_spike_buffers_allocated st' ->
          out_spike_bit st' k s = true
          <-> k < nth (Z.to_nat s) (sweep_counts n 0 st) 0).
Proof.
  split.
  - intros source count st Hon Hc Hwf Hs Hfit Hheap.
    destruct (mark_spike_spec source count st Hon Hc Hwf Hs Hfit Hheap)
      as (st' & Hm & Hwf' & Hna & Hnl & _ & Hlen & _ & Hbits).
    exists st'. repeat split; try assumption.
    intros k s Hk Hs'. apply Hbits; [lia | | exact Hs'].
    destruct Hwf as (Hnw & Hsz & _ & Hfit0 & _).
    destruct (Z.max_spec (n_spike_buffers_allocated st) count)
      as [[_ E]|[_ E]]; rewrite E in Hk; nia.
  - intros n st st' Hrun Hon Hwf Hreset Hn Hfit s k Hs Hk.
    destruct (source_loop_bits n 0 st st' Hrun Hon Hwf) as
      (Hwf' & _ & Ew & Ez & _ & _ & _ & Hbits); [lia | lia | exact Hfit |].
    destruct Hwf' as (Hnw' & Hsz' & _ & Hfit' & _).
    rewrite Hbits by (rewrite <- ?Ew; nia).
    rewrite buffer_reset_bits by exact Hreset. cbn [orb].
    rewrite Z.sub_0_r.
    destruct (Z.leb_spec 0 s); [|lia].
    destruct (Z.ltb_spec s (0 + Z.of_nat n)); [|lia].
    cbn [andb]. apply Z.ltb_lt.
Qed.

(** The flush, step by step: the stamped buffer is handed over up to the
    end of layer [n_buffers - 1], then every allocated word is cleared. *)
Lemma record_spikes_eq t st b :
  wf_buffer st ->
  spikes st = Some b ->
  0 < n_buffers b ->
  _record_spikes t st
  = Ok (set_spikes
          {| tos_time := t; n_buffers := 0;
             out_spikes := replicate (length (out_spikes b)) 0 |}
          (emit
             (EvRecordAndNotify 0
                (t :: n_buffers b
                   :: take (Z.to_nat (n_buffers b * n_spike_buffer_words st))
                        (out_spikes b)))
             (set_spikes
                {| tos_time := t; n_buffers := n_buffers b;
                   out_spikes := out_spikes b |}
                (set_recording_in_progress true
                   (set_recording_in_progress false st))))).
Proof.
  intros Hwf Hsp Hpos. pose proof Hwf as (Hnw & Hsz & Hna & Hfit & Hb).
  rewrite Hsp in Hb. destruct Hb as [Hlen Hnb].
  unfold _record_spikes, recording_complete_callback.
  cbn [spikes set_recording_in_progress].
  rewrite Hsp. apply Z.ltb_lt in Hpos as Hpos'. rewrite Hpos'.
  cbn [spike_buffer_size set_recording_in_progress].
  rewrite (u32_small (n_buffers b * _)) by nia.
  rewrite (u32_small (8 + _)) by nia.
  assert (E : (8 + n_buffers b * spike_buffer_size st) / 4
              = 2 + n_buffers b * n_spike_buffer_words st).
  { rewrite Hsz.
    replace (8 + n_buffers b * (4 * n_spike_buffer_words st))
      with ((2 + n_buffers b * n_spike_buffer_words st) * 4) by lia.
    apply Z.div_mul. lia. }
  rewrite E.
  replace (Z.to_nat (2 + n_buffers b * n_spike_buffer_words st))
    with (S (S (Z.to_nat (n_buffers b * n_spike_buffer_words st)))) by nia.
  unfold tos_words at 1. cbn [length tos_time n_buffers out_spikes].
  destruct (Nat.leb_spec
              (S (S (Z.to_nat (n_buffers b * n_spike_buffer_words st))))
              (S (S (length (out_spikes b))))) as [_|Hbad]; [|nia].
  unfold tos_words. cbn [take tos_time n_buffers out_spikes].
  match goal with
  | |- context [_reset_spikes ?s2] =>
      rewrite (reset_spikes_spec s2
                 {| tos_time := t; n_buffers := n_buffers b;
                    out_spikes := out_spikes b |})
  end; cycle 1.
  { unfold wf_buffer.
    cbn [spikes set_spikes set_buffer emit set_recording_in_progress
         n_buffers out_spikes n_spike_buffers_allocated n_spike_buffer_words
         spike_buffer_size].
    repeat split; try lia; exact Hsz. }
  { reflexivity. }
  reflexivity.
Qed.

Lemma layers_zero_view n a b :
  buffer_view a = buffer_view b ->
  layers_zero_from n a -> layers_zero_from n b.
Proof.
  intros H. apply buffer_view_fields in H as (_ & Hs & _ & Hw & _).
  unfold layers_zero_from. rewrite Hs, Hw. exact (fun x => x).
Qed.

(** The pass over one source keeps the layers that are not in use zero. *)
Lemma source_tick_tail_zero s st st1 :
  source_tick s st = Ok st1 ->
  0 < recording_flags st ->
  wf_buffer st ->
  0 <= s < 32 * n_spike_buffer_words st ->
  8 + spikes_generated s st * spike_buffer_size st < 2 ^ 32 ->
  layers_zero_from (n_layers st) st ->
  layers_zero_from (n_layers st1) st1.
Proof.
  intros Hrun Hon Hwf Hs Hfit Hz.
  destruct (source_tick_buffer _ _ _ Hrun) as (st0 & stm & H0 & Hm & H1).
  pose proof (buffer_view_fields _ _ H0) as (Ef & Es & En & Ew & Ez & Eh).
  pose proof (wf_buffer_view _ _ (eq_sym H0) Hwf) as Hwf0.
  rewrite (n_layers_view _ _ H1).
  apply (layers_zero_view _ stm st1 (eq_sym H1)).
  destruct (Z.ltb_spec 0 (spikes_generated s st)) as [Hpos|Hzero].
  - apply (mark_spike_tail_zero s (spikes_generated s st) st0 stm Hm).
    + lia.
    + exact Hpos.
    + exact Hwf0.
    + lia.
    + rewrite Ez. exact Hfit.
    + rewrite (n_layers_view _ _ H0).
      exact (layers_zero_view _ st st0 (eq_sym H0) Hz).
  - injection Hm as <-. rewrite (n_layers_view _ _ H0).
    exact (layers_zero_view _ st st0 (eq_sym H0) Hz).
Qed.

Lemma source_loop_tail_zero n :
  forall s0 st st',
    source_loop n s0 st = Ok st' ->
    0 < recording_flags st ->
    wf_buffer st ->
    0 <= s0 ->
    s0 + Z.of_nat n <= 32 * n_spike_buffer_words st ->
    Forall (fun c => 8 + c * spike_buffer_size st < 2 ^ 32)
      (sweep_counts n s0 st) ->
    layers_zero_from (n_layers st) st ->
    layers_zero_from (n_layers st') st'.
Proof.
  induction n as [|n IH]; intros s0 st st' Hrun Hon Hwf Hs0 Hn Hfit Hz.
  - injection Hrun as <-. exact Hz.
  - cbn [source_loop sweep_counts] in *.
    destruct (source_tick s0 st) as [st1|] eqn:Htick; [|discriminate].
    cbn [bind] in Hrun. apply Forall_cons in Hfit as [Hc0 Hrest].
    destruct (source_tick_bits _ _ _ Htick Hon Hwf) as
      (Hwf1 & Ef & Ew & Ez & _); [lia | exact Hc0 |].
    apply (IH (s0 + 1) st1 st' Hrun).
    + rewrite Ef. exact Hon.
    + exact Hwf1.
    + lia.
    + rewrite Ew. lia.
    + rewrite Ez. exact Hrest.
    + eapply source_tick_tail_zero; try eassumption. lia.
Qed.

Lemma run_tick_sweep t1 st :
  run_tick t1 (set_time (u32 (time st + 1)) st)
  = (let! st4 :=
       source_loop (Z.to_nat (n_spike_sources (parameters st))) 0
         (sweep_start t1 st) in
     let! st5 :=
       if 0 <? recording_flags st4 then _record_spikes (time st4) st4
       else Ok st4 in
     Ok (if 0 <? recording_flags st5
         then emit (EvTimestepUpdate (time st5)) st5
         else st5)).
Proof. reflexivity. Qed.

(** A tick with recording on starts and ends with a reset buffer. *)
Lemma timer_callback_keeps_reset t1 st st' :
  timer_callback t1 st = Ok st' ->
  0 < recording_flags st ->
  wf_buffer st ->
  buffer_reset st ->
  n_spike_sources (parameters st) <= 32 * n_spike_buffer_words st ->
  Forall (fun c => 8 + c * spike_buffer_size st < 2 ^ 32)
    (sweep_counts (Z.to_nat (n_spike_sources (parameters st))) 0
       (sweep_start t1 st)) ->
  wf_buffer st' /\ buffer_reset st'.
Proof.
  intros Hrun Hon Hwf [Hn0 Hz0] Hn Hfit. unfold timer_callback in Hrun.
  pose proof Hwf as (Hnw & _).
  destruct (_ && _).
  - unfold pause_tick in Hrun.
    destruct (store_poisson_parameters _) as [st1|] eqn:Hst; [|discriminate].
    cbn [bind] in Hrun. injection Hrun as Hrun.
    assert (Hv : buffer_view st1 = buffer_view st).
    { unfold store_poisson_parameters in Hst. destruct (0 <? _).
      - destruct (_ && _); [|discriminate]. injection Hst as <-. reflexivity.
      - injection Hst as <-. reflexivity. }
    assert (Hv' : buffer_view st = buffer_view st').
    { rewrite <- Hrun, <- Hv. destruct (0 <? _); reflexivity. }
    split; [exact (wf_buffer_view _ _ Hv' Hwf)|].
    split; [rewrite <- (n_layers_view _ _ Hv'); exact Hn0|].
    exact (layers_zero_view _ _ _ Hv' Hz0).
  - rewrite run_tick_sweep in Hrun.
    destruct (source_loop _ 0 (sweep_start t1 st)) as [st4|] eqn:Hl;
      [|discriminate].
    cbn [bind] in Hrun.
    assert (Hv : buffer_view (sweep_start t1 st) = buffer_view st)
      by reflexivity.
    pose proof (wf_buffer_view _ _ (eq_sym Hv) Hwf) as Hwf3.
    destruct (source_loop_bits _ 0 _ _ Hl) as
      (Hwf4 & Ef & Ew & Ez & _); [exact Hon | exact Hwf3 | lia | | exact Hfit |].
    { change (n_spike_buffer_words (sweep_start t1 st))
        with (n_spike_buffer_words st). lia. }
    assert (Hz4 : layers_zero_from (n_layers st4) st4).
    { apply (source_loop_tail_zero _ 0 _ _ Hl); try assumption; try lia.
      - change (n_spike_buffer_words (sweep_start t1 st))
          with (n_spike_buffer_words st). lia.
      - change (n_layers (sweep_start t1 st)) with (n_layers st).
        rewrite Hn0. exact (layers_zero_view _ _ _ (eq_sym Hv) Hz0). }
    assert (Hon4 : (0 <? recording_flags st4) = true)
      by (apply Z.ltb_lt; rewrite Ef; exact Hon).
    rewrite Hon4 in Hrun.
    assert (H5 : forall st5, _record_spikes (time st4) st4 = Ok st5 ->
                 wf_buffer st5 /\ buffer_reset st5
                 /\ recording_flags st5 = recording_flags st4).
    { intros st5 Hrec. destruct (spikes st4) as [b|] eqn:Hsp.
      - destruct (Z.ltb_spec 0 (n_buffers b)) as [Hpos|Hnone].
        + rewrite (record_spikes_eq _ _ _ Hwf4 Hsp Hpos) in Hrec.
          injection Hrec as <-.
          pose proof Hwf4 as (Hnw4 & Hsz & Hna & Hfit4 & Hb).
          rewrite Hsp in Hb. destruct Hb as [Hlen Hnb].
          unfold wf_buffer, buffer_reset, n_layers, layers_zero_from.
          cbn [spikes set_spikes set_buffer emit set_recording_in_progress
               n_buffers out_spikes n_spike_buffers_allocated
               n_spike_buffer_words spike_buffer_size recording_flags].
          rewrite length_replicate.
          split; [repeat split; try lia; assumption|].
          split; [|reflexivity].
          split; [reflexivity|]. intros i w _ Hw.
          apply lookup_replicate in Hw as [-> _]. reflexivity.
        + unfold _record_spikes, recording_complete_callback in Hrec.
          cbn [spikes set_recording_in_progress] in Hrec.
          rewrite Hsp in Hrec.
          destruct (Z.ltb_spec 0 (n_buffers b)); [lia|].
          injection Hrec as <-.
          assert (Hv5 : buffer_view st4
                        = buffer_view (set_recording_in_progress false st4))
            by reflexivity.
          pose proof Hwf4 as (_ & _ & _ & _ & Hb). rewrite Hsp in Hb.
          assert (Hnl : n_layers st4 = 0)
            by (unfold n_layers; rewrite Hsp; lia).
          split; [exact (wf_buffer_view _ _ Hv5 Hwf4)|].
          split; [|reflexivity].
          split; [rewrite <- (n_layers_view _ _ Hv5); exact Hnl|].
          apply (layers_zero_view _ _ _ Hv5). rewrite <- Hnl. exact Hz4.
      - unfold _record_spikes, recording_complete_callback in Hrec.
        cbn [spikes set_recording_in_progress] in Hrec.
        rewrite Hsp in Hrec. injection Hrec as <-.
        assert (Hv5 : buffer_view st4
                      = buffer_view (set_recording_in_progress false st4))
          by reflexivity.
        assert (Hnl : n_layers st4 = 0) by (unfold n_layers; rewrite Hsp; lia).
        split; [exact (wf_buffer_view _ _ Hv5 Hwf4)|].
        split; [|reflexivity].
        split; [rewrite <- (n_layers_view _ _ Hv5); exact Hnl|].
        apply (layers_zero_view _ _ _ Hv5). rewrite <- Hnl. exact Hz4. }
    destruct (_record_spikes (time st4) st4) as [st5|]; [|discriminate].
    destruct (H5 st5 eq_refl) as (Hwf5 & Hr5 & Hf5).
    cbn [bind] in Hrun. injection Hrun as Hrun.
    assert (Hv6 : buffer_view st5 = buffer_view st')
      by (rewrite <- Hrun; destruct (0 <? recording_flags st5); reflexivity).
    split; [exact (wf_buffer_view _ _ Hv6 Hwf5)|].
    destruct Hr5 as [Hn5 Hz5].
    split; [rewrite <- (n_layers_view _ _ Hv6); exact Hn5|].
    exact (layers_zero_view _ _ _ Hv6 Hz5).
Qed.

(** C7. A flush with [n_layers > 0]: the writer is handed the time, the
    number of layers and the words of the layers 0 to [n_layers - 1], and
    no word of a later layer; afterwards no layer is in use and every
    allocated word is zero.  When the layers from [n_layers] on were zero
    before, that is the buffer with its first [n_layers] layers zeroed. *)
Theorem record_spikes_flush t st b :
  wf_buffer st ->
  spikes st = Some b ->
  0 < n_buffers b ->
  exists st',
    _record_spikes t st = Ok st'
    /\ trace st'
       = trace st
         ++ [EvRecordAndNotify 0
               (t :: n_buffers b
                  :: take (Z.to_nat (n_buffers b * n_spike_buffer_words st))
                       (out_spikes b))]
    /\ buffer_reset st'
    /\ wf_buffer st'
    /\ n_spike_buffers_allocated st' = n_spike_buffers_allocated st
    /\ buffer_words st' = replicate (length (out_spikes b)) 0
    /\ (layers_zero_from (n_buffers b) st ->
        buffer_words st' = zero_first_layers (n_buffers b) st (out_spikes b)).
Proof.
  intros Hwf Hsp Hpos. pose proof Hwf as (Hnw & Hsz & Hna & Hfit & Hb).
  rewrite Hsp in Hb. destruct Hb as [Hlen Hnb].
  rewrite (record_spikes_eq t st b Hwf Hsp Hpos).
  eexists. split; [reflexivity|].
  cbn [trace set_spikes set_buffer emit set_recording_in_progress].
  split; [reflexivity|].
  unfold buffer_reset, n_layers, layers_zero_from, wf_buffer, buffer_words.
  cbn [spikes set_spikes set_buffer emit set_recording_in_progress
       n_buffers out_spikes n_spike_buffers_allocated n_spike_buffer_words
       spike_buffer_size].
  split.
  { split; [reflexivity|]. intros i w _ Hw.
    apply lookup_replicate in Hw as [-> _]. reflexivity. }
  split; [rewrite length_replicate; repeat split; try lia; exact Hsz|].
  split; [reflexivity|]. split; [reflexivity|].
  intros Hz. unfold zero_first_layers. rewrite Hsp in Hz.
  apply list_eq. intros i.
  destruct (Nat.lt_ge_cases i
              (Z.to_nat (n_buffers b * n_spike_buffer_words st))) as [Hi|Hi].
  - rewrite lookup_app_l by (rewrite length_replicate; exact Hi).
    rewrite !lookup_replicate_2 by nia. reflexivity.
  - rewrite lookup_app_r by (rewrite length_replicate; exact Hi).
    rewrite length_replicate, lookup_drop.
    replace (Z.to_nat (n_buffers b * n_spike_buffer_words st)
             + (i - Z.to_nat (n_buffers b * n_spike_buffer_words st)))%nat
      with i by lia.
    destruct (out_spikes b !! i) as [w|] eqn:Hw.
    + rewrite (Hz i w Hi Hw). apply lookup_replicate_2.
      eapply lookup_lt_Some. exact Hw.
    + apply lookup_ge_None. rewrite length_replicate.
      apply lookup_ge_None in Hw. exact Hw.
Qed.

End Buffer.

(** ** The sweep of a tick *)

Section Sweep.

Context {lib : Library}.

Lemma static_view_mark id n st st' :
  _mark_spike id n st = Ok st' -> static_view st' = static_view st.
Proof. intros H. apply mark_spike_frame in H. rewrite H. reflexivity. Qed.

Lemma static_view_send_loop n k st :
  static_view (send_loop n k st) = static_view st.
Proof.
  revert st. induction n as [|n IH]; intros st; [reflexivity|].
  cbn [send_loop]. rewrite IH. reflexivity.
Qed.

Lemma static_view_fast eml st :
  static_view (snd (fast_spike_source_get_num_spikes eml st)) = static_view st.
Proof.
  unfold fast_spike_source_get_num_spikes.
  destruct (_ =? _); [reflexivity|].
  destruct (poisson_dist_variate_exp_minus_lambda _ _). reflexivity.
Qed.

Lemma static_view_slow isi st :
  static_view (snd (slow_spike_source_get_time_to_spike isi st))
  = static_view st.
Proof.
  unfold slow_spike_source_get_time_to_spike.
  destruct (exponential_dist_variate _). reflexivity.
Qed.

Lemma map_insert_same {A B : Type} (g : A -> B) (l : list A) i x y :
  l !! i = Some x -> g y = g x ->
  List.map g (<[i := y]> l) = List.map g l.
Proof.
  revert i. induction l as [|a l IH]; intros i Hl Hg; [reflexivity|].
  destruct i as [|i]; simpl in *.
  - injection Hl as ->. rewrite Hg. reflexivity.
  - f_equal. exact (IH i Hl Hg).
Qed.

(** A write to the time to spike of a Slow source keeps the shape. *)
Lemma static_view_update s f st st' src :
  load (spike_source_array st) s = Ok src ->
  is_fast_source src = false ->
  update_time_to_spike s f st = Ok st' ->
  static_view st' = static_view st.
Proof.
  intros Hld Hslow. rewrite (update_time_to_spike_Ok s f st src Hld).
  intros [= <-]. unfold static_view, table_shape.
  cbn [parameters spike_source_array time simulation_ticks infinite_run
       time_between_spikes recording_flags n_spike_buffer_words
       spike_buffer_size sdram set_spike_source_array].
  do 9 f_equal.
  apply load_Some in Hld.
  apply (map_insert_same source_shape _ _ src _ Hld).
  unfold source_shape. cbn. rewrite Hslow. reflexivity.
Qed.

Lemma static_view_sources a b :
  static_view a = static_view b ->
  length (spike_source_array a) = length (spike_source_array b).
Proof.
  unfold static_view, table_shape. intros H. simplify_eq.
  rewrite <- (length_map source_shape (spike_source_array a)).
  rewrite <- (length_map source_shape (spike_source_array b)).
  congruence.
Qed.

(** The pass over one source keeps everything but the seed, the times to
    spike of Slow sources, the buffer, the dispatch target and the trace. *)
Lemma source_tick_static s st st' :
  source_tick s st = Ok st' -> static_view st' = static_view st.
Proof.
  unfold source_tick.
  destruct (load (spike_source_array st) s) as [src|] eqn:Hld; [|discriminate].
  cbn [bind]. destruct (is_fast_source src) eqn:Hfast.
  - destruct (active_this_tick src st); [|intros [= <-]; reflexivity].
    pose proof (static_view_fast (exp_minus_lambda src) st) as Hv.
    destruct (fast_spike_source_get_num_spikes _ st) as [k st1].
    cbn [snd] in Hv. destruct (0 <? k); [|intros [= <-]; exact Hv].
    destruct (_mark_spike s k st1) as [st2|] eqn:Hm; [|discriminate].
    cbn [bind]. apply static_view_mark in Hm.
    destruct (has_key _); intros [= <-];
      rewrite ?static_view_send_loop; congruence.
  - destruct (_ && _); [|intros [= <-]; reflexivity].
    destruct (time_to_spike_ticks src <=? 0).
    + destruct (_mark_spike s 1 st) as [st1|] eqn:Hm; [|discriminate].
      cbn [bind]. pose proof (mark_spike_frame _ _ _ _ Hm) as Hfr.
      apply static_view_mark in Hm.
      set (st2 := if has_key (parameters st1) then _ else st1).
      assert (H2 : static_view st2 = static_view st1
                   /\ spike_source_array st2 = spike_source_array st)
        by (subst st2; rewrite Hfr; destruct (has_key _); split; reflexivity).
      destruct H2 as [H2 Ha2]. clearbody st2.
      pose proof (static_view_slow (mean_isi_ticks src) st2) as H3.
      assert (Ha3 : spike_source_array
                      (snd (slow_spike_source_get_time_to_spike
                              (mean_isi_ticks src) st2))
                    = spike_source_array st).
      { unfold slow_spike_source_get_time_to_spike.
        destruct (exponential_dist_variate _). exact Ha2. }
      destruct (slow_spike_source_get_time_to_spike _ st2) as [isi st3].
      cbn [snd] in H3, Ha3.
      destruct (update_time_to_spike s _ st3) as [st4|] eqn:Hu;
        [|discriminate].
      cbn [bind]. intros Hu'.
      assert (Hld3 : load (spike_source_array st3) s = Ok src)
        by (rewrite Ha3; exact Hld).
      pose proof (static_view_update _ _ _ _ _ Hld3 Hfast Hu) as H4.
      rewrite (update_time_to_spike_Ok _ _ _ _ Hld3) in Hu.
      assert (Hld4 : load (spike_source_array st4) s
                     = Ok (set_time_to_spike
                             (real_add (time_to_spike_ticks src) isi) src)).
      { injection Hu as <-. cbn [spike_source_array set_spike_source_array].
        eapply load_store_same. exact Hld3. }
      rewrite (static_view_update _ _ _ _ _ Hld4 Hfast Hu'). congruence.
    + cbn [bind]. intros Hu.
      rewrite (static_view_update _ _ _ _ _ Hld Hfast Hu). reflexivity.
Qed.

Lemma source_loop_static n :
  forall s st st',
    source_loop n s st = Ok st' -> static_view st' = static_view st.
Proof.
  induction n as [|n IH]; intros s st st' Hrun.
  - injection Hrun as <-. reflexivity.
  - cbn [source_loop] in Hrun.
    destruct (source_tick s st) as [st1|] eqn:Ht; [|discriminate].
    cbn [bind] in Hrun. rewrite (IH _ _ _ Hrun).
    exact (source_tick_static _ _ _ Ht).
Qed.

Lemma static_view_record t st st' :
  _record_spikes t st = Ok st' -> static_view st' = static_view st.
Proof.
  unfold _record_spikes, recording_complete_callback.
  cbn [spikes set_recording_in_progress].
  destruct (spikes st) as [b|]; [|intros [= <-]; reflexivity].
  destruct (0 <? n_buffers b); [|intros [= <-]; reflexivity].
  destruct (_ <=? _)%nat; [|discriminate].
  intros H. apply reset_spikes_frame in H. rewrite H. reflexivity.
Qed.

(** What [run_tick] leaves alone. *)
Lemma run_tick_static t1 st st' :
  run_tick t1 st = Ok st' -> static_view st' = static_view st.
Proof.
  unfold run_tick.
  destruct (source_loop _ 0 _) as [st4|] eqn:Hl; [|discriminate].
  apply source_loop_static in Hl. cbn [bind].
  assert (H5 : forall st5,
             (if 0 <? recording_flags st4
              then _record_spikes (time st4) st4 else Ok st4) = Ok st5 ->
             static_view st5 = static_view st4).
  { intros st5. destruct (0 <? recording_flags st4).
    - apply static_view_record.
    - intros [= <-]. reflexivity. }
  destruct (if 0 <? recording_flags st4 then _ else _) as [st5|];
    [|discriminate].
  specialize (H5 st5 eq_refl). cbn [bind]. intros [= <-].
  transitivity (static_view st5);
    [destruct (0 <? recording_flags st5); reflexivity|].
  rewrite H5, Hl. reflexivity.
Qed.

Lemma static_view_fields a b :
  static_view a = static_view b ->
  fixed_parameters (parameters a) = fixed_parameters (parameters b)
  /\ table_shape a = table_shape b
  /\ time a = time b
  /\ simulation_ticks a = simulation_ticks b
  /\ infinite_run a = infinite_run b
  /\ time_between_spikes a = time_between_spikes b
  /\ recording_flags a = recording_flags b
  /\ n_spike_buffer_words a = n_spike_buffer_words b
  /\ spike_buffer_size a = spike_buffer_size b
  /\ sdram a = sdram b.
Proof.
  unfold static_view. intros H. repeat split; congruence.
Qed.

(** What [timer_callback] leaves alone: all of the static view but the
    tick counter and the shared region. *)
Lemma timer_callback_static t1 st st' :
  timer_callback t1 st = Ok st' ->
  static_view st'
  = static_view (set_sdram (sdram st') (set_time (time st') st)).
Proof.
  unfold timer_callback.
  destruct (_ && _).
  - unfold pause_tick, store_poisson_parameters.
    cbn [parameters spike_source_array sdram set_time].
    destruct (0 <? n_spike_sources (parameters st)).
    + destruct (_ && _); [|discriminate]. cbn [bind]. intros [= <-].
      cbn [recording_flags emit set_sdram set_time].
      destruct (0 <? recording_flags st); reflexivity.
    + cbn [bind]. intros [= <-]. cbn [recording_flags emit set_time].
      destruct (0 <? recording_flags st); reflexivity.
  - intros Hrun. pose proof (run_tick_static _ _ _ Hrun) as Hv.
    rewrite Hv. pose proof (static_view_fields _ _ Hv)
      as (_ & _ & Ht & _ & _ & _ & _ & _ & _ & Hs).
    rewrite Ht, Hs. reflexivity.
Qed.

(** X1. A tick that does not trap never changes the regime, the window or
    the rate of a source, nor anything of a Fast source; it keeps the
    number of source records, every parameter but the seed, the run
    length, the recording flags and the layout of the buffer. *)
Theorem timer_callback_keeps_table t1 st st' :
  timer_callback t1 st = Ok st' ->
  table_shape st' = table_shape st
  /\ length (spike_source_array st') = length (spike_source_array st)
  /\ fixed_parameters (parameters st') = fixed_parameters (parameters st)
  /\ simulation_ticks st' = simulation_ticks st
  /\ infinite_run st' = infinite_run st
  /\ time_between_spikes st' = time_between_spikes st
  /\ recording_flags st' = recording_flags st
  /\ n_spike_buffer_words st' = n_spike_buffer_words st
  /\ spike_buffer_size st' = spike_buffer_size st.
Proof.
  intros Hrun. apply timer_callback_static in Hrun.
  pose proof (static_view_sources _ _ Hrun) as Hlen.
  apply static_view_fields in Hrun
    as (Hp & Hs & _ & Hk & Hi & Hb & Hf & Hw & Hz & _).
  repeat split; assumption.
Qed.

Lemma send_loop_trace n k st :
  trace (send_loop n k st) = trace st ++ replicate n (EvSendMc k).
Proof.
  revert st. induction n as [|n IH]; intros st.
  - cbn. rewrite app_nil_r. reflexivity.
  - cbn [send_loop replicate]. rewrite IH. cbn [trace _send_spike emit].
    rewrite <- app_assoc. reflexivity.
Qed.

Lemma send_loop_fields n k st :
  parameters (send_loop n k st) = parameters st
  /\ spike_source_array (send_loop n k st) = spike_source_array st
  /\ spikes (send_loop n k st) = spikes st.
Proof.
  revert st. induction n as [|n IH]; intros st; [repeat split|].
  cbn [send_loop]. destruct (IH (_send_spike k st)) as (-> & -> & ->).
  repeat split.
Qed.

Lemma fixed_parameters_key p q :
  fixed_parameters p = fixed_parameters q ->
  has_key p = has_key q /\ key p = key q
  /\ n_spike_sources p = n_spike_sources q
  /\ random_backoff_us p = random_backoff_us q.
Proof.
  intros H. repeat split;
    [exact (f_equal has_key H) | exact (f_equal key H)
    | exact (f_equal n_spike_sources H)
    | exact (f_equal random_backoff_us H)].
Qed.

(** X2. A Fast source on a tick inside its window, when marking does not
    trap: the handler draws the number of spikes [k] once, marks [(s, k)]
    if [k > 0], and sends exactly [k] packets with the key
    [parameters.key | s] if a key is configured and none otherwise; no
    source record changes. *)
Theorem fast_tick_dispatch s st src stm :
  load (spike_source_array st) s = Ok src ->
  is_fast_source src = true ->
  start_ticks src <= time st < end_ticks src ->
  (if 0 <? spikes_generated s st
   then _mark_spike s (spikes_generated s st)
          (snd (fast_spike_source_get_num_spikes (exp_minus_lambda src) st))
   else Ok (snd (fast_spike_source_get_num_spikes (exp_minus_lambda src) st)))
  = Ok stm ->
  exists st',
    source_tick s st = Ok st'
    /\ trace st'
       = trace st
         ++ (if has_key (parameters st)
             then replicate (Z.to_nat (spikes_generated s st))
                    (EvSendMc (Z.lor (key (parameters st)) s))
             else [])
    /\ spike_source_array st' = spike_source_array st
    /\ spikes st' = spikes stm
    /\ parameters st'
       = parameters
           (snd (fast_spike_source_get_num_spikes (exp_minus_lambda src) st)).
Proof.
  intros Hld Hfast Hwin. unfold spikes_generated, source_tick.
  rewrite Hld. cbn [bind]. rewrite Hfast.
  apply active_this_tick_iff in Hwin. rewrite Hwin.
  assert (Hd : parameters
                 (snd (fast_spike_source_get_num_spikes
                         (exp_minus_lambda src) st))
               = parameters st
               \/ exists sd,
                    parameters
                      (snd (fast_spike_source_get_num_spikes
                              (exp_minus_lambda src) st))
                    = set_seed sd (parameters st)).
  { unfold fast_spike_source_get_num_spikes. destruct (_ =? _); [left; reflexivity|].
    destruct (poisson_dist_variate_exp_minus_lambda _ _) as [k sd].
    right. exists sd. reflexivity. }
  assert (Hf : spike_source_array
                 (snd (fast_spike_source_get_num_spikes
                         (exp_minus_lambda src) st))
               = spike_source_array st
               /\ trace (snd (fast_spike_source_get_num_spikes
                                (exp_minus_lambda src) st)) = trace st).
  { unfold fast_spike_source_get_num_spikes. destruct (_ =? _);
      [split; reflexivity|].
    destruct (poisson_dist_variate_exp_minus_lambda _ _) as [k sd].
    split; reflexivity. }
  destruct (fast_spike_source_get_num_spikes (exp_minus_lambda src) st)
    as [k st1].
  cbn [fst snd] in *. destruct Hf as [Ha Ht].
  assert (Hk : has_key (parameters st1) = has_key (parameters st)
               /\ key (parameters st1) = key (parameters st)).
  { destruct Hd as [-> | [sd ->]]; split; reflexivity. }
  destruct Hk as [Hk1 Hk2].
  destruct (Z.ltb_spec 0 k) as [Hpos|Hzero].
  - intros Hm. rewrite Hm. cbn [bind].
    pose proof (mark_spike_frame _ _ _ _ Hm) as Hfr.
    assert (Hp : parameters stm = parameters st1
                 /\ spike_source_array stm = spike_source_array st1
                 /\ trace stm = trace st1)
      by (rewrite Hfr; repeat split; reflexivity).
    destruct Hp as (Hp & Ha' & Ht').
    rewrite Hp, Hk1, Hk2.
    destruct (has_key (parameters st)); eexists; (split; [reflexivity|]).
    + rewrite send_loop_trace.
      destruct (send_loop_fields (Z.to_nat k)
                  (Z.lor (key (parameters st)) s) stm) as (-> & -> & ->).
      rewrite Ht', Ht, Ha', Ha. repeat split. exact Hp.
    + rewrite app_nil_r, Ht', Ht, Ha', Ha. repeat split. exact Hp.
  - intros [= <-]. eexists. split; [reflexivity|].
    rewrite Ht, Ha. replace (Z.to_nat k) with O by lia.
    destruct (has_key (parameters st)); cbn [replicate];
      rewrite app_nil_r; repeat split.
Qed.

(** X3. A Fast source whose [exp_minus_lambda] is zero: the pass over it
    is the identity also inside its window; no variate is drawn, so the
    seed does not move, and nothing is marked or sent. *)
Theorem fast_tick_clamped s st src :
  load (spike_source_array st) s = Ok src ->
  is_fast_source src = true ->
  bitsulr (exp_minus_lambda src) = 0 ->
  source_tick s st = Ok st
  /\ spikes_generated s st = 0.
Proof.
  intros Hld Hfast Hz. unfold source_tick, spikes_generated.
  rewrite Hld. cbn [bind]. rewrite Hfast.
  unfold fast_spike_source_get_num_spikes. rewrite Hz.
  change (bitsulr 0) with 0. rewrite Z.eqb_refl. cbn [fst Z.ltb Z.compare].
  destruct (active_this_tick src st); split; reflexivity.
Qed.

(** The packets of the pass over one source. *)
Lemma source_tick_trace s st st' :
  source_tick s st = Ok st' ->
  trace st'
  = trace st
    ++ (if has_key (parameters st)
        then replicate (Z.to_nat (spikes_generated s st))
               (EvSendMc (Z.lor (key (parameters st)) s))
        else []).
Proof.
  assert (Hnil : trace st
                 = trace st
                   ++ (if has_key (parameters st)
                       then replicate (Z.to_nat 0)
                              (EvSendMc (Z.lor (key (parameters st)) s))
                       else [])).
  { destruct (has_key _); cbn; rewrite app_nil_r; reflexivity. }
  unfold source_tick, spikes_generated.
  destruct (load (spike_source_array st) s) as [src|] eqn:Hld; [|discriminate].
  cbn [bind]. destruct (is_fast_source src) eqn:Hfast.
  - destruct (active_this_tick src st); [|intros [= <-]; exact Hnil].
    assert (Hf : trace (snd (fast_spike_source_get_num_spikes
                                (exp_minus_lambda src) st)) = trace st
                 /\ has_key (parameters
                               (snd (fast_spike_source_get_num_spikes
                                       (exp_minus_lambda src) st)))
                    = has_key (parameters st)
                 /\ key (parameters
                           (snd (fast_spike_source_get_num_spikes
                                   (exp_minus_lambda src) st)))
                    = key (parameters st)).
    { unfold fast_spike_source_get_num_spikes. destruct (_ =? _);
        [repeat split|].
      destruct (poisson_dist_variate_exp_minus_lambda _ _) as [k sd].
      repeat split. }
    destruct (fast_spike_source_get_num_spikes (exp_minus_lambda src) st)
      as [k st1].
    cbn [fst snd] in *. destruct Hf as (Ht & Hk1 & Hk2).
    destruct (Z.ltb_spec 0 k) as [Hpos|Hzero].
    + destruct (_mark_spike s k st1) as [stm|] eqn:Hm; [|discriminate].
      cbn [bind]. pose proof (mark_spike_frame _ _ _ _ Hm) as Hfr.
      assert (Hp : parameters stm = parameters st1 /\ trace stm = trace st1)
        by (rewrite Hfr; split; reflexivity).
      destruct Hp as [Hp Ht']. rewrite Hp, Hk1, Hk2.
      destruct (has_key (parameters st)); intros [= <-].
      * rewrite send_loop_trace, Ht', Ht. reflexivity.
      * rewrite app_nil_r, Ht', Ht. reflexivity.
    + intros [= <-]. rewrite Ht. replace (Z.to_nat k) with O by lia.
      exact Hnil.
  - destruct (active_this_tick src st && negb (mean_isi_ticks src =? 0));
      [|intros [= <-]; exact Hnil].
    cbn [andb].
    assert (Hu : forall f a b, update_time_to_spike s f a = Ok b ->
                               trace b = trace a).
    { intros f a b. unfold update_time_to_spike.
      destruct (load (spike_source_array a) s) as [x|]; [|discriminate].
      cbn [bind].
      destruct (store (spike_source_array a) s _); [|discriminate].
      cbn [bind]. intros [= <-]. reflexivity. }
    destruct (time_to_spike_ticks src <=? 0).
    + destruct (_mark_spike s 1 st) as [st1|] eqn:Hm; [|discriminate].
      cbn [bind]. pose proof (mark_spike_frame _ _ _ _ Hm) as Hfr.
      assert (Hp : parameters st1 = parameters st /\ trace st1 = trace st)
        by (rewrite Hfr; split; reflexivity).
      destruct Hp as [Hp Ht1]. rewrite Hp.
      set (st2 := if has_key (parameters st) then _ else st1).
      assert (Ht2 : trace st2
                    = trace st
                      ++ (if has_key (parameters st)
                          then replicate (Z.to_nat 1)
                                 (EvSendMc (Z.lor (key (parameters st)) s))
                          else [])).
      { subst st2. destruct (has_key (parameters st)); cbn;
          rewrite Ht1, ?app_nil_r; reflexivity. }
      clearbody st2.
      assert (Ht3 : trace (snd (slow_spike_source_get_time_to_spike
                                  (mean_isi_ticks src) st2)) = trace st2).
      { unfold slow_spike_source_get_time_to_spike.
        destruct (exponential_dist_variate _). reflexivity. }
      destruct (slow_spike_source_get_time_to_spike _ st2) as [isi st3].
      cbn [snd] in Ht3.
      destruct (update_time_to_spike s _ st3) as [st4|] eqn:Hu4;
        [|discriminate].
      cbn [bind]. intros Hu5. apply Hu in Hu4, Hu5. congruence.
    + cbn [bind]. intros Hu5. apply Hu in Hu5. rewrite Hu5. exact Hnil.
Qed.

(** The packets of a sweep. *)
Lemma source_loop_trace n :
  forall s0 st st',
    source_loop n s0 st = Ok st' ->
    trace st'
    = trace st
      ++ (if has_key (parameters st)
          then sweep_packets (key (parameters st)) s0 (sweep_counts n s0 st)
          else []).
Proof.
  induction n as [|n IH]; intros s0 st st' Hrun.
  - injection Hrun as <-. cbn. destruct (has_key _); rewrite app_nil_r;
      reflexivity.
  - cbn [source_loop sweep_counts] in *.
    destruct (source_tick s0 st) as [st1|] eqn:Ht; [|discriminate].
    cbn [bind] in Hrun. rewrite (IH _ _ _ Hrun).
    rewrite (source_tick_trace _ _ _ Ht).
    apply source_tick_static, static_view_fields in Ht as (Hp & _).
    apply fixed_parameters_key in Hp as (-> & -> & _).
    destruct (has_key (parameters st)); cbn [sweep_packets];
      rewrite <- ?app_assoc, ?app_nil_r; reflexivity.
Qed.

(** X4. The packets of a sweep, when it does not trap: with a key
    configured, each source in turn, from the first to the last, sends one
    packet with the key [parameters.key | s] for each spike it generates;
    with no key configured the sweep sends nothing. *)
Theorem source_loop_packets n :
  forall s0 st st',
    source_loop n s0 st = Ok st' ->
    trace st'
    = trace st
      ++ (if has_key (parameters st)
          then sweep_packets (key (parameters st)) s0 (sweep_counts n s0 st)
          else []).
Proof.
  induction n as [|n IH]; intros s0 st st' Hrun.
  - injection Hrun as <-. cbn. destruct (has_key _); rewrite app_nil_r;
      reflexivity.
  - cbn [source_loop sweep_counts] in *.
    destruct (source_tick s0 st) as [st1|] eqn:Ht; [|discriminate].
    cbn [bind] in Hrun. rewrite (IH _ _ _ Hrun).
    rewrite (source_tick_trace _ _ _ Ht).
    apply source_tick_static, static_view_fields in Ht as (Hp & _).
    apply fixed_parameters_key in Hp as (-> & -> & _).
    destruct (has_key (parameters st)); cbn [sweep_packets];
      rewrite <- ?app_assoc, ?app_nil_r; reflexivity.
Qed.

(** A flush with no layer in use hands nothing over and keeps the
    buffer. *)
Lemma record_spikes_idle t st :
  n_layers st <= 0 ->
  _record_spikes t st = Ok (set_recording_in_progress false st).
Proof.
  unfold n_layers, _record_spikes, recording_complete_callback.
  cbn [spikes set_recording_in_progress].
  destruct (spikes st) as [b|]; [|reflexivity].
  intros H. destruct (Z.ltb_spec 0 (n_buffers b)); [lia | reflexivity].
Qed.

(** X5. A tick of a run that goes on, on which every source is outside its
    window or Slow with a zero mean interval, and which starts with no
    layer in use: it takes the delay, clears the out-spike scratch, and,
    when recording is on, tells the recording subsystem that the tick is
    over; it sends no packet, hands no payload to the writer and leaves the
    source records, the seed and the buffer as they were. *)
Theorem quiet_tick t1 st :
  infinite_run st = TRUE \/ u32 (time st + 1) < simulation_ticks st ->
  wf_sources st ->
  (forall i src,
     spike_source_array st !! i = Some src ->
     ~ (start_ticks src <= u32 (time st + 1) < end_ticks src)
     \/ (is_fast_source src = false /\ mean_isi_ticks src = 0)) ->
  n_layers st <= 0 ->
  exists st',
    timer_callback t1 st = Ok st'
    /\ trace st'
       = trace st
         ++ [EvDelay (random_backoff_us (parameters st)); EvOutSpikesReset]
         ++ (if 0 <? recording_flags st
             then [EvTimestepUpdate (u32 (time st + 1))] else [])
    /\ spike_source_array st' = spike_source_array st
    /\ parameters st' = parameters st
    /\ spikes st' = spikes st
    /\ n_spike_buffers_allocated st' = n_spike_buffers_allocated st
    /\ time st' = u32 (time st + 1).
Proof.
  intros Hgo Hwf Hsilent Hnl. unfold timer_callback.
  cbn [infinite_run simulation_ticks time set_time].
  assert (Hc : negb (infinite_run st =? TRUE)
               && (simulation_ticks st <=? u32 (time st + 1)) = false).
  { destruct Hgo as [Hinf|Hlt].
    - rewrite Hinf, Z.eqb_refl. reflexivity.
    - apply andb_false_iff. right. apply Z.leb_gt. exact Hlt. }
  rewrite Hc, run_tick_sweep.
  rewrite (source_loop_silent _ 0 (sweep_start t1 st)).
  2:{ intros i Hi. unfold wf_sources in Hwf.
      destruct (lookup_lt_is_Some_2 (spike_source_array st) (Z.to_nat i))
        as [src Hsrc]; [lia|].
      exists src. split; [unfold load; cbn; rewrite Hsrc; reflexivity|].
      exact (Hsilent _ _ Hsrc). }
  cbn [bind]. change (recording_flags (sweep_start t1 st))
    with (recording_flags st).
  destruct (0 <? recording_flags st) eqn:Hf.
  - rewrite record_spikes_idle by exact Hnl. cbn [bind].
    change (recording_flags
              (set_recording_in_progress false (sweep_start t1 st)))
      with (recording_flags st).
    rewrite Hf. eexists. split; [reflexivity|]. unfold sweep_start. cbn.
    rewrite <- !app_assoc. repeat split.
  - cbn [bind]. change (recording_flags (sweep_start t1 st))
      with (recording_flags st).
    rewrite Hf. eexists. split; [reflexivity|]. unfold sweep_start. cbn.
    rewrite <- !app_assoc. repeat split.
Qed.

Lemma mark_spike_capacity id n st st' :
  _mark_spike id n st = Ok st' ->
  n_spike_buffers_allocated st <= n_spike_buffers_allocated st'
  /\ (is_Some (spikes st) -> is_Some (spikes st')).
Proof.
  unfold _mark_spike. destruct (0 <? recording_flags st).
  - destruct (Z.ltb_spec (n_spike_buffers_allocated st) n) as [Hg|Hg].
    + unfold grow_spikes. destruct (heap_free st <? _); [discriminate|].
      assert (H : forall b h,
                 (let! st1 := Ok (set_buffer (Some b) n h st) in
                  match spikes st1 with
                  | Some b0 =>
                      let! ws := mark_loop (Z.to_nat n) id st1 (out_spikes b0) in
                      Ok (set_spikes
                            {| tos_time := tos_time b0;
                               n_buffers := if n_buffers b0 <? n then n
                                            else n_buffers b0;
                               out_spikes := ws |} st1)
                  | None => Fail BadAccess
                  end) = Ok st' ->
                 n_spike_buffers_allocated st <= n_spike_buffers_allocated st'
                 /\ (is_Some (spikes st) -> is_Some (spikes st'))).
      { intros b h. cbn [bind spikes set_buffer].
        destruct (mark_loop _ _ _ _); [|discriminate]. cbn [bind].
        intros [= <-]. cbn. split; [lia | eauto]. }
      destruct (spikes st) as [old|].
      * destruct (_ && _); [|discriminate].
        destruct (tos_of_words _) as [b|]; [|discriminate]. apply H.
      * destruct (tos_of_words _) as [b|]; [|discriminate]. apply H.
    + cbn [bind]. destruct (spikes st) as [b|]; [|discriminate].
      destruct (mark_loop _ _ _ _); [|discriminate]. cbn [bind].
      intros [= <-]. cbn. split; [lia | eauto].
  - intros [= <-]. split; [lia | auto].
Qed.

(** X6. The recording buffer only grows: a tick that does not trap never
    lowers the number of allocated buffers and never gives the buffer
    up. *)
Theorem timer_callback_capacity_grows t1 st st' :
  timer_callback t1 st = Ok st' ->
  n_spike_buffers_allocated st <= n_spike_buffers_allocated st'
  /\ (is_Some (spikes st) -> is_Some (spikes st')).
Proof.
  assert (Hview : forall a b,
             buffer_view a = buffer_view b ->
             n_spike_buffers_allocated a = n_spike_buffers_allocated b
             /\ spikes a = spikes b).
  { intros a b H. apply buffer_view_fields in H as (_ & Hs & Hn & _).
    split; assumption. }
  assert (Hloop : forall n s a b,
             source_loop n s a = Ok b ->
             n_spike_buffers_allocated a <= n_spike_buffers_allocated b
             /\ (is_Some (spikes a) -> is_Some (spikes b))).
  { induction n as [|n IH]; intros s a b Hrun.
    - injection Hrun as <-. split; [lia | auto].
    - cbn [source_loop] in Hrun.
      destruct (source_tick s a) as [a1|] eqn:Ht; [|discriminate].
      cbn [bind] in Hrun. destruct (IH _ _ _ Hrun) as [Hn Hs].
      destruct (source_tick_buffer _ _ _ Ht) as (a0 & am & H0 & Hm & H1).
      destruct (Hview _ _ H0) as [E0 S0]. destruct (Hview _ _ H1) as [E1 S1].
      assert (Hmk : n_spike_buffers_allocated a0
                    <= n_spike_buffers_allocated am
                    /\ (is_Some (spikes a0) -> is_Some (spikes am))).
      { destruct (0 <? spikes_generated s a).
        - exact (mark_spike_capacity _ _ _ _ Hm).
        - injection Hm as <-. split; [lia | auto]. }
      destruct Hmk as [Hmn Hms]. split; [lia|].
      intros Ha. apply Hs. rewrite S1. apply Hms. rewrite S0. exact Ha. }
  unfold timer_callback. destruct (_ && _).
  - unfold pause_tick, store_poisson_parameters.
    cbn [parameters spike_source_array sdram set_time].
    destruct (0 <? n_spike_sources (parameters st)).
    + destruct (_ && _); [|discriminate]. cbn [bind]. intros [= <-].
      cbn [recording_flags emit set_sdram set_time].
      destruct (0 <? recording_flags st); cbn; split; (lia || auto).
    + cbn [bind]. intros [= <-]. cbn [recording_flags emit set_time].
      destruct (0 <? recording_flags st); cbn; split; (lia || auto).
  - rewrite run_tick_sweep.
    destruct (source_loop _ 0 (sweep_start t1 st)) as [st4|] eqn:Hl;
      [|discriminate].
    apply Hloop in Hl as [Hn4 Hs4]. cbn [bind].
    assert (H5 : forall st5,
               (if 0 <? recording_flags st4
                then _record_spikes (time st4) st4 else Ok st4) = Ok st5 ->
               n_spike_buffers_allocated st4 = n_spike_buffers_allocated st5
               /\ (is_Some (spikes st4) -> is_Some (spikes st5))).
    { intros st5. destruct (0 <? recording_flags st4);
        [|intros [= <-]; split; auto].
      unfold _record_spikes, recording_complete_callback.
      cbn [spikes set_recording_in_progress].
      destruct (spikes st4) as [b|] eqn:Hsp.
      2:{ intros [= <-]. cbn. rewrite Hsp. split; auto. }
      destruct (0 <? n_buffers b).
      2:{ intros [= <-]. cbn. rewrite Hsp. split; auto. }
      destruct (_ <=? _)%nat; [|discriminate].
      unfold _reset_spikes. cbn [spikes emit set_spikes set_buffer].
      destruct (reset_loop _ _ _); [|discriminate]. cbn [bind].
      intros [= <-]. cbn. split; [reflexivity | intros _; eexists; reflexivity]. }
    destruct (if 0 <? recording_flags st4 then _ else _) as [st5|];
      [|discriminate].
    destruct (H5 st5 eq_refl) as [Hn5 Hs5]. cbn [bind]. intros [= <-].
    change (n_spike_buffers_allocated (sweep_start t1 st))
      with (n_spike_buffers_allocated st) in Hn4.
    change (spikes (sweep_start t1 st)) with (spikes st) in Hs4.
    destruct (0 <? recording_flags st5); cbn; split; (lia || auto).
Qed.

Lemma max_counts_nonneg (l : list Z) : 0 <= fold_right Z.max 0 l.
Proof. induction l as [|c l IH]; cbn [fold_right]; lia. Qed.

(** X7. The events of a tick of a run that goes on, with recording on and
    a reset buffer at its start, when it does not trap: the delay, the
    clearing of the scratch, the packets of the sources in source order,
    then, if some source spiked, one payload for the writer, stamped with
    the tick and holding as many layers as the largest number of spikes of
    a source, and last the notice that the tick is over. *)
Theorem tick_recording_trace t1 st st' :
  timer_callback t1 st = Ok st' ->
  infinite_run st = TRUE \/ u32 (time st + 1) < simulation_ticks st ->
  0 < recording_flags st ->
  wf_buffer st ->
  buffer_reset st ->
  n_spike_sources (parameters st) <= 32 * n_spike_buffer_words st ->
  Forall (fun c => 8 + c * spike_buffer_size st < 2 ^ 32)
    (sweep_counts (Z.to_nat (n_spike_sources (parameters st))) 0
       (sweep_start t1 st)) ->
  exists st4,
    source_loop (Z.to_nat (n_spike_sources (parameters st))) 0
      (sweep_start t1 st) = Ok st4
    /\ trace st'
       = trace st
         ++ [EvDelay (random_backoff_us (parameters st)); EvOutSpikesReset]
         ++ (if has_key (parameters st)
             then sweep_packets (key (parameters st)) 0
                    (sweep_counts
                       (Z.to_nat (n_spike_sources (parameters st))) 0
                       (sweep_start t1 st))
             else [])
         ++ (if 0 <? fold_right Z.max 0
                       (sweep_counts
                          (Z.to_nat (n_spike_sources (parameters st))) 0
                          (sweep_start t1 st))
             then [EvRecordAndNotify 0
                     (u32 (time st + 1)
                      :: fold_right Z.max 0
                           (sweep_counts
                              (Z.to_nat (n_spike_sources (parameters st))) 0
                              (sweep_start t1 st))
                      :: take (Z.to_nat
                                 (fold_right Z.max 0
                                    (sweep_counts
                                       (Z.to_nat
                                          (n_spike_sources (parameters st)))
                                       0 (sweep_start t1 st))
                                  * n_spike_buffer_words st))
                           (buffer_words st4))]
             else [])
         ++ [EvTimestepUpdate (u32 (time st + 1))].
Proof.
  intros Hrun Hgo Hon Hwf [Hn0 Hz0] Hn Hfit. unfold timer_callback in Hrun.
  cbn [infinite_run simulation_ticks time set_time] in Hrun.
  assert (Hc : negb (infinite_run st =? TRUE)
               && (simulation_ticks st <=? u32 (time st + 1)) = false).
  { destruct Hgo as [Hinf|Hlt].
    - rewrite Hinf, Z.eqb_refl. reflexivity.
    - apply andb_false_iff. right. apply Z.leb_gt. exact Hlt. }
  rewrite Hc, run_tick_sweep in Hrun.
  pose proof Hwf as (Hnw & _).
  set (counts := sweep_counts _ 0 (sweep_start t1 st)) in *.
  destruct (source_loop _ 0 (sweep_start t1 st)) as [st4|] eqn:Hl;
    [|discriminate].
  exists st4. split; [reflexivity|]. cbn [bind] in Hrun.
  assert (Hv : buffer_view (sweep_start t1 st) = buffer_view st)
    by reflexivity.
  pose proof (wf_buffer_view _ _ (eq_sym Hv) Hwf) as Hwf3.
  destruct (source_loop_bits _ 0 _ _ Hl) as
    (Hwf4 & Ef & Ew & Ez & _ & Hnl & _); [exact Hon | exact Hwf3 | lia | | exact Hfit |].
  { change (n_spike_buffer_words (sweep_start t1 st))
      with (n_spike_buffer_words st). lia. }
  fold counts in Hnl.
  change (n_layers (sweep_start t1 st)) with (n_layers st) in Hnl.
  change (n_spike_buffer_words (sweep_start t1 st))
    with (n_spike_buffer_words st) in Ew.
  pose proof (max_counts_nonneg counts) as HM.
  rewrite Hn0, Z.max_r in Hnl by exact HM.
  pose proof (source_loop_trace _ _ _ _ Hl) as Ht4. fold counts in Ht4.
  change (parameters (sweep_start t1 st)) with (parameters st) in Ht4.
  assert (Htime : time st4 = u32 (time st + 1)).
  { apply source_loop_static, static_view_fields in Hl
      as (_ & _ & Ht & _). exact Ht. }
  assert (Hon4 : (0 <? recording_flags st4) = true)
    by (apply Z.ltb_lt; rewrite Ef; exact Hon).
  rewrite Hon4 in Hrun.
  assert (Htr : trace (sweep_start t1 st)
                = trace st
                  ++ [EvDelay (random_backoff_us (parameters st));
                      EvOutSpikesReset]).
  { unfold sweep_start. cbn. rewrite <- app_assoc. reflexivity. }
  rewrite Htr in Ht4.
  destruct (Z.ltb_spec 0 (fold_right Z.max 0 counts)) as [Hpos|Hzero].
  - unfold n_layers in Hnl. unfold buffer_words.
    destruct (spikes st4) as [b|] eqn:Hsp; [|lia].
    rewrite (record_spikes_eq _ _ _ Hwf4 Hsp) in Hrun by lia.
    cbn [bind recording_flags set_spikes set_buffer emit
         set_recording_in_progress] in Hrun.
    rewrite Hon4 in Hrun. injection Hrun as <-.
    cbn [trace emit set_spikes set_buffer set_recording_in_progress time].
    rewrite Ht4, Htime, Hnl, Ew. rewrite <- !app_assoc. reflexivity.
  - rewrite record_spikes_idle in Hrun by lia.
    cbn [bind recording_flags set_recording_in_progress] in Hrun.
    rewrite Hon4 in Hrun. injection Hrun as <-.
    cbn [trace emit set_recording_in_progress time].
    rewrite Ht4, Htime. rewrite <- !app_assoc. reflexivity.
Qed.

(** A mark gives back to the heap what it takes from it, but for the
    growth of the buffer. *)
Lemma mark_spike_heap id n st st' :
  _mark_spike id n st = Ok st' ->
  wf_buffer st ->
  8 + n * spike_buffer_size st < 2 ^ 32 ->
  heap_free st' + buffer_bytes st' = heap_free st + buffer_bytes st.
Proof.
  unfold _mark_spike. intros H (Hnw & Hsz & Hna & Hfit & Hb) Hnew.
  destruct (0 <? recording_flags st); [|injection H as <-; reflexivity].
  destruct (Z.ltb_spec (n_spike_buffers_allocated st) n) as [Hg|Hg].
  - unfold grow_spikes in H.
    rewrite (u32_small (n * _)) in H by nia.
    rewrite (u32_small (8 + n * _)) in H by nia.
    rewrite (u32_small (n_spike_buffers_allocated st * _)) in H by nia.
    rewrite (u32_small (8 + n_spike_buffers_allocated st * _)) in H by nia.
    destruct (heap_free st <? _); [discriminate|].
    unfold buffer_bytes at 2.
    destruct (spikes st) as [old|].
    + destruct (_ && _); [|discriminate].
      destruct (tos_of_words _) as [b|]; [|discriminate].
      cbn [bind spikes set_buffer] in H.
      destruct (mark_loop _ _ _ _); [|discriminate]. cbn [bind] in H.
      injection H as <-. unfold buffer_bytes. cbn. lia.
    + destruct (tos_of_words _) as [b|]; [|discriminate].
      cbn [bind spikes set_buffer] in H.
      destruct (mark_loop _ _ _ _); [|discriminate]. cbn [bind] in H.
      injection H as <-. unfold buffer_bytes. cbn. lia.
  - cbn [bind] in H. unfold buffer_bytes at 2.
    destruct (spikes st) as [b|]; [|discriminate].
    destruct (mark_loop _ _ _ _); [|discriminate]. cbn [bind] in H.
    injection H as <-. unfold buffer_bytes. cbn. lia.
Qed.

Lemma buffer_bytes_view a b :
  buffer_view a = buffer_view b ->
  heap_free a + buffer_bytes a = heap_free b + buffer_bytes b.
Proof.
  intros H. apply buffer_view_fields in H as (_ & Hs & Hn & _ & Hz & Hh).
  unfold buffer_bytes. rewrite Hs, Hn, Hz, Hh. reflexivity.
Qed.

Lemma source_loop_heap n :
  forall s0 st st',
    source_loop n s0 st = Ok st' ->
    0 < recording_flags st ->
    wf_buffer st ->
    0 <= s0 ->
    s0 + Z.of_nat n <= 32 * n_spike_buffer_words st ->
    Forall (fun c => 8 + c * spike_buffer_size st < 2 ^ 32)
      (sweep_counts n s0 st) ->
    heap_free st' + buffer_bytes st' = heap_free st + buffer_bytes st.
Proof.
  induction n as [|n IH]; intros s0 st st' Hrun Hon Hwf Hs0 Hn Hfit.
  - injection Hrun as <-. reflexivity.
  - cbn [source_loop sweep_counts] in *.
    destruct (source_tick s0 st) as [st1|] eqn:Htick; [|discriminate].
    cbn [bind] in Hrun. apply Forall_cons in Hfit as [Hc0 Hrest].
    destruct (source_tick_bits _ _ _ Htick Hon Hwf) as
      (Hwf1 & Ef & Ew & Ez & _); [lia | exact Hc0 |].
    rewrite (IH (s0 + 1) st1 st' Hrun);
      [| rewrite Ef; exact Hon | exact Hwf1 | lia | rewrite Ew; lia
       | rewrite Ez; exact Hrest].
    destruct (source_tick_buffer _ _ _ Htick) as (st0 & stm & H0 & Hm & H1).
    rewrite (buffer_bytes_view _ _ H1), <- (buffer_bytes_view _ _ H0).
    pose proof (buffer_view_fields _ _ H0) as (_ & _ & _ & _ & Ez0 & _).
    destruct (0 <? spikes_generated s0 st).
    + apply (mark_spike_heap _ _ _ _ Hm).
      * exact (wf_buffer_view _ _ (eq_sym H0) Hwf).
      * rewrite Ez0. exact Hc0.
    + injection Hm as <-. reflexivity.
Qed.

(** X8. The heap and the buffer: over a tick with recording on that does
    not trap, the free bytes of the heap and the bytes of the recording
    buffer add up to the same number before and after; a reallocation
    gives the old block back. *)
Theorem timer_callback_heap t1 st st' :
  timer_callback t1 st = Ok st' ->
  0 < recording_flags st ->
  wf_buffer st ->
  n_spike_sources (parameters st) <= 32 * n_spike_buffer_words st ->
  Forall (fun c => 8 + c * spike_buffer_size st < 2 ^ 32)
    (sweep_counts (Z.to_nat (n_spike_sources (parameters st))) 0
       (sweep_start t1 st)) ->
  heap_free st' + buffer_bytes st' = heap_free st + buffer_bytes st.
Proof.
  intros Hrun Hon Hwf Hn Hfit. pose proof Hwf as (Hnw & _).
  unfold timer_callback in Hrun. destruct (_ && _).
  - unfold pause_tick, store_poisson_parameters in Hrun.
    cbn [parameters spike_source_array sdram set_time] in Hrun.
    destruct (0 <? n_spike_sources (parameters st)).
    + destruct (_ && _); [|discriminate]. cbn [bind] in Hrun.
      injection Hrun as <-. cbn [recording_flags emit set_sdram set_time].
      destruct (0 <? recording_flags st); reflexivity.
    + cbn [bind] in Hrun. injection Hrun as <-.
      cbn [recording_flags emit set_time].
      destruct (0 <? recording_flags st); reflexivity.
  - rewrite run_tick_sweep in Hrun.
    destruct (source_loop _ 0 (sweep_start t1 st)) as [st4|] eqn:Hl;
      [|discriminate].
    cbn [bind] in Hrun.
    assert (Hv : buffer_view (sweep_start t1 st) = buffer_view st)
      by reflexivity.
    pose proof (wf_buffer_view _ _ (eq_sym Hv) Hwf) as Hwf3.
    pose proof (source_loop_heap _ 0 _ _ Hl Hon Hwf3) as Hh.
    rewrite (buffer_bytes_view _ _ Hv) in Hh.
    rewrite <- Hh; [| lia | | exact Hfit].
    2:{ change (n_spike_buffer_words (sweep_start t1 st))
          with (n_spike_buffer_words st). lia. }
    assert (H5 : forall st5,
               (if 0 <? recording_flags st4
                then _record_spikes (time st4) st4 else Ok st4) = Ok st5 ->
               heap_free st5 + buffer_bytes st5
               = heap_free st4 + buffer_bytes st4).
    { intros st5. destruct (0 <? recording_flags st4);
        [|intros [= <-]; reflexivity].
      unfold _record_spikes, recording_complete_callback.
      cbn [spikes set_recording_in_progress].
      destruct (spikes st4) as [b|] eqn:Hsp.
      2:{ intros [= <-]. unfold buffer_bytes. cbn. rewrite Hsp.
          reflexivity. }
      destruct (0 <? n_buffers b).
      2:{ intros [= <-]. unfold buffer_bytes. cbn. rewrite Hsp.
          reflexivity. }
      destruct (_ <=? _)%nat; [|discriminate].
      unfold _reset_spikes. cbn [spikes emit set_spikes set_buffer].
      destruct (reset_loop _ _ _); [|discriminate]. cbn [bind].
      intros [= <-]. unfold buffer_bytes. cbn. rewrite Hsp. reflexivity. }
    destruct (if 0 <? recording_flags st4 then _ else _) as [st5|];
      [|discriminate].
    rewrite <- (H5 st5 eq_refl). cbn [bind] in Hrun. injection Hrun as <-.
    destruct (0 <? recording_flags st5); reflexivity.
Qed.

End Sweep.

(** ** Rate updates *)

Section RateUpdates.

Context {lib : Library}.

Lemma state_eta st : set_spike_source_array (spike_source_array st) st = st.
Proof. destruct st. reflexivity. Qed.

(** What one rate update can change. *)
Lemma set_rate_frame id rate st st' :
  set_spike_source_rate id rate st = Ok st' ->
  st' = set_spike_source_array (spike_source_array st') st
  /\ table_schedule st' = table_schedule st
  /\ forall i,
       i <> Z.to_nat (u32 (u32 id - first_source_id (parameters st))) ->
       spike_source_array st' !! i = spike_source_array st !! i.
Proof.
  unfold set_spike_source_rate.
  destruct (_ && _).
  - destruct (load (spike_source_array st) _) as [src|] eqn:Hld;
      [|discriminate].
    cbn [bind]. erewrite store_Ok by exact Hld. cbn [bind].
    intros [= <-]. split; [reflexivity|]. unfold table_schedule.
    cbn [spike_source_array set_spike_source_array].
    split.
    + apply (map_insert_same source_schedule _ _ src _ (load_Some _ _ _ Hld)).
      destruct (_ <? _); reflexivity.
    + intros i Hi. apply list_lookup_insert_ne. congruence.
  - intros [= <-]. rewrite state_eta. repeat split.
Qed.

(** X9. A rate update, from the fabric or from the host: it changes
    nothing but the source table, and in the table neither the window nor
    the time to spike of any source, nor any field of a source that the
    message does not name. *)
Theorem rate_updates_keep_schedule :
  (forall mc_key payload st st',
     multicast_packet_callback mc_key payload st = Ok st' ->
     st' = set_spike_source_array (spike_source_array st') st
     /\ table_schedule st' = table_schedule st
     /\ forall i,
          i <> Z.to_nat
                 (u32 (u32 (Z.land (u32 mc_key)
                              (set_rate_neuron_id_mask (parameters st)))
                       - first_source_id (parameters st))) ->
          spike_source_array st' !! i = spike_source_array st !! i)
  /\ (forall items st st',
        sdp_packet_callback items st = Ok st' ->
        st' = set_spike_source_array (spike_source_array st') st
        /\ table_schedule st' = table_schedule st
        /\ forall i,
             (forall id w,
                In (id, w) items ->
                i <> Z.to_nat
                       (u32 (u32 id - first_source_id (parameters st)))) ->
             spike_source_array st' !! i = spike_source_array st !! i).
Proof.
  split.
  - intros mc_key payload st st'. unfold multicast_packet_callback.
    apply set_rate_frame.
  - unfold sdp_packet_callback. intros items.
    induction items as [|[id w] items IH]; intros st st' Hrun.
    + injection Hrun as <-. rewrite state_eta. repeat split.
    + cbn [sdp_items] in Hrun.
      destruct (set_spike_source_rate id (kbits w) st) as [st1|] eqn:H1;
        [|discriminate].
      cbn [bind] in Hrun.
      destruct (set_rate_frame _ _ _ _ H1) as (E1 & S1 & O1).
      destruct (IH _ _ Hrun) as (E2 & S2 & O2).
      assert (Hp : parameters st1 = parameters st)
        by (rewrite E1; reflexivity).
      split; [rewrite E2, E1; reflexivity|].
      split; [congruence|].
      intros i Hi. rewrite O2, O1.
      * reflexivity.
      * apply (Hi id w). left. reflexivity.
      * intros id' w' Hin. rewrite Hp. apply (Hi id' w'). right. exact Hin.
Qed.

End RateUpdates.

(** ** Loading, start and resume *)

Section StartProps.

Context {lib : Library} {slib : StartLibrary}.

(** A reload into a table that is already allocated, or of no source. *)
Lemma read_poisson_parameters_reload st :
  Z.of_nat (length (spike_source_array st))
  = n_spike_sources (sdram_parameters (sdram st)) ->
  n_spike_sources (sdram_parameters (sdram st)) * sizeof_spike_source_t
    < 2 ^ 32 ->
  n_spike_sources (sdram_parameters (sdram st))
    <= Z.of_nat (length (sdram_sources (sdram st))) ->
  read_poisson_parameters st
  = Ok (true,
        set_spike_source_array
          (take (length (spike_source_array st)) (sdram_sources (sdram st)))
          (set_parameters
             (set_seed
                (validate_mars_kiss64_seed
                   (spike_source_seed (sdram_parameters (sdram st))))
                (sdram_parameters (sdram st))) st)).
Proof.
  intros Hlen Hfit Hsd. unfold read_poisson_parameters.
  cbn [n_spike_sources set_seed spike_source_array set_parameters sdram].
  destruct (Z.ltb_spec 0 (n_spike_sources (sdram_parameters (sdram st))))
    as [Hpos|Hzero].
  - rewrite u32_small by (unfold sizeof_spike_source_t in *; lia).
    unfold sizeof_spike_source_t. rewrite Z.div_mul by lia.
    rewrite <- Hlen, Nat2Z.id.
    destruct (spike_source_array st) as [|x a] eqn:Ha;
      [cbn in Hlen; lia|].
    rewrite <- Ha in *. rewrite Nat.leb_refl.
    destruct (Nat.leb_spec (length (spike_source_array st))
                (length (sdram_sources (sdram st)))); [|lia].
    cbn [andb]. rewrite drop_all, app_nil_r. rewrite Ha. reflexivity.
  - destruct (spike_source_array st) as [|x a] eqn:Ha;
      [|cbn in Hlen; lia].
    cbn [length take]. destruct st; cbn in *. rewrite Ha. reflexivity.
Qed.

(** X10. Pause and resume: at the end of a run whose source count the host
    has left alone, the handler saves the table, and the resume hook reads
    back the same records into the same allocation; the tick counter is
    the one before the pause, so the same tick is processed next; the
    parameters, the seed included, are those of the shared region, and the
    recording buffer is kept. *)
Theorem pause_resume_round_trip t1 st :
  0 <= time st < 2 ^ 32 ->
  infinite_run st <> TRUE ->
  simulation_ticks st <= u32 (time st + 1) ->
  wf_sources st ->
  n_spike_sources (parameters st)
    <= Z.of_nat (length (sdram_sources (sdram st))) ->
  n_spike_sources (sdram_parameters (sdram st))
  = n_spike_sources (parameters st) ->
  n_spike_sources (parameters st) * sizeof_spike_source_t < 2 ^ 32 ->
  exists st1 st2,
    timer_callback t1 st = Ok st1
    /\ resume_callback st1 = Ok (st2, [CallRecordingReset])
    /\ spike_source_array st2 = spike_source_array st
    /\ time st2 = time st
    /\ parameters st2
       = set_seed
           (validate_mars_kiss64_seed
              (spike_source_seed (sdram_parameters (sdram st))))
           (sdram_parameters (sdram st))
    /\ spikes st2 = spikes st
    /\ n_spike_buffers_allocated st2 = n_spike_buffers_allocated st
    /\ heap_free st2 = heap_free st.
Proof.
  intros Ht Hfin Hend Hwf Hsd Hsame Hfit. unfold timer_callback.
  cbn [infinite_run simulation_ticks time set_time].
  apply Z.eqb_neq in Hfin. rewrite Hfin.
  apply Z.leb_le in Hend. rewrite Hend. cbn [negb andb].
  unfold pause_tick. rewrite store_poisson_parameters_Ok by assumption.
  cbn [bind]. eexists. eexists. split; [reflexivity|].
  unfold resume_callback.
  rewrite read_poisson_parameters_reload.
  - cbn [bind fst snd]. split; [reflexivity|].
    cbn [recording_flags emit set_sdram set_time].
    destruct (0 <? recording_flags st); cbn -[u32 Z.pow];
      rewrite u32_pred_succ by exact Ht;
      rewrite take_app_length; repeat split.
  - cbn [recording_flags emit set_sdram set_time].
    destruct (0 <? recording_flags st); cbn; rewrite Hsame; exact Hwf.
  - cbn [recording_flags emit set_sdram set_time].
    destruct (0 <? recording_flags st); cbn; rewrite Hsame; exact Hfit.
  - cbn [recording_flags emit set_sdram set_time].
    unfold wf_sources in Hwf.
    destruct (0 <? recording_flags st); cbn; rewrite Hsame, length_app,
      length_drop; lia.
Qed.


(** X11. The table is allocated once.  A resume finds the table of the
    start and copies the [n_spike_sources] records that the region now
    announces over it, without a new allocation: with no more sources
    than the table has records the rest of the table is kept as it is,
    and the heap is untouched; with more, the copy runs over the end of
    the table. *)
Theorem resume_keeps_allocation st :
  spike_source_array st <> [] ->
  0 < n_spike_sources (sdram_parameters (sdram st)) ->
  n_spike_sources (sdram_parameters (sdram st)) * sizeof_spike_source_t
    < 2 ^ 32 ->
  n_spike_sources (sdram_parameters (sdram st))
    <= Z.of_nat (length (sdram_sources (sdram st))) ->
  (n_spike_sources (sdram_parameters (sdram st))
     <= Z.of_nat (length (spike_source_array st)) ->
   exists st',
     resume_callback st = Ok (st', [CallRecordingReset])
     /\ spike_source_array st'
        = take (Z.to_nat (n_spike_sources (sdram_parameters (sdram st))))
            (sdram_sources (sdram st))
          ++ drop (Z.to_nat (n_spike_sources (sdram_parameters (sdram st))))
               (spike_source_array st)
     /\ length (spike_source_array st') = length (spike_source_array st)
     /\ heap_free st' = heap_free st)
  /\ (Z.of_nat (length (spike_source_array st))
        < n_spike_sources (sdram_parameters (sdram st)) ->
      resume_callback st = Fail BadAccess).
Proof.
  intros Ha Hpos Hfit Hsd.
  unfold resume_callback, read_poisson_parameters.
  cbn [n_spike_sources set_seed spike_source_array set_parameters sdram].
  apply Z.ltb_lt in Hpos. rewrite Hpos.
  rewrite u32_small by (unfold sizeof_spike_source_t in *; lia).
  unfold sizeof_spike_source_t. rewrite Z.div_mul by lia.
  destruct (spike_source_array st) as [|x a] eqn:Harr; [congruence|].
  rewrite <- Harr.
  destruct (Nat.leb_spec
              (Z.to_nat (n_spike_sources (sdram_parameters (sdram st))))
              (length (sdram_sources (sdram st)))); [|lia].
  cbn [andb]. split; intros Hn.
  - destruct (Nat.leb_spec
                (Z.to_nat (n_spike_sources (sdram_parameters (sdram st))))
                (length (spike_source_array st))); [|lia].
    cbn [bind fst snd]. eexists. split; [reflexivity|].
    cbn [spike_source_array set_spike_source_array heap_free
         set_parameters].
    split; [reflexivity|]. split; [|reflexivity].
    rewrite length_app, length_take, length_drop. lia.
  - destruct (Nat.leb_spec
                (Z.to_nat (n_spike_sources (sdram_parameters (sdram st))))
                (length (spike_source_array st))); [lia|].
    reflexivity.
Qed.





(** X13. Start-up errors: [c_main] raises the software error, and enters no
    run, when the header is not read, when the simulation interface or the
    recording subsystem refuses, or when the heap cannot hold the table of
    the sources. *)
Theorem c_main_fails boot m heap :
  header_ok boot = false
  \/ simulation_init boot = None
  \/ fst (recording_init boot) = false
  \/ (0 < n_spike_sources (sdram_parameters m)
      /\ heap < u32 (n_spike_sources (sdram_parameters m)
                     * sizeof_spike_source_t)) ->
  c_main boot (power_on m heap) = Fail RTE_SWERR.
Proof.
  intros H. unfold c_main, initialize.
  destruct (header_ok boot); [|reflexivity].
  destruct (simulation_init boot) as [[[period ticks] infinite]|];
    [|reflexivity].
  destruct (fst (recording_init boot)) eqn:Hrec; [|reflexivity].
  destruct H as [H|[H|[H|[Hpos Hheap]]]]; try discriminate.
  cbn [negb]. unfold read_poisson_parameters.
  cbn [n_spike_sources set_seed spike_source_array set_parameters sdram
       heap_free set_recording_flags set_simulation power_on].
  apply Z.ltb_lt in Hpos, Hheap. rewrite Hpos, Hheap. reflexivity.
Qed.

(** X14. The invariant of the tick is kept by every tick that returns: the
    table keeps one record per source, the buffer keeps its layout with no
    layer in use and every allocated layer zero, and without recording no
    buffer is allocated. *)
Theorem timer_callback_keeps_core_inv t1 st st' :
  core_inv st ->
  Forall (fun c => 8 + c * spike_buffer_size st < 2 ^ 32)
    (sweep_counts (Z.to_nat (n_spike_sources (parameters st))) 0
       (sweep_start t1 st)) ->
  timer_callback t1 st = Ok st' ->
  core_inv st'.
Proof.
  intros (Hwf & Hbuf & Hcap & Hflags & Hreset & Hoff) Hcounts Hrun.
  pose proof (timer_callback_static _ _ _ Hrun) as Hstatic.
  pose proof (static_view_sources _ _ Hstatic) as Hlen.
  apply static_view_fields in Hstatic.
  destruct Hstatic as (Hp & _ & _ & _ & _ & _ & Hf & Hw & Hsz & _).
  apply fixed_parameters_key in Hp. destruct Hp as (_ & _ & Hn & _).
  cbn in Hlen, Hn, Hf, Hw, Hsz.
  assert (Hrec : wf_buffer st' /\ buffer_reset st'
                 /\ (recording_flags st = 0 -> spikes st' = None)).
  { destruct (Z.eq_dec (recording_flags st) 0) as [Hz|Hnz].
    - destruct (timer_callback_paired st t1 st st st' Hz (paired_refl st)
                  Hrun) as (b' & Hrun' & _ & Hview).
      rewrite Hrun in Hrun'. injection Hrun' as <-.
      unfold recording_view in Hview.
      assert (Hb : buffer_view st' = buffer_view st)
        by (unfold buffer_view; congruence).
      assert (Hsp : spikes st' = spikes st) by congruence.
      split; [|split].
      + apply (wf_buffer_view st); [symmetry; exact Hb|exact Hbuf].
      + unfold buffer_reset, n_layers, layers_zero_from in *.
        rewrite Hsp, Hw. exact Hreset.
      + intros _. rewrite Hsp. apply Hoff, Hz.
    - destruct (timer_callback_keeps_reset t1 st st' Hrun) as [H1 H2];
        try assumption; [lia|].
      split; [exact H1|]. split; [exact H2|]. intros Hz. contradiction. }
  destruct Hrec as (Hbuf' & Hreset' & Hoff').
  unfold core_inv, wf_sources. rewrite Hlen, Hn, Hw, Hf.
  repeat split; try assumption; try apply Hbuf'; try apply Hreset'.
Qed.

Lemma core_inv_table a st :
  length a = length (spike_source_array st) ->
  core_inv st -> core_inv (set_spike_source_array a st).
Proof.
  intros Hlen (Hwf & Hrest). split; [|exact Hrest].
  unfold wf_sources in *. cbn. rewrite Hlen. exact Hwf.
Qed.

(** The range check of the rate update guards the access to the table. *)
Lemma set_rate_safe id rate st :
  core_inv st ->
  exists st', set_spike_source_rate id rate st = Ok st' /\ core_inv st'.
Proof.
  intros Hinv. pose proof Hinv as (Hwf & _). unfold wf_sources in Hwf.
  unfold set_spike_source_rate.
  destruct (_ && _) eqn:Hguard; [|exists st; split; [reflexivity|exact Hinv]].
  apply andb_prop in Hguard. destruct Hguard as [_ Hlt].
  apply Z.ltb_lt in Hlt.
  pose proof (u32_range (u32 id - first_source_id (parameters st))) as Hr.
  destruct (lookup_lt_is_Some_2 (spike_source_array st)
              (Z.to_nat (u32 (u32 id - first_source_id (parameters st)))))
    as [src Hsrc]; [lia|].
  assert (Hld : load (spike_source_array st)
                  (u32 (u32 id - first_source_id (parameters st))) = Ok src)
    by (unfold load; rewrite Hsrc; reflexivity).
  rewrite Hld. cbn [bind]. erewrite store_Ok by exact Hld. cbn [bind].
  eexists. split; [reflexivity|].
  apply core_inv_table; [|exact Hinv]. apply length_insert.
Qed.

(** X15. A rate update is safe and keeps the invariant of the tick: whatever
    id and rate arrive, from the fabric or in a message of the host with
    any number of items, the callback returns without an access outside
    the table, and the table keeps one record per source. *)
Theorem rate_updates_safe st :
  core_inv st ->
  (forall mc_key payload,
     exists st',
       multicast_packet_callback mc_key payload st = Ok st' /\ core_inv st')
  /\ (forall items,
        exists st', sdp_packet_callback items st = Ok st' /\ core_inv st').
Proof.
  intros Hinv. split.
  - intros mc_key payload. unfold multicast_packet_callback.
    apply set_rate_safe, Hinv.
  - intros items. unfold sdp_packet_callback. revert st Hinv.
    induction items as [|[id w] items IH]; intros st Hinv.
    + exists st. split; [reflexivity|exact Hinv].
    + cbn [sdp_items].
      destruct (set_rate_safe id (kbits w) st Hinv) as (st1 & H1 & Hinv1).
      rewrite H1. cbn [bind]. apply IH, Hinv1.
Qed.

End StartProps.

(** ** When the tick returns, and when it stops the core *)

Section Returns.

Context {lib : Library}.

Lemma fast_buffer_view eml st :
  buffer_view (snd (fast_spike_source_get_num_spikes eml st))
  = buffer_view st.
Proof.
  unfold fast_spike_source_get_num_spikes.
  destruct (_ =? _); [reflexivity|].
  destruct (poisson_dist_variate_exp_minus_lambda _ _). reflexivity.
Qed.








Lemma source_loop_app k :
  forall m s0 st,
    source_loop (k + m) s0 st
    = (let! stk := source_loop k s0 st in
       source_loop m (s0 + Z.of_nat k) stk).
Proof.
  induction k as [|k IH]; intros m s0 st.
  - cbn [source_loop bind Nat.add]. rewrite Z.add_0_r. reflexivity.
  - cbn [source_loop Nat.add]. destruct (source_tick s0 st) as [st1|];
      [|reflexivity].
    cbn [bind]. rewrite IH. replace (s0 + 1 + Z.of_nat k)
      with (s0 + Z.of_nat (S k)) by lia.
    reflexivity.
Qed.

(** The pass over a source whose spikes need a larger buffer than the heap
    can give. *)
Lemma source_tick_out_of_memory s st :
  0 < recording_flags st ->
  wf_buffer st ->
  n_spike_buffers_allocated st < spikes_generated s st ->
  8 + spikes_generated s st * spike_buffer_size st < 2 ^ 32 ->
  heap_free st < 8 + spikes_generated s st * spike_buffer_size st ->
  source_tick s st = Fail RTE_SWERR.
Proof.
  intros Hon Hwf Hgrow Hfit Hheap.
  pose proof Hwf as (Hnw & Hsz & Hna & _).
  assert (Hm : forall k st1,
             buffer_view st1 = buffer_view st ->
             n_spike_buffers_allocated st < k ->
             8 + k * spike_buffer_size st < 2 ^ 32 ->
             heap_free st < 8 + k * spike_buffer_size st ->
             _mark_spike s k st1 = Fail RTE_SWERR).
  { intros k st1 Hv Hk Hkfit Hkheap.
    apply buffer_view_fields in Hv as (Ef & _ & En & _ & Ez & Eh).
    unfold _mark_spike. rewrite Ef, En.
    apply Z.ltb_lt in Hon. rewrite Hon.
    destruct (Z.ltb_spec (n_spike_buffers_allocated st) k); [|lia].
    unfold grow_spikes. rewrite Ez, Eh.
    rewrite (u32_small (k * _)) by nia.
    rewrite (u32_small (8 + k * _)) by nia.
    destruct (Z.ltb_spec (heap_free st) (8 + k * spike_buffer_size st));
      [reflexivity|lia]. }
  unfold spikes_generated in Hgrow, Hfit, Hheap. unfold source_tick.
  destruct (load (spike_source_array st) s) as [src|]; [|lia].
  cbn [bind]. destruct (is_fast_source src).
  - destruct (active_this_tick src st); [|lia].
    pose proof (fast_buffer_view (exp_minus_lambda src) st) as Hv.
    destruct (fast_spike_source_get_num_spikes (exp_minus_lambda src) st)
      as [k st1].
    cbn [fst snd] in *.
    destruct (Z.ltb_spec 0 k); [|lia].
    rewrite (Hm k st1 Hv Hgrow Hfit Hheap). reflexivity.
  - destruct (active_this_tick src st && negb (mean_isi_ticks src =? 0));
      cbn [andb] in Hgrow, Hfit, Hheap; [|lia].
    destruct (time_to_spike_ticks src <=? 0); [|lia].
    rewrite (Hm 1 st eq_refl Hgrow Hfit Hheap). reflexivity.
Qed.

(** X17. Out of memory: on a tick inside the run, with recording on, when
    the sweep has passed the first [k] sources and the next one generates
    more spikes than there are layers allocated while the heap has not the
    room for the larger buffer, the tick stops the core with the software
    error; the old buffer is not given back first. *)
Theorem timer_callback_out_of_memory t1 st k stk :
  infinite_run st = TRUE \/ u32 (time st + 1) < simulation_ticks st ->
  (k < Z.to_nat (n_spike_sources (parameters st)))%nat ->
  source_loop k 0 (sweep_start t1 st) = Ok stk ->
  0 < recording_flags st ->
  wf_buffer stk ->
  n_spike_buffers_allocated stk < spikes_generated (Z.of_nat k) stk ->
  8 + spikes_generated (Z.of_nat k) stk * spike_buffer_size stk < 2 ^ 32 ->
  heap_free stk
    < 8 + spikes_generated (Z.of_nat k) stk * spike_buffer_size stk ->
  timer_callback t1 st = Fail RTE_SWERR.
Proof.
  intros Hrun Hk Hloop Hon Hwf Hgrow Hfit Hheap.
  unfold timer_callback. cbn [infinite_run simulation_ticks time set_time].
  replace (negb (infinite_run st =? TRUE)
           && (simulation_ticks st <=? u32 (time st + 1))) with false.
  2:{ destruct Hrun as [Hinf|Hlt].
      - rewrite Hinf. reflexivity.
      - destruct (Z.leb_spec (simulation_ticks st) (u32 (time st + 1)));
          [lia|]. rewrite andb_false_r. reflexivity. }
  rewrite run_tick_sweep.
  replace (Z.to_nat (n_spike_sources (parameters st)))
    with (k + S (Z.to_nat (n_spike_sources (parameters st)) - S k))%nat
    by lia.
  rewrite source_loop_app, Hloop. cbn [bind source_loop Z.add].
  rewrite source_tick_out_of_memory; try assumption; [reflexivity|].
  apply source_loop_static, static_view_fields in Hloop
    as (_ & _ & _ & _ & _ & _ & Ef & _).
  rewrite Ef. exact Hon.
Qed.

(** ** The deadline of the packets *)

Lemma send_loop_deadline n k st :
  0 <= expected_time st < 2 ^ 32 ->
  expected_time (send_loop n k st)
  = u32 (expected_time st - Z.of_nat n * time_between_spikes st)
  /\ time_between_spikes (send_loop n k st) = time_between_spikes st.
Proof.
  revert st. induction n as [|n IH]; intros st He.
  - cbn [send_loop Z.of_nat Z.mul]. rewrite Z.sub_0_r, u32_small by exact He.
    split; reflexivity.
  - cbn [send_loop]. destruct (IH (_send_spike k st)) as [-> ->].
    + cbn [_send_spike expected_time emit set_expected_time].
      apply u32_range.
    + cbn [_send_spike expected_time time_between_spikes emit
           set_expected_time].
      split; [|reflexivity]. unfold u32. rewrite Zminus_mod_idemp_l.
      f_equal. lia.
Qed.

Lemma update_time_to_spike_deadline s f a b :
  update_time_to_spike s f a = Ok b ->
  expected_time b = expected_time a.
Proof.
  unfold update_time_to_spike.
  destruct (load (spike_source_array a) s) as [x|]; [|discriminate].
  cbn [bind]. destruct (store (spike_source_array a) s _); [|discriminate].
  cbn [bind]. intros [= <-]. reflexivity.
Qed.

(** The deadline after the pass over one source. *)
Lemma source_tick_deadline s st st' :
  source_tick s st = Ok st' ->
  0 <= expected_time st < 2 ^ 32 ->
  expected_time st'
  = u32 (expected_time st
         - (if has_key (parameters st) then spikes_generated s st else 0)
           * time_between_spikes st).
Proof.
  intros Hrun He.
  assert (Hnil : expected_time st
                 = u32 (expected_time st
                        - (if has_key (parameters st) then 0 else 0)
                          * time_between_spikes st)).
  { destruct (has_key _); rewrite Z.mul_0_l, Z.sub_0_r, u32_small;
      (reflexivity || exact He). }
  revert Hrun. unfold source_tick, spikes_generated.
  destruct (load (spike_source_array st) s) as [src|] eqn:Hld; [|discriminate].
  cbn [bind]. destruct (is_fast_source src) eqn:Hfast.
  - destruct (active_this_tick src st); [|intros [= <-]; exact Hnil].
    assert (Hf : expected_time (snd (fast_spike_source_get_num_spikes
                                       (exp_minus_lambda src) st))
                 = expected_time st
                 /\ time_between_spikes
                      (snd (fast_spike_source_get_num_spikes
                              (exp_minus_lambda src) st))
                    = time_between_spikes st
                 /\ has_key (parameters
                               (snd (fast_spike_source_get_num_spikes
                                       (exp_minus_lambda src) st)))
                    = has_key (parameters st)
                 /\ 0 <= fst (fast_spike_source_get_num_spikes
                                (exp_minus_lambda src) st)).
    { unfold fast_spike_source_get_num_spikes. destruct (_ =? _);
        [repeat split; cbn; lia|].
      destruct (poisson_dist_variate_exp_minus_lambda _ _) as [k sd].
      repeat split. cbn [fst]. apply u32_range. }
    destruct (fast_spike_source_get_num_spikes (exp_minus_lambda src) st)
      as [k st1].
    cbn [fst snd] in *. destruct Hf as (Ht & Hb & Hk1 & Hk0).
    destruct (Z.ltb_spec 0 k) as [Hpos|Hzero].
    + destruct (_mark_spike s k st1) as [stm|] eqn:Hm; [|discriminate].
      cbn [bind]. pose proof (mark_spike_frame _ _ _ _ Hm) as Hfr.
      assert (Hp : parameters stm = parameters st1
                   /\ expected_time stm = expected_time st1
                   /\ time_between_spikes stm = time_between_spikes st1)
        by (rewrite Hfr; repeat split; reflexivity).
      destruct Hp as (Hp & Ht' & Hb'). rewrite Hp, Hk1.
      destruct (has_key (parameters st)); intros [= <-].
      * destruct (send_loop_deadline (Z.to_nat k)
                    (Z.lor (key (parameters st1)) s) stm) as [-> _].
        -- rewrite Ht', Ht. exact He.
        -- rewrite Ht', Ht, Hb', Hb. f_equal. lia.
      * rewrite Ht', Ht, Z.mul_0_l, Z.sub_0_r, u32_small;
          (reflexivity || exact He).
    + intros [= <-]. rewrite Ht.
      destruct (has_key (parameters st));
        [|rewrite Z.mul_0_l, Z.sub_0_r, u32_small;
          (reflexivity || exact He)].
      replace k with 0 by lia.
      rewrite Z.mul_0_l, Z.sub_0_r, u32_small; (reflexivity || exact He).
  - destruct (active_this_tick src st && negb (mean_isi_ticks src =? 0));
      [|intros [= <-]; exact Hnil].
    cbn [andb].
    destruct (time_to_spike_ticks src <=? 0).
    + destruct (_mark_spike s 1 st) as [st1|] eqn:Hm; [|discriminate].
      cbn [bind]. pose proof (mark_spike_frame _ _ _ _ Hm) as Hfr.
      assert (Hp : parameters st1 = parameters st
                   /\ expected_time st1 = expected_time st
                   /\ time_between_spikes st1 = time_between_spikes st)
        by (rewrite Hfr; repeat split; reflexivity).
      destruct Hp as (Hp & Ht1 & Hb1). rewrite Hp.
      set (st2 := if has_key (parameters st) then _ else st1).
      assert (Ht2 : expected_time st2
                    = u32 (expected_time st
                           - (if has_key (parameters st) then 1 else 0)
                             * time_between_spikes st)).
      { subst st2. destruct (has_key (parameters st)).
        - cbn [_send_spike expected_time emit set_expected_time].
          rewrite Ht1, Hb1. f_equal. lia.
        - rewrite Ht1, Z.mul_0_l, Z.sub_0_r, u32_small;
            (reflexivity || exact He). }
      clearbody st2.
      assert (Ht3 : expected_time
                      (snd (slow_spike_source_get_time_to_spike
                              (mean_isi_ticks src) st2))
                    = expected_time st2).
      { unfold slow_spike_source_get_time_to_spike.
        destruct (exponential_dist_variate _). reflexivity. }
      destruct (slow_spike_source_get_time_to_spike _ st2) as [isi st3].
      cbn [snd] in Ht3.
      destruct (update_time_to_spike s _ st3) as [st4|] eqn:Hu4;
        [|discriminate].
      cbn [bind]. intros Hu5.
      apply update_time_to_spike_deadline in Hu4, Hu5. congruence.
    + cbn [bind]. intros Hu5.
      apply update_time_to_spike_deadline in Hu5. rewrite Hu5. exact Hnil.
Qed.

Lemma source_loop_deadline n :
  forall s0 st st',
    source_loop n s0 st = Ok st' ->
    0 <= expected_time st < 2 ^ 32 ->
    expected_time st'
    = u32 (expected_time st
           - (if has_key (parameters st)
              then fold_right Z.add 0 (sweep_counts n s0 st) else 0)
             * time_between_spikes st).
Proof.
  induction n as [|n IH]; intros s0 st st' Hrun He.
  - injection Hrun as <-. cbn [sweep_counts fold_right].
    destruct (has_key _); rewrite Z.mul_0_l, Z.sub_0_r, u32_small;
      (reflexivity || exact He).
  - cbn [source_loop sweep_counts] in *.
    destruct (source_tick s0 st) as [st1|] eqn:Ht; [|discriminate].
    cbn [bind] in Hrun.
    pose proof (source_tick_deadline _ _ _ Ht He) as H1.
    rewrite (IH _ _ _ Hrun) by (rewrite H1; apply u32_range).
    apply source_tick_static, static_view_fields in Ht
      as (Hp & _ & _ & _ & _ & Hb & _).
    apply fixed_parameters_key in Hp as (-> & _).
    rewrite Hb, H1. unfold u32. rewrite Zminus_mod_idemp_l. f_equal.
    destruct (has_key (parameters st)); cbn [fold_right]; lia.
Qed.

Lemma record_spikes_deadline t st st' :
  _record_spikes t st = Ok st' -> expected_time st' = expected_time st.
Proof.
  unfold _record_spikes, recording_complete_callback.
  cbn [spikes set_recording_in_progress].
  destruct (spikes st) as [b|]; [|intros [= <-]; reflexivity].
  destruct (0 <? n_buffers b); [|intros [= <-]; reflexivity].
  destruct (_ <=? _)%nat; [|discriminate].
  unfold _reset_spikes. cbn [spikes emit set_spikes set_buffer].
  destruct (reset_loop _ _ _); [|discriminate]. cbn [bind].
  intros [= <-]. reflexivity.
Qed.

(** X18. The deadline of the packets: a tick inside the run sets the
    deadline to the timer count less one [time_between_spikes], and every
    packet it sends moves it by one more; [time_between_spikes] is the
    static variable, which the tick does not change, and not the field of
    that name in the parameters. *)
Theorem timer_callback_deadline t1 st st' :
  timer_callback t1 st = Ok st' ->
  infinite_run st = TRUE \/ u32 (time st + 1) < simulation_ticks st ->
  expected_time st'
  = u32 (t1
         - (1 + (if has_key (parameters st)
                 then fold_right Z.add 0
                        (sweep_counts
                           (Z.to_nat (n_spike_sources (parameters st))) 0
                           (sweep_start t1 st))
                 else 0))
           * time_between_spikes st).
Proof.
  intros Hcall Hrun. revert Hcall.
  unfold timer_callback. cbn [infinite_run simulation_ticks time set_time].
  replace (negb (infinite_run st =? TRUE)
           && (simulation_ticks st <=? u32 (time st + 1))) with false.
  2:{ destruct Hrun as [Hinf|Hlt].
      - rewrite Hinf. reflexivity.
      - destruct (Z.leb_spec (simulation_ticks st) (u32 (time st + 1)));
          [lia|]. rewrite andb_false_r. reflexivity. }
  rewrite run_tick_sweep.
  destruct (source_loop _ 0 (sweep_start t1 st)) as [st4|] eqn:Hl;
    [|discriminate].
  cbn [bind].
  pose proof (source_loop_deadline _ _ _ _ Hl) as H4.
  change (expected_time (sweep_start t1 st))
    with (u32 (t1 - time_between_spikes st)) in H4.
  change (parameters (sweep_start t1 st)) with (parameters st) in H4.
  change (time_between_spikes (sweep_start t1 st))
    with (time_between_spikes st) in H4.
  specialize (H4 (u32_range _)).
  assert (H5 : forall st5,
             (if 0 <? recording_flags st4
              then _record_spikes (time st4) st4 else Ok st4) = Ok st5 ->
             expected_time st5 = expected_time st4).
  { intros st5. destruct (0 <? recording_flags st4);
      [apply record_spikes_deadline|intros [= <-]; reflexivity]. }
  destruct (if 0 <? recording_flags st4 then _ else _) as [st5|];
    [|discriminate].
  cbn [bind]. intros [= <-].
  replace (expected_time (if 0 <? recording_flags st5 then _ else st5))
    with (expected_time st5) by (destruct (0 <? _); reflexivity).
  rewrite (H5 st5 eq_refl), H4. unfold u32. rewrite Zminus_mod_idemp_l.
  f_equal. lia.
Qed.

End Returns.


(** ** What a rate update does to the source *)

Section Silence.

Context {lib : Library}.

Lemma map_lookup {A B : Type} (g : A -> B) (l : list A) (i : nat) :
  List.map g l !! i = option_map g (l !! i).
Proof.
  revert i. induction l as [|x l IH]; intros [|i]; cbn; auto.
Qed.

Lemma silent_tick i t1 st st' :
  timer_callback t1 st = Ok st' ->
  0 <= slow_rate_per_tick_cutoff (parameters st) /\ silent_at i st ->
  0 <= slow_rate_per_tick_cutoff (parameters st') /\ silent_at i st'.
Proof.
  intros Hrun [Hcut (src & Hsrc & Hslow & Hisi)].
  apply timer_callback_static, static_view_fields in Hrun
    as (Hp & Hshape & _).
  cbn [parameters set_sdram set_time] in Hp.
  unfold table_shape in Hshape.
  cbn [spike_source_array set_sdram set_time] in Hshape.
  split.
  - replace (slow_rate_per_tick_cutoff (parameters st'))
      with (slow_rate_per_tick_cutoff (fixed_parameters (parameters st')))
      by reflexivity.
    rewrite Hp. exact Hcut.
  - assert (Hl : List.map source_shape (spike_source_array st') !! i
                 = Some (source_shape src)).
    { rewrite Hshape, map_lookup, Hsrc. reflexivity. }
    rewrite map_lookup in Hl.
    destruct (spike_source_array st' !! i) as [src'|] eqn:Hsrc';
      [|discriminate].
    cbn in Hl. injection Hl as _ _ Hf _ Hm _.
    exists src'. split; [exact Hsrc'|]. split; congruence.
Qed.

Lemma silent_rate i id rate st st' :
  set_spike_source_rate id rate st = Ok st' ->
  0 <= slow_rate_per_tick_cutoff (parameters st) /\ silent_at i st ->
  0 <= slow_rate_per_tick_cutoff (parameters st') /\ silent_at i st'.
Proof.
  intros Hrun [Hcut Hsil].
  destruct ((first_source_id (parameters st) <=? u32 id)
            && (u32 (u32 id - first_source_id (parameters st))
                <? n_spike_sources (parameters st))) eqn:Hguard.
  - pose proof Hguard as Hg. apply andb_prop in Hguard as [Hlo Hhi].
    apply Z.leb_le in Hlo. apply Z.ltb_lt in Hhi.
    destruct (load (spike_source_array st)
                (u32 (u32 id - first_source_id (parameters st))))
      as [src0|] eqn:Hld.
    + rewrite (set_rate_in_range id rate st src0 Hlo Hhi Hld) in Hrun.
      injection Hrun as <-.
      cbn [parameters spike_source_array set_spike_source_array].
      split; [exact Hcut|].
      destruct (Z.ltb_spec (slow_rate_per_tick_cutoff (parameters st)) 0);
        [lia|].
      unfold silent_at.
      cbn [parameters spike_source_array set_spike_source_array].
      destruct (Nat.eq_dec i
                  (Z.to_nat (u32 (u32 id - first_source_id (parameters st)))))
        as [->|Hne].
      * exists (set_slow 0 src0). split; [|split; reflexivity].
        apply list_lookup_insert_eq. apply load_Some in Hld.
        eapply lookup_lt_Some. exact Hld.
      * destruct Hsil as (src & Hsrc & Hs).
        exists src. split; [|exact Hs].
        rewrite list_lookup_insert_ne by congruence. exact Hsrc.
    + unfold set_spike_source_rate in Hrun.
      rewrite Hg, Hld in Hrun. discriminate Hrun.
  - unfold set_spike_source_rate in Hrun. rewrite Hguard in Hrun.
    injection Hrun as <-. split; assumption.
Qed.

Lemma silent_deliver i c st st' :
  deliver c st = Ok st' ->
  0 <= slow_rate_per_tick_cutoff (parameters st) /\ silent_at i st ->
  0 <= slow_rate_per_tick_cutoff (parameters st') /\ silent_at i st'.
Proof.
  destruct c as [t1|mc_key payload|items]; cbn [deliver].
  - apply silent_tick.
  - unfold multicast_packet_callback. apply silent_rate.
  - unfold sdp_packet_callback. revert st.
    induction items as [|[id w] items IH]; intros st Hrun Hinv.
    + injection Hrun as <-. exact Hinv.
    + cbn [sdp_items] in Hrun.
      destruct (set_spike_source_rate id (kbits w) st) as [st1|] eqn:H1;
        [|discriminate].
      cbn [bind] in Hrun.
      exact (IH st1 Hrun (silent_rate i id (kbits w) st st1 H1 Hinv)).
Qed.

(** X19. A rate update silences the source.  After a rate update for a
    source of the core, whatever the rate asked for, when the cutoff is
    not negative: through every sequence of ticks and further rate
    updates that follows, the source stays Slow with a mean interval of
    zero; the pass of a tick over it is the identity and it generates no
    spike. *)
Theorem rate_update_silences id rate cs st st1 st2 :
  first_source_id (parameters st) <= u32 id ->
  u32 (u32 id - first_source_id (parameters st))
    < n_spike_sources (parameters st) ->
  0 <= slow_rate_per_tick_cutoff (parameters st) ->
  set_spike_source_rate id rate st = Ok st1 ->
  deliver_all cs st1 = Ok st2 ->
  silent_at (Z.to_nat (u32 (u32 id - first_source_id (parameters st)))) st2
  /\ spikes_generated (u32 (u32 id - first_source_id (parameters st))) st2
     = 0
  /\ source_tick (u32 (u32 id - first_source_id (parameters st))) st2
     = Ok st2.
Proof.
  intros Hlo Hhi Hcut Hset Hrun.
  set (sub := u32 (u32 id - first_source_id (parameters st))) in *.
  assert (H1 : 0 <= slow_rate_per_tick_cutoff (parameters st1)
               /\ silent_at (Z.to_nat sub) st1).
  { destruct (load (spike_source_array st) sub) as [src0|] eqn:Hld.
    - rewrite (set_rate_in_range id rate st src0 Hlo Hhi Hld) in Hset.
      injection Hset as <-. split; [exact Hcut|].
      destruct (Z.ltb_spec (slow_rate_per_tick_cutoff (parameters st)) 0);
        [lia|].
      exists (set_slow 0 src0). split; [|split; reflexivity].
      cbn [spike_source_array set_spike_source_array].
      apply list_lookup_insert_eq. apply load_Some in Hld.
      eapply lookup_lt_Some. exact Hld.
    - unfold set_spike_source_rate in Hset. unfold sub in Hld, Hhi.
      apply Z.leb_le in Hlo. apply Z.ltb_lt in Hhi.
      rewrite Hlo, Hhi, Hld in Hset. discriminate Hset. }
  assert (H2 : 0 <= slow_rate_per_tick_cutoff (parameters st2)
               /\ silent_at (Z.to_nat sub) st2).
  { clear Hset. revert st1 H1 Hrun.
    induction cs as [|c cs IH]; intros st1 H1 Hrun.
    - injection Hrun as <-. exact H1.
    - cbn [deliver_all] in Hrun.
      destruct (deliver c st1) as [st1'|] eqn:Hc; [|discriminate].
      cbn [bind] in Hrun.
      exact (IH st1' (silent_deliver _ c st1 st1' Hc H1) Hrun). }
  destruct H2 as [_ (src & Hsrc & Hslow & Hisi)].
  split; [exists src; repeat split; assumption|].
  unfold spikes_generated, source_tick, load. rewrite Hsrc. cbn [bind].
  rewrite Hslow, Hisi. cbn [Z.eqb negb]. rewrite !andb_false_r.
  split; reflexivity.
Qed.

End Silence.


(** ** The length of the run *)

Section RunLength.

Context {lib : Library}.

Lemma pause_count_app a b :
  pause_count (a ++ b) = (pause_count a + pause_count b)%nat.
Proof. unfold pause_count. rewrite List.filter_app, length_app. reflexivity. Qed.

Lemma pause_count_packets n k : pause_count (replicate n (EvSendMc k)) = O.
Proof. induction n as [|n IH]; [reflexivity|exact IH]. Qed.

Lemma source_loop_pauses n :
  forall s0 st st', source_loop n s0 st = Ok st' -> pauses st' = pauses st.
Proof.
  induction n as [|n IH]; intros s0 st st' Hrun.
  - injection Hrun as <-. reflexivity.
  - cbn [source_loop] in Hrun.
    destruct (source_tick s0 st) as [st1|] eqn:Ht; [|discriminate].
    cbn [bind] in Hrun. rewrite (IH _ _ _ Hrun). unfold pauses.
    rewrite (source_tick_trace _ _ _ Ht), pause_count_app.
    destruct (has_key (parameters st)); [rewrite pause_count_packets|];
      cbn; lia.
Qed.

Lemma record_spikes_pauses t st st' :
  _record_spikes t st = Ok st' -> pauses st' = pauses st.
Proof.
  unfold _record_spikes, recording_complete_callback.
  cbn [spikes set_recording_in_progress].
  destruct (spikes st) as [b|]; [|intros [= <-]; reflexivity].
  destruct (0 <? n_buffers b); [|intros [= <-]; reflexivity].
  destruct (_ <=? _)%nat; [|discriminate].
  unfold _reset_spikes. cbn [spikes emit set_spikes set_buffer].
  destruct (reset_loop _ _ _); [|discriminate]. cbn [bind].
  intros [= <-]. unfold pauses. cbn -[pause_count].
  rewrite pause_count_app. cbn. lia.
Qed.

(** A tick inside the run. *)
Lemma tick_inside_run t1 st st' :
  timer_callback t1 st = Ok st' ->
  infinite_run st = TRUE \/ u32 (time st + 1) < simulation_ticks st ->
  time st' = u32 (time st + 1)
  /\ sdram st' = sdram st
  /\ infinite_run st' = infinite_run st
  /\ simulation_ticks st' = simulation_ticks st
  /\ pauses st' = pauses st.
Proof.
  unfold timer_callback. intros Hrun Hgo.
  cbn [infinite_run simulation_ticks time set_time] in Hrun.
  assert (Hc : negb (infinite_run st =? TRUE)
               && (simulation_ticks st <=? u32 (time st + 1)) = false).
  { destruct Hgo as [Hinf|Hlt].
    - rewrite Hinf, Z.eqb_refl. reflexivity.
    - apply andb_false_iff. right. apply Z.leb_gt. exact Hlt. }
  rewrite Hc in Hrun.
  pose proof (static_view_fields _ _ (run_tick_static _ _ _ Hrun))
    as (_ & _ & Ht & Hk & Hi & _ & _ & _ & _ & Hs).
  repeat split; try assumption.
  rewrite run_tick_sweep in Hrun.
  destruct (source_loop _ 0 (sweep_start t1 st)) as [st4|] eqn:Hl;
    [|discriminate].
  cbn [bind] in Hrun. apply source_loop_pauses in Hl.
  assert (H0 : pauses (sweep_start t1 st) = pauses st).
  { unfold pauses, sweep_start. cbn -[pause_count].
    rewrite !pause_count_app. cbn. lia. }
  assert (H5 : forall st5,
             (if 0 <? recording_flags st4
              then _record_spikes (time st4) st4 else Ok st4) = Ok st5 ->
             pauses st5 = pauses st4).
  { intros st5. destruct (0 <? recording_flags st4);
      [apply record_spikes_pauses|intros [= <-]; reflexivity]. }
  destruct (if 0 <? recording_flags st4 then _ else _) as [st5|];
    [|discriminate].
  cbn [bind] in Hrun. injection Hrun as <-.
  rewrite <- H0, <- Hl, <- (H5 st5 eq_refl).
  destruct (0 <? recording_flags st5); [|reflexivity].
  unfold pauses. cbn -[pause_count]. rewrite pause_count_app. cbn. lia.
Qed.

(** X20. The ticks inside the run: timer callbacks that do not trap, as
    many as there are ticks left before [simulation_ticks] or any number
    when the run is infinite, each count one tick, so that the tick
    numbers are consecutive modulo 2^32; none of them hands the run to the
    pause, and none writes the shared region. *)
Theorem ticks_inside_run ts st st' :
  0 <= time st < 2 ^ 32 ->
  infinite_run st = TRUE
  \/ u32 (time st + 1) + Z.of_nat (length ts) <= simulation_ticks st ->
  deliver_all (List.map Tick ts) st = Ok st' ->
  time st' = u32 (time st + Z.of_nat (length ts))
  /\ pauses st' = pauses st
  /\ sdram st' = sdram st.
Proof.
  revert st. induction ts as [|t1 ts IH]; intros st Ht Hgo Hrun.
  - injection Hrun as <-. cbn [length Z.of_nat].
    rewrite Z.add_0_r, u32_small by exact Ht. repeat split.
  - cbn [List.map deliver_all deliver] in Hrun.
    destruct (timer_callback t1 st) as [st1|] eqn:H1; [|discriminate].
    cbn [bind] in Hrun. cbn [length] in Hgo |- *.
    destruct (tick_inside_run _ _ _ H1) as (Et & Es & Ei & Ek & Ep).
    { destruct Hgo as [Hinf|Hle]; [left; exact Hinf|right; lia]. }
    destruct (IH st1) as (Et' & Ep' & Es'); [| |exact Hrun|].
    + rewrite Et. apply u32_range.
    + rewrite Ei, Ek, Et. destruct Hgo as [Hinf|Hle]; [left; exact Hinf|].
      right. pose proof (u32_range (time st + 1)) as Hr.
      assert (Hm : u32 (u32 (time st + 1) + 1) <= u32 (time st + 1) + 1).
      { unfold u32 at 1. apply Z.mod_le; lia. }
      lia.
    + rewrite Et', Ep', Es', Et. split; [|split; assumption].
      unfold u32. rewrite Zplus_mod_idemp_l. f_equal. lia.
Qed.

End RunLength.

(** ** Recording and emission *)

Section RecordingIndependence.

Context {lib : Library}.


End RecordingIndependence.

(** * The properties on concrete runs *)

(** A rate update for source 5 on a core that owns source 0 only. *)
Lemma set_rate_out_of_range_noop_witness :
  set_spike_source_rate (lib := counting_library) 5 rate_1000_hz
    one_source_state
  = Ok one_source_state.
Proof.
  apply (set_rate_out_of_range_noop (lib := counting_library)).
  - unfold wf_parameters. cbn. lia.
  - vm_compute. intros [_ H]. discriminate H.
Defined.

(** The silent slow source on tick 5. *)
Lemma source_tick_silent_witness :
  source_tick (lib := counting_library) 0 (set_time 5 one_source_state)
  = Ok (set_time 5 one_source_state).
Proof.
  apply (source_tick_silent (lib := counting_library) 0
           (set_time 5 one_source_state) idle_source).
  - reflexivity.
  - right. split; reflexivity.
Defined.

(** The late source on tick 5: one packet, and the source is still late. *)
Lemma slow_tick_one_crossing_witness :
  exists st',
    source_tick (lib := counting_library) 0 late_state = Ok st'
    /\ trace st' = [EvSendMc 4096]
    /\ spikes st' = None
    /\ load (spike_source_array st') 0
       = Ok (set_time_to_spike (- 3 * REAL_ONE) late_source).
Proof.
  apply (slow_tick_one_crossing (lib := counting_library) 0 late_state
           late_source late_state).
  - reflexivity.
  - reflexivity.
  - change (0 <= 5 < 1000). lia.
  - change (2 ^ 15 <> 0). lia.
  - reflexivity.
Defined.

(** C2 as stated fails on the late source: the loop of the specification
    follows four crossings and sends four packets, the code sends one and
    leaves the source three ticks late. *)
Lemma slow_tick_multiple_crossings_counterexample :
  (exists st',
     slow_tick_spec (lib := counting_library) 8 0 late_state = Ok st'
     /\ sent_keys st' = [4096; 4096; 4096; 4096]
     /\ spike_source_array st' = [set_time_to_spike 0 late_source])
  /\ (exists st',
        source_tick (lib := counting_library) 0 late_state = Ok st'
        /\ sent_keys st' = [4096]
        /\ spike_source_array st'
           = [set_time_to_spike (- 3 * REAL_ONE) late_source])
  /\ source_tick (lib := counting_library) 0 late_state
     <> slow_tick_spec (lib := counting_library) 8 0 late_state.
Proof.
  split; [eexists; split; [vm_compute; reflexivity | split; reflexivity]|].
  split; [eexists; split; [vm_compute; reflexivity | split; reflexivity]|].
  vm_compute. discriminate.
Qed.

(** The end of a run of zero ticks. *)
Lemma timer_callback_at_end_of_run_witness :
  exists st',
    timer_callback (lib := counting_library) 0 finished_state = Ok st'
    /\ sdram_sources (sdram st') = [idle_source]
    /\ sdram_parameters (sdram st') = ms_parameters true 1
    /\ trace st' = [EvPauseResume]
    /\ time st' = 2 ^ 32 - 1
    /\ spike_source_array st' = [idle_source]
    /\ parameters st' = ms_parameters true 1
    /\ spikes st' = None
    /\ n_spike_buffers_allocated st' = 0
    /\ expected_time st' = 0.
Proof.
  apply (timer_callback_at_end_of_run (lib := counting_library) 0
           finished_state).
  - change (0 <= 2 ^ 32 - 1 < 2 ^ 32). lia.
  - change (0 <> 1). lia.
  - vm_compute. discriminate.
  - reflexivity.
  - change (1 <= 1). lia.
Defined.

(** C4 as stated fails with recording off: the run is over, the handler
    pauses, and the recorder is not finalised. *)
Lemma pause_without_recording_counterexample :
  infinite_run finished_state <> TRUE
  /\ simulation_ticks finished_state <= u32 (time finished_state + 1)
  /\ exists st',
       timer_callback (lib := counting_library) 0 finished_state = Ok st'
       /\ trace st' = [EvPauseResume]
       /\ ~ In EvRecordingFinalise (trace st').
Proof.
  split; [discriminate|]. split; [vm_compute; discriminate|].
  eexists. split; [vm_compute; reflexivity|]. split; [reflexivity|].
  cbn. intros [H|[]]. discriminate H.
Qed.

(** A first mark of three spikes of source 1, and the bits after the sweep
    in which source 0 generated three spikes and source 1 one. *)
Lemma mark_spike_layers_witness :
  (exists st',
     _mark_spike 1 3 recording_state = Ok st'
     /\ n_spike_buffers_allocated st' = 3
     /\ Z.of_nat (length (buffer_words st')) = 3
     /\ n_layers st' = 3
     /\ forall k s,
          0 <= k < 3 -> 0 <= s < 32 ->
          out_spike_bit st' k s = false || ((k <? 3) && (s =? 1)))
  /\ (out_spike_bit swept_state 2 0 = true <-> 2 < 3)
  /\ (out_spike_bit swept_state 1 1 = true <-> 1 < 1).
Proof.
  assert (Hwf : wf_buffer recording_state)
    by (unfold wf_buffer; vm_compute; repeat split;
        (reflexivity || discriminate)).
  assert (Hsweep :
            source_loop (lib := counting_library) 2 0 recording_state
            = Ok swept_state) by (vm_compute; reflexivity).
  assert (Hfit :
            Forall (fun c => 8 + c * spike_buffer_size recording_state
                             < 2 ^ 32)
              (sweep_counts (lib := counting_library) 2 0 recording_state)).
  { replace (sweep_counts (lib := counting_library) 2 0 recording_state)
      with [3; 1] by (vm_compute; reflexivity).
    repeat constructor. }
  split; [|split].
  - apply (proj1 (mark_spike_layers (lib := counting_library)) 1 3
             recording_state).
    + change (0 < 1). lia.
    + lia.
    + exact Hwf.
    + change (0 <= 1 < 32 * 1). lia.
    + change (8 + 3 * 4 < 2 ^ 32). lia.
    + intros _. change (8 + 3 * 4 <= 4096). lia.
  - apply (proj2 (mark_spike_layers (lib := counting_library)) 2%nat
             recording_state swept_state Hsweep).
    + change (0 < 1). lia.
    + exact Hwf.
    + split; [reflexivity | exact I].
    + change (2 <= 32 * 1). lia.
    + exact Hfit.
    + lia.
    + change (0 <= 2 < 3). lia.
  - apply (proj2 (mark_spike_layers (lib := counting_library)) 2%nat
             recording_state swept_state Hsweep).
    + change (0 < 1). lia.
    + exact Hwf.
    + split; [reflexivity | exact I].
    + change (2 <= 32 * 1). lia.
    + exact Hfit.
    + lia.
    + change (0 <= 1 < 3). lia.
Defined.

(** The flush of the swept buffer on tick 5. *)
Lemma record_spikes_flush_witness :
  exists st',
    _record_spikes 5 swept_state = Ok st'
    /\ trace st'
       = trace swept_state ++ [EvRecordAndNotify 0 [5; 3; 3; 1; 1]]
    /\ buffer_reset st'
    /\ wf_buffer st'
    /\ n_spike_buffers_allocated st' = 3
    /\ buffer_words st' = [0; 0; 0]
    /\ (layers_zero_from 3 swept_state ->
        buffer_words st' = zero_first_layers 3 swept_state [3; 1; 1]).
Proof.
  apply (record_spikes_flush 5 swept_state
           {| tos_time := 0; n_buffers := 3; out_spikes := [3; 1; 1] |}).
  - unfold wf_buffer; vm_compute; repeat split;
      (reflexivity || discriminate).
  - reflexivity.
  - change (0 < 3). lia.
Defined.



(** ** The tick of the recording core *)

(** The tick that follows tick 5 on the recording core. *)
Lemma timer_callback_keeps_table_witness :
  table_shape recorded_tick_state = table_shape recording_state
  /\ length (spike_source_array recorded_tick_state)
     = length (spike_source_array recording_state)
  /\ fixed_parameters (parameters recorded_tick_state)
     = fixed_parameters (parameters recording_state)
  /\ simulation_ticks recorded_tick_state = simulation_ticks recording_state
  /\ infinite_run recorded_tick_state = infinite_run recording_state
  /\ time_between_spikes recorded_tick_state
     = time_between_spikes recording_state
  /\ recording_flags recorded_tick_state = recording_flags recording_state
  /\ n_spike_buffer_words recorded_tick_state
     = n_spike_buffer_words recording_state
  /\ spike_buffer_size recorded_tick_state
     = spike_buffer_size recording_state.
Proof.
  apply (timer_callback_keeps_table (lib := counting_library) 9
           recording_state recorded_tick_state).
  vm_compute. reflexivity.
Defined.

(** The fast source of the recording core draws three spikes. *)
Lemma fast_tick_dispatch_witness :
  exists st',
    source_tick (lib := counting_library) 0 recording_state = Ok st'
    /\ trace st' = [EvSendMc 4096; EvSendMc 4096; EvSendMc 4096]
    /\ spike_source_array st' = [fast_source; late_source]
    /\ spikes st' = spikes marked_state
    /\ parameters st' = parameters drawn_state.
Proof.
  apply (fast_tick_dispatch (lib := counting_library) 0 recording_state
           fast_source marked_state).
  - reflexivity.
  - reflexivity.
  - change (0 <= 5 < 1000). lia.
  - vm_compute. reflexivity.
Defined.

(** The fast source whose [exp_minus_lambda] is zero. *)
Lemma fast_tick_clamped_witness :
  source_tick (lib := counting_library) 0 clamped_state = Ok clamped_state
  /\ spikes_generated (lib := counting_library) 0 clamped_state = 0.
Proof.
  apply (fast_tick_clamped (lib := counting_library) 0 clamped_state
           clamped_source).
  - reflexivity.
  - reflexivity.
  - reflexivity.
Defined.

(** The packets of the sweep on the recording core: three of source 0 and
    one of source 1. *)
Lemma source_loop_packets_witness :
  trace swept_state
  = [EvSendMc 4096; EvSendMc 4096; EvSendMc 4096; EvSendMc 4097].
Proof.
  apply (source_loop_packets (lib := counting_library) 2 0 recording_state
           swept_state).
  vm_compute. reflexivity.
Defined.

(** A tick of the core whose only source is silent. *)
Lemma quiet_tick_witness :
  exists st',
    timer_callback (lib := counting_library) 9 (set_time 5 one_source_state)
    = Ok st'
    /\ trace st' = [EvDelay 0; EvOutSpikesReset]
    /\ spike_source_array st' = [idle_source]
    /\ parameters st' = ms_parameters true 1
    /\ spikes st' = None
    /\ n_spike_buffers_allocated st' = 0
    /\ time st' = 6.
Proof.
  apply (quiet_tick (lib := counting_library) 9 (set_time 5 one_source_state)).
  - right. vm_compute. reflexivity.
  - reflexivity.
  - intros i src H. right.
    destruct i as [|i]; [|destruct i; discriminate H].
    injection H as <-. split; reflexivity.
  - change (0 <= 0). lia.
Defined.

(** The first recording tick allocates the three layers it needs. *)
Lemma timer_callback_capacity_grows_witness :
  n_spike_buffers_allocated recording_state
    <= n_spike_buffers_allocated recorded_tick_state
  /\ (is_Some (spikes recording_state) ->
      is_Some (spikes recorded_tick_state)).
Proof.
  apply (timer_callback_capacity_grows (lib := counting_library) 9
           recording_state recorded_tick_state).
  vm_compute. reflexivity.
Defined.

(** The events of that tick. *)
Lemma tick_recording_trace_witness :
  exists st4,
    source_loop (lib := counting_library) 2 0 (sweep_start 9 recording_state)
    = Ok st4
    /\ trace recorded_tick_state
       = [EvDelay 0; EvOutSpikesReset;
          EvSendMc 4096; EvSendMc 4096; EvSendMc 4096; EvSendMc 4097;
          EvRecordAndNotify 0 (6 :: 3 :: take 3 (buffer_words st4));
          EvTimestepUpdate 6].
Proof.
  apply (tick_recording_trace (lib := counting_library) 9 recording_state
           recorded_tick_state).
  - vm_compute. reflexivity.
  - right. vm_compute. reflexivity.
  - change (0 < 1). lia.
  - unfold wf_buffer; vm_compute; repeat split;
      (reflexivity || discriminate).
  - split; [reflexivity | exact I].
  - change (2 <= 32 * 1). lia.
  - replace (sweep_counts (lib := counting_library) _ 0 _)
      with [3; 1] by (vm_compute; reflexivity).
    repeat constructor.
Defined.

(** The heap of the recording core over that tick: 20 bytes move from the
    heap to the buffer. *)
Lemma timer_callback_heap_witness :
  heap_free recorded_tick_state + buffer_bytes recorded_tick_state
  = heap_free recording_state + buffer_bytes recording_state.
Proof.
  apply (timer_callback_heap (lib := counting_library) 9 recording_state
           recorded_tick_state).
  - vm_compute. reflexivity.
  - change (0 < 1). lia.
  - unfold wf_buffer; vm_compute; repeat split;
      (reflexivity || discriminate).
  - change (2 <= 32 * 1). lia.
  - replace (sweep_counts (lib := counting_library) _ 0 _)
      with [3; 1] by (vm_compute; reflexivity).
    repeat constructor.
Defined.

(** The invariant after that tick. *)
Lemma timer_callback_keeps_core_inv_witness : core_inv recorded_tick_state.
Proof.
  apply (timer_callback_keeps_core_inv (lib := counting_library) 9
           recording_state recorded_tick_state).
  - split; [reflexivity|].
    split; [unfold wf_buffer; vm_compute; repeat split;
            (reflexivity || discriminate)|].
    split; [change (2 <= 32 * 1); lia|].
    split; [change (0 <= 1); lia|].
    split; [split; [reflexivity | exact I]|].
    intros H. discriminate H.
  - replace (sweep_counts (lib := counting_library) _ 0 _)
      with [3; 1] by (vm_compute; reflexivity).
    repeat constructor.
  - vm_compute. reflexivity.
Defined.


(** The same tick on a heap of 10 bytes: the buffer of three layers for
    the fast source takes 20. *)
Lemma timer_callback_out_of_memory_witness :
  timer_callback (lib := counting_library) 9 tight_state = Fail RTE_SWERR.
Proof.
  apply (timer_callback_out_of_memory (lib := counting_library) 9
           tight_state 0 (sweep_start 9 tight_state)).
  - right. vm_compute. reflexivity.
  - change (0 < 2)%nat. lia.
  - reflexivity.
  - change (0 < 1). lia.
  - unfold wf_buffer; vm_compute; repeat split;
      (reflexivity || discriminate).
  - vm_compute. reflexivity.
  - vm_compute. reflexivity.
  - vm_compute. reflexivity.
Defined.

(** The deadline after the tick of the recording core, whose packets are
    not spread. *)
Lemma timer_callback_deadline_witness :
  expected_time recorded_tick_state = 9.
Proof.
  apply (timer_callback_deadline (lib := counting_library) 9 recording_state
           recorded_tick_state).
  - vm_compute. reflexivity.
  - right. vm_compute. reflexivity.
Defined.

(** The ticks 6 and 7 of the recording core. *)
Lemma ticks_inside_run_witness :
  time two_ticks_state = 7
  /\ pauses two_ticks_state = pauses recording_state
  /\ sdram two_ticks_state = sdram recording_state.
Proof.
  apply (ticks_inside_run (lib := counting_library) [9; 10] recording_state
           two_ticks_state).
  - change (0 <= 5 < 2 ^ 32). lia.
  - right. vm_compute. discriminate.
  - vm_compute. reflexivity.
Defined.

(** ** Rate updates *)

(** A rate of 1000 Hz for source 0 of the late core, from the fabric. *)
Lemma rate_updates_keep_schedule_witness :
  updated_state
  = set_spike_source_array (spike_source_array updated_state) late_state
  /\ table_schedule updated_state = table_schedule late_state
  /\ forall i,
       i <> Z.to_nat
              (u32 (u32 (Z.land (u32 0x1000)
                           (set_rate_neuron_id_mask (parameters late_state)))
                    - first_source_id (parameters late_state))) ->
       spike_source_array updated_state !! i
       = spike_source_array late_state !! i.
Proof.
  apply (proj1 (rate_updates_keep_schedule (lib := counting_library)) 0x1000
           rate_1000_hz late_state updated_state).
  vm_compute. reflexivity.
Defined.

(** Rate updates on the late core. *)
Lemma rate_updates_safe_witness :
  (forall mc_key payload,
     exists st',
       multicast_packet_callback (lib := counting_library) mc_key payload
         late_state = Ok st'
       /\ core_inv st')
  /\ (forall items,
        exists st',
          sdp_packet_callback (lib := counting_library) items late_state
          = Ok st'
          /\ core_inv st').
Proof.
  apply (rate_updates_safe (lib := counting_library) late_state).
  split; [reflexivity|].
  split; [unfold wf_buffer; vm_compute; repeat split;
          (reflexivity || discriminate)|].
  split; [change (1 <= 32 * 1); lia|].
  split; [change (0 <= 0); lia|].
  split; [split; [reflexivity | exact I]|].
  intros _. reflexivity.
Defined.

(** 1000 Hz asked for the late source, then a tick, 100 Hz asked, and a
    tick. *)
Lemma rate_update_silences_witness :
  silent_at 0 updated_run_state
  /\ spikes_generated (lib := counting_library) 0 updated_run_state = 0
  /\ source_tick (lib := counting_library) 0 updated_run_state
     = Ok updated_run_state.
Proof.
  apply (rate_update_silences (lib := counting_library) 0 rate_1000_hz
           updated_run late_state updated_state updated_run_state).
  - change (0 <= 0). lia.
  - change (0 < 1). lia.
  - change (0 <= 2 ^ 13). lia.
  - vm_compute. reflexivity.
  - vm_compute. reflexivity.
Defined.

(** ** Start, pause and resume *)

(** The end of the run of zero ticks, and the resume. *)
Lemma pause_resume_round_trip_witness :
  exists st1 st2,
    timer_callback (lib := counting_library) 0 finished_state = Ok st1
    /\ resume_callback (slib := plain_start_library) st1
       = Ok (st2, [CallRecordingReset])
    /\ spike_source_array st2 = [idle_source]
    /\ time st2 = 2 ^ 32 - 1
    /\ parameters st2 = ms_parameters true 1
    /\ spikes st2 = None
    /\ n_spike_buffers_allocated st2 = 0
    /\ heap_free st2 = 4096.
Proof.
  apply (pause_resume_round_trip (lib := counting_library)
           (slib := plain_start_library) 0 finished_state).
  - change (0 <= 2 ^ 32 - 1 < 2 ^ 32). lia.
  - change (0 <> 1). lia.
  - vm_compute. discriminate.
  - reflexivity.
  - change (1 <= 1). lia.
  - reflexivity.
  - change (1 * 24 < 2 ^ 32). lia.
Defined.

(** A resume of the late core, whose table has one record, when the
    region announces two sources. *)
Lemma resume_keeps_allocation_witness :
  resume_callback (slib := plain_start_library) grown_region_state
  = Fail BadAccess.
Proof.
  apply (resume_keeps_allocation (slib := plain_start_library)
           grown_region_state).
  - discriminate.
  - change (0 < 2). lia.
  - change (2 * 24 < 2 ^ 32). lia.
  - change (2 <= 2). lia.
  - change (1 < 2). lia.
Defined.


(** The same start on a heap of 10 bytes. *)
Lemma c_main_fails_witness :
  c_main (lib := counting_library) (slib := plain_start_library) good_boot
    (power_on two_source_region 10)
  = Fail RTE_SWERR.
Proof.
  apply (c_main_fails (lib := counting_library)
           (slib := plain_start_library) good_boot two_source_region 10).
  right. right. right. split.
  - change (0 < 2). lia.
  - change (10 < 48). lia.
Defined.
